(** * Hospital inventory management: model, repository and store

    A shallow embedding of the TypeScript core of the inventory tracker
    ([models/base/Model.ts], [models/Asset.ts], [models/HospitalAsset.ts],
    [repositories/base/Repository.ts], [repositories/AssetRepository.ts],
    [stores/assets.ts]) together with the properties its specification
    states about it (Part IV) and further properties read off the code
    (Part V).

    Conventions of the embedding:
    - a JavaScript [number] is an IEEE 754 binary64 value, i.e. Rocq's
      primitive [float]; [<], [<=], [*] and [+] are the primitive operations;
    - a JavaScript string is a [string] whose characters stand for code units;
    - objects that the program mutates and shares (entities, arrays) live in
      an explicit heap and are passed around by address;
    - each operation is followed on its own, from its call to its return:
      the program is single threaded, so [await] is sequencing and a
      rejected promise is a thrown error. *)

From Stdlib Require Import ZArith Lia Bool List String Ascii Floats Sorted Permutation.
From stdpp Require Import base option list gmap strings.

Set Warnings "-inexact-float".
Local Open Scope string_scope.
Local Open Scope list_scope.
Local Open Scope Z_scope.

(** * Part I. The JavaScript runtime the program relies on *)

(** ** Numbers *)

Abbreviation number := float.

Module Number.

(** [a > b] is [b < a]. *)
Definition gtb (a b : number) : bool := (b <? a)%float.

(** [Number.isInteger]: finite, and without a fractional part. A finite
    float is [m * 2^e]; it is a whole number when [e >= 0] or when [2^-e]
    divides [m]. *)
Definition isInteger (x : number) : bool :=
  match Prim2SF x with
  | S754_zero _ => true
  | S754_finite _ m e => (0 <=? e) || (Z.pos m mod 2 ^ (- e) =? 0)
  | S754_infinity _ | S754_nan => false
  end.

(** Truthiness of a number: everything but [+0], [-0] and [NaN]. *)
Definition truthy (x : number) : bool := negb (is_zero x) && negb (is_nan x).

(** The number for a whole value below [2^63] in magnitude. *)
Definition ofZ (z : Z) : number :=
  if z <? 0 then (- of_uint63 (Uint63.of_Z (- z)))%float else of_uint63 (Uint63.of_Z z).

End Number.

(** ** Strings

    A [string] is read as a sequence of code units below 256 (the Latin-1
    range of UTF-16); the operations below are the restrictions of the
    ECMAScript ones to that range. *)

Module JsString.

Definition code (c : ascii) : N := N_of_ascii c.

Definition between (lo hi : N) (c : ascii) : bool :=
  ((lo <=? code c) && (code c <=? hi))%N.

Definition is_upper (c : ascii) : bool := between 65 90 c.
Definition is_digit (c : ascii) : bool := between 48 57 c.

(** White space and line terminators removed by [trim]: TAB, LF, VT, FF, CR,
    SPACE and NO-BREAK SPACE. *)
Definition is_space (c : ascii) : bool :=
  between 9 13 c || (code c =? 32)%N || (code c =? 160)%N.

(** Letters with a lower-case partner: [A-Z], and the Latin-1 capitals
    U+00C0..U+00DE except the multiplication sign U+00D7. *)
Definition lower_char (c : ascii) : ascii :=
  if is_upper c || (between 192 222 c && negb (code c =? 215)%N)
  then ascii_of_N (code c + 32) else c.

Fixpoint toLowerCase (s : string) : string :=
  match s with
  | EmptyString => EmptyString
  | String c r => String (lower_char c) (toLowerCase r)
  end.

Definition is_empty (s : string) : bool :=
  match s with EmptyString => true | String _ _ => false end.

(** A string is falsy exactly when it is empty. *)
Definition truthy (s : string) : bool := negb (is_empty s).

Fixpoint trimStart (s : string) : string :=
  match s with
  | EmptyString => EmptyString
  | String c r => if is_space c then trimStart r else s
  end.

Fixpoint trimEnd (s : string) : string :=
  match s with
  | EmptyString => EmptyString
  | String c r =>
      let r' := trimEnd r in
      if is_space c && is_empty r' then EmptyString else String c r'
  end.

Definition trim (s : string) : string := trimEnd (trimStart s).

(** [s.includes(sub)]: [sub] occurs in [s] as a contiguous block. *)
Fixpoint includes (s sub : string) : bool :=
  String.prefix sub s ||
  match s with
  | EmptyString => false
  | String _ r => includes r sub
  end.

(** [a > b] and [a < b] on strings compare code units lexicographically. *)
Definition ltb (a b : string) : bool := String.ltb a b.
Definition gtb (a b : string) : bool := String.ltb b a.

(** [parts.join(sep)]. *)
Fixpoint join (sep : string) (parts : list string) : string :=
  match parts with
  | [] => ""
  | [x] => x
  | x :: rest => x +:+ sep +:+ join sep rest
  end.

(** [s.startsWith(prefix)] *)
Definition startsWith (prefix s : string) : bool := String.prefix prefix s.

Fixpoint drop (n : nat) (s : string) : string :=
  match n, s with
  | O, _ => s
  | S n', String _ r => drop n' r
  | S _, EmptyString => EmptyString
  end.

(** [s.replace(pattern, replacement)] for a string pattern and a replacement
    without [$]: only the first occurrence is replaced. *)
Fixpoint replace (pattern replacement s : string) : string :=
  if String.prefix pattern s then replacement +:+ drop (String.length pattern) s
  else match s with
       | EmptyString => EmptyString
       | String c r => String c (replace pattern replacement r)
       end.

End JsString.

(** ** Dates

    A [Date] object holds a time value: a whole number of milliseconds since
    the epoch, or [NaN] for an invalid date. *)

Inductive Date := ValidDate (ms : Z) | InvalidDate.

Module Date.

(** Time values range over 100,000,000 days on either side of the epoch. *)
Definition msPerDay : Z := 86400000.
Definition maxTime : Z := 8640000000000000.

Definition in_range (t : Z) : bool := (- maxTime <=? t) && (t <=? maxTime).

(** The proleptic Gregorian calendar, computed over 400-year eras that
    start on 1 March: the day of the era determines the year of the era,
    the month and the day of the month, and conversely. *)
Definition daysPerEra : Z := 146097.
Definition eraShift : Z := 719468.        (* days from 0000-03-01 to 1970-01-01 *)

Definition yearOfEra (doe : Z) : Z :=
  (doe - doe / 1460 + doe / 36524 - doe / 146096) / 365.

Definition dayOfYear (doe : Z) : Z :=
  let yoe := yearOfEra doe in doe - (365 * yoe + yoe / 4 - yoe / 100).

(** Months are counted from March ([0]) to February ([11]). *)
Definition monthFromMarch (doy : Z) : Z := (5 * doy + 2) / 153.
Definition firstDayOfMonth (mp : Z) : Z := (153 * mp + 2) / 5.

Definition civilMonth (mp : Z) : Z := if mp <? 10 then mp + 3 else mp - 9.
Definition marchMonth (m : Z) : Z := if 2 <? m then m - 3 else m + 9.

(** Year, month (1..12) and day (1..31) of a day number. *)
Definition civilFromDays (days : Z) : Z * Z * Z :=
  let z := days + eraShift in
  let era := z / daysPerEra in
  let doe := z mod daysPerEra in
  let doy := dayOfYear doe in
  let mp := monthFromMarch doy in
  let m := civilMonth mp in
  let y := yearOfEra doe + era * 400 in
  (if m <=? 2 then y + 1 else y, m, doy - firstDayOfMonth mp + 1).

Definition daysFromCivil (y m d : Z) : Z :=
  let y' := if m <=? 2 then y - 1 else y in
  let era := y' / 400 in
  let yoe := y' mod 400 in
  let doy := firstDayOfMonth (marchMonth m) + d - 1 in
  era * daysPerEra + (yoe * 365 + yoe / 4 - yoe / 100 + doy) - eraShift.

(** Decimal fields of fixed width. *)
Definition digitChar (d : Z) : ascii := ascii_of_N (48 + Z.to_N d).

Fixpoint pad (w : nat) (n : Z) : string :=
  match w with
  | O => EmptyString
  | S w' => String (digitChar ((n / 10 ^ Z.of_nat w') mod 10)) (pad w' n)
  end.

Definition formatYear (y : Z) : string :=
  if (0 <=? y) && (y <=? 9999) then pad 4 y
  else String (if y <? 0 then "-"%char else "+"%char) (pad 6 (Z.abs y)).

(** [d.toISOString()]: [YYYY-MM-DDTHH:mm:ss.sssZ], with a sign and six
    digits for years outside 0..9999; an invalid date makes it throw a
    [RangeError] ([None]). *)
Definition toISOString (d : Date) : option string :=
  match d with
  | InvalidDate => None
  | ValidDate t =>
      if in_range t then
        let '(y, m, dd) := civilFromDays (t / msPerDay) in
        let r := t mod msPerDay in
        Some (formatYear y +:+ "-" +:+ pad 2 m +:+ "-" +:+ pad 2 dd +:+ "T"
              +:+ pad 2 (r / 3600000) +:+ ":" +:+ pad 2 (r / 60000 mod 60) +:+ ":"
              +:+ pad 2 (r / 1000 mod 60) +:+ "." +:+ pad 3 (r mod 1000) +:+ "Z")
      else None
  end.

(** Reading the same format back. *)
Fixpoint takeDigits (w : nat) (acc : Z) (s : string) : option (Z * string) :=
  match w with
  | O => Some (acc, s)
  | S w' =>
      match s with
      | String c r =>
          if JsString.is_digit c
          then takeDigits w' (acc * 10 + Z.of_N (JsString.code c - 48)) r
          else None
      | EmptyString => None
      end
  end.

Definition expect (c : ascii) (s : string) : option string :=
  match s with
  | String c' r => if Ascii.eqb c c' then Some r else None
  | EmptyString => None
  end.

Definition takeYear (s : string) : option (Z * string) :=
  match s with
  | String c r =>
      if Ascii.eqb c "+" then takeDigits 6 0 r
      else if Ascii.eqb c "-" then
        match takeDigits 6 0 r with
        | Some (y, r') => if y =? 0 then None else Some (- y, r')
        | None => None
        end
      else takeDigits 4 0 s
  | EmptyString => None
  end.

(** [Date.parse(s)] for a string in the format [toISOString] writes; [None]
    stands for [NaN]. Other date formats, which [Date.parse] also reads, are
    not part of the model. *)
Definition parse (s : string) : option Z :=
  '(y, s) ← takeYear s;
  s ← expect "-" s; '(m, s) ← takeDigits 2 0 s;
  s ← expect "-" s; '(d, s) ← takeDigits 2 0 s;
  s ← expect "T" s; '(hh, s) ← takeDigits 2 0 s;
  s ← expect ":" s; '(mm, s) ← takeDigits 2 0 s;
  s ← expect ":" s; '(ss, s) ← takeDigits 2 0 s;
  s ← expect "." s; '(ms, s) ← takeDigits 3 0 s;
  s ← expect "Z" s;
  if JsString.is_empty s
     && (1 <=? m) && (m <=? 12) && (1 <=? d) && (d <=? 31)
     && (hh <=? 23) && (mm <=? 59) && (ss <=? 59)
  then
    let t := daysFromCivil y m d * msPerDay + hh * 3600000 + mm * 60000 + ss * 1000 + ms in
    if in_range t then Some t else None
  else None.

End Date.

(** ** Values of type [any] *)

Inductive value :=
| VUndefined
| VNull
| VBool (b : bool)
| VNum (n : number)
| VStr (s : string)
| VDate (d : Date)
| VObject.   (* some other object or function; only its identity as "an object" matters *)

Module Value.

Definition truthy (v : value) : bool :=
  match v with
  | VUndefined | VNull => false
  | VBool b => b
  | VNum n => Number.truthy n
  | VStr s => JsString.truthy s
  | VDate _ | VObject => true
  end.

(** [a || b] *)
Definition or (a b : value) : value := if truthy a then a else b.

(** [v === undefined || v === null || v === ''] *)
Definition is_blank (v : value) : bool :=
  match v with
  | VUndefined | VNull => true
  | VStr s => JsString.is_empty s
  | _ => false
  end.

End Value.

(** ** Objects used as records: the order of own properties

    [Object.fromEntries] builds an ordinary object, and [Object.values],
    [Object.entries] enumerate its own properties: first the keys that are
    array indices, in ascending numeric order, then the other string keys in
    the order they were created. An object is modelled by the list of its
    entries in that order. *)

Module Object.

Fixpoint digits (acc : N) (s : string) : option N :=
  match s with
  | EmptyString => Some acc
  | String c r =>
      if JsString.is_digit c then digits (acc * 10 + (JsString.code c - 48))%N r
      else None
  end.

(** A key is an array index when it is the canonical decimal form of an
    integer below [2^32 - 1]. *)
Definition array_index (k : string) : option N :=
  match k with
  | EmptyString => None
  | String c r =>
      if (JsString.code c =? 48)%N
      then (if JsString.is_empty r then Some 0%N else None)
      else match digits 0 k with
           | Some n => if (n <? 4294967295)%N then Some n else None
           | None => None
           end
  end.

Section Entries.
Context {V : Type}.

Fixpoint insert_index (n : N) (e : string * V) (l : list (N * (string * V)))
  : list (N * (string * V)) :=
  match l with
  | [] => [(n, e)]
  | (m, e') :: r =>
      if (n <? m)%N then (n, e) :: l else (m, e') :: insert_index n e r
  end.

(** The entries with an array-index key, by ascending index. *)
Fixpoint indexed (l : list (string * V)) : list (N * (string * V)) :=
  match l with
  | [] => []
  | e :: r =>
      match array_index e.1 with
      | Some n => insert_index n e (indexed r)
      | None => indexed r
      end
  end.

Definition named (l : list (string * V)) : list (string * V) :=
  List.filter (fun e => match array_index e.1 with Some _ => false | None => true end) l.

(** [Object.fromEntries(m)] for a [Map] [m] (whose keys are distinct),
    as the list [Object.entries] returns for the result. *)
Definition fromEntries (l : list (string * V)) : list (string * V) :=
  List.map snd (indexed l) ++ named l.

(** [Object.values(o)] *)
Definition values (o : list (string * V)) : list V := List.map snd o.

End Entries.

End Object.

(** ** Arrays: [Array.prototype.sort]

    The sort of ECMAScript is stable, and with a consistent comparator its
    result is the sorted permutation of the array. It is modelled by a
    stable insertion sort that moves an element past another only when the
    comparator returns a positive number for the pair. The comparator's
    results are whole numbers. *)

Module Array.

Section Sort.
Context {A : Type} (cmp : A -> A -> Z).

Fixpoint insert (x : A) (l : list A) : list A :=
  match l with
  | [] => [x]
  | y :: r => if 0 <? cmp x y then y :: insert x r else x :: l
  end.

Fixpoint sort (l : list A) : list A :=
  match l with
  | [] => []
  | x :: r => insert x (sort r)
  end.

End Sort.

End Array.

(** ** Results of operations that may throw *)

Inductive result (A : Type) :=
| Ok (a : A)
| Throw (message : string).   (* an [Error] object; only its message is observed *)
Arguments Ok {A} a.
Arguments Throw {A} message.

(** * Part II. The entities *)

(** ** Model: errors and dirty tracking ([models/base/Model.ts]) *)

Module Model.

(** [Map<keyof T, string[]>], in insertion order; the keys are distinct. *)
Definition Errors := list (string * list string).

Definition hasErrors (e : Errors) : bool := (0 <? length e)%nat.

Fixpoint addError (field message : string) (e : Errors) : Errors :=
  match e with
  | [] => [(field, [message])]
  | (f, ms) :: r =>
      if String.eqb f field then (f, ms ++ [message]) :: r
      else (f, ms) :: addError field message r
  end.

Definition clearErrors : Errors := [].

(** [getErrors()] is [Object.fromEntries(this.errors)]. *)
Definition getErrors (e : Errors) : list (string * list string) := Object.fromEntries e.

End Model.

(** ** Asset ([models/Asset.ts]) *)

Inductive CriticalLevel := critical | essential | routine.

(** A date field is declared as [Date]; an object built from a serialized
    record carries the ISO string instead, so both shapes are kept. *)
Inductive DateField := FDate (d : Date) | FIso (s : string).

Record AssetData := mkAssetData {
  id : string;
  name : string;
  manufacturer : string;
  category : string;
  quantity : number;
  serialNumber : string;
  criticalLevel : CriticalLevel;
  lastMaintenance : option DateField;
  expiryDate : option DateField;
  reorderPoint : number
}.

(** [Partial<AssetData>] *)
Record PartialAssetData := mkPartialAssetData {
  p_id : option string;
  p_name : option string;
  p_manufacturer : option string;
  p_category : option string;
  p_quantity : option number;
  p_serialNumber : option string;
  p_criticalLevel : option CriticalLevel;
  p_lastMaintenance : option DateField;
  p_expiryDate : option DateField;
  p_reorderPoint : option number
}.

(** What a serialized asset looks like: dates are ISO strings. *)
Record AssetRecord := mkAssetRecord {
  r_id : string;
  r_name : string;
  r_manufacturer : string;
  r_category : string;
  r_quantity : number;
  r_serialNumber : string;
  r_criticalLevel : CriticalLevel;
  r_lastMaintenance : option string;
  r_expiryDate : option string;
  r_reorderPoint : number
}.

Module Asset.

Record t := mk {
  data : AssetData;
  errors : Model.Errors;
  isDirty : bool
}.

(** [s || d] for an optional string *)
Definition str_or (s : option string) (d : string) : string :=
  match s with
  | Some x => if JsString.truthy x then x else d
  | None => d
  end.

(** [initialize]; [generated] is what [generateId()] returns when called. *)
Definition initialize (generated : string) (p : PartialAssetData) : AssetData :=
  {| id := str_or (p_id p) generated;
     name := str_or (p_name p) "";
     manufacturer := str_or (p_manufacturer p) "";
     category := str_or (p_category p) "";
     quantity := match p_quantity p with Some q => q | None => 0%float end;
     serialNumber := str_or (p_serialNumber p) "";
     criticalLevel := match p_criticalLevel p with Some l => l | None => routine end;
     lastMaintenance := p_lastMaintenance p;
     expiryDate := p_expiryDate p;
     reorderPoint := match p_reorderPoint p with Some r => r | None => 10%float end |}.

Definition new (generated : string) (p : PartialAssetData) : t :=
  {| data := initialize generated p; errors := []; isDirty := false |}.

(** [set(key, value)]: the update of one field, and the dirty mark. *)
Definition set (update : AssetData -> AssetData) (a : t) : t :=
  {| data := update (data a); errors := errors a; isDirty := true |}.

Definition markAsClean (a : t) : t :=
  {| data := data a; errors := errors a; isDirty := false |}.

Definition hasErrors (a : t) : bool := Model.hasErrors (errors a).
Definition getErrors (a : t) := Model.getErrors (errors a).

(** [/^[A-Z]{2}-\d{6}$/] *)
Definition matchesSerial (s : string) : bool :=
  match s with
  | String a (String b (String h (String d1 (String d2 (String d3
      (String d4 (String d5 (String d6 EmptyString)))))))) =>
      JsString.is_upper a && JsString.is_upper b && Ascii.eqb h "-"
      && forallb JsString.is_digit [d1; d2; d3; d4; d5; d6]
  | _ => false
  end.

(** The four groups of rules of [validate], each adding at most one error. *)
Definition checkName (d : AssetData) (e : Model.Errors) : Model.Errors :=
  if negb (JsString.truthy (JsString.trim (name d)))
  then Model.addError "name" "Name is required" e
  else if (100 <? String.length (name d))%nat
  then Model.addError "name" "Name must be less than 100 characters" e
  else e.

(** The test for [undefined] or [null] that comes first in the source never
    succeeds on a value of the declared type [number]. *)
Definition checkQuantity (d : AssetData) (e : Model.Errors) : Model.Errors :=
  if (quantity d <? 0)%float
  then Model.addError "quantity" "Quantity cannot be negative" e
  else if Number.gtb (quantity d) 999999
  then Model.addError "quantity" "Quantity exceeds maximum allowed value" e
  else if negb (Number.isInteger (quantity d))
  then Model.addError "quantity" "Quantity must be a whole number" e
  else e.

Definition checkSerialNumber (d : AssetData) (e : Model.Errors) : Model.Errors :=
  if negb (JsString.truthy (serialNumber d))
  then Model.addError "serialNumber" "Serial number is required" e
  else if negb (matchesSerial (serialNumber d))
  then Model.addError "serialNumber" "Invalid serial number format (should be XX-000000)" e
  else e.

Definition checkReorderPoint (d : AssetData) (e : Model.Errors) : Model.Errors :=
  if (reorderPoint d <? 0)%float
  then Model.addError "reorderPoint" "Reorder point cannot be negative" e
  else e.

(** The errors map after [clearErrors()] and the rules. *)
Definition validation (d : AssetData) : Model.Errors :=
  checkReorderPoint d (checkSerialNumber d (checkQuantity d (checkName d Model.clearErrors))).

(** [validate()]: the object with its errors replaced, and the result. *)
Definition validate (a : t) : t * bool :=
  let e := validation (data a) in
  ({| data := data a; errors := e; isDirty := isDirty a |}, negb (Model.hasErrors e)).

Definition isLowStock (a : t) : bool :=
  (quantity (data a) <? reorderPoint (data a))%float
  && Number.gtb (quantity (data a)) (reorderPoint (data a) * 0.3)%float.

Definition isCritical (a : t) : bool :=
  match criticalLevel (data a) with
  | critical => true
  | _ => (quantity (data a) <=? reorderPoint (data a) * 0.3)%float
  end.

(** [field?.toISOString()] *)
Definition isoOf (f : option DateField) : result (option string) :=
  match f with
  | None => Ok None
  | Some (FDate d) =>
      match Date.toISOString d with
      | Some s => Ok (Some s)
      | None => Throw "Invalid time value"
      end
  | Some (FIso _) => Throw "toISOString is not a function"
  end.

Definition serialize (a : t) : result AssetRecord :=
  let d := data a in
  match isoOf (lastMaintenance d) with
  | Throw m => Throw m
  | Ok lm =>
      match isoOf (expiryDate d) with
      | Throw m => Throw m
      | Ok ex =>
          Ok {| r_id := id d; r_name := name d; r_manufacturer := manufacturer d;
                r_category := category d; r_quantity := quantity d;
                r_serialNumber := serialNumber d; r_criticalLevel := criticalLevel d;
                r_lastMaintenance := lm; r_expiryDate := ex;
                r_reorderPoint := reorderPoint d |}
      end
  end.

End Asset.


(** ** Tenant configuration ([models/HospitalConfig.ts]) *)

Inductive FieldType := FText | FNumber | FDateType | FCurrency | FPercentage | FBoolean.

Record FieldConfig := mkFieldConfig {
  key : string;
  label : string;
  type : FieldType;
  required : option bool;
  visible : option bool;
  sortable : option bool;
  editable : option bool;
  format : option string
}.

(** Theme and feature switches are presentation only and left out. *)
Record HospitalConfig := mkHospitalConfig {
  config_id : string;
  config_name : string;
  fields : list FieldConfig;
  customCategories : option (list string)
}.

(** ** HospitalAsset ([models/HospitalAsset.ts]) *)

(** [condition] is declared as one of four literals, ['New'], ['Good'],
    ['Fair'] and ['Maintenance Required']; it is kept as the string it is at
    run time, so that the constructor's test for a truthy value has a
    meaning. *)
Definition Condition : Type := string.

(** The [data] object of a hospital asset: the ten base properties, always
    present, and the five further ones, present once they were assigned. *)
Record HospitalAssetData := mkHospitalAssetData {
  base : AssetData;
  location : option string;
  condition : option Condition;
  purchasePrice : option number;
  warrantyExpiry : option DateField;
  lastCalibration : option DateField
}.

(** [Partial<HospitalAssetData>] *)
Record PartialHospitalAssetData := mkPartialHospitalAssetData {
  p_base : PartialAssetData;
  p_customFields : option (gmap string value);
  p_location : option string;
  p_condition : option Condition;
  p_purchasePrice : option number;
  p_warrantyExpiry : option DateField;
  p_lastCalibration : option DateField
}.

(** The record [serialize()] returns. *)
Record HospitalAssetRecord := mkHospitalAssetRecord {
  r_base : AssetRecord;
  r_customFields : gmap string value;
  r_location : option string;
  r_condition : option Condition;
  r_purchasePrice : option number;
  r_warrantyExpiry : option string;
  r_lastCalibration : option string
}.

Module HospitalAsset.

Record t := mk {
  data : HospitalAssetData;
  errors : Model.Errors;
  isDirty : bool;
  customFields : gmap string value;
  hospitalConfig : HospitalConfig
}.

(** The object seen at its base class. *)
Definition super (h : t) : Asset.t :=
  {| Asset.data := base (data h); Asset.errors := errors h; Asset.isDirty := isDirty h |}.

Definition with_errors (e : Model.Errors) (h : t) : t :=
  {| data := data h; errors := e; isDirty := isDirty h;
     customFields := customFields h; hospitalConfig := hospitalConfig h |}.

Definition dateTruthy (f : DateField) : bool :=
  match f with
  | FDate _ => true
  | FIso s => JsString.truthy s
  end.

(** [if (x) this.data.k = x]: keep a value only if it is truthy. *)
Definition keep {A : Type} (truthy : A -> bool) (x : option A) : option A :=
  match x with
  | Some v => if truthy v then Some v else None
  | None => None
  end.

(** The constructor. [generated] is the identifier [generateId()] would
    return. *)
Definition new (generated : string) (p : PartialHospitalAssetData) (config : HospitalConfig) : t :=
  let fromInput := default ∅ (p_customFields p) in
  let price := keep Number.truthy (p_purchasePrice p) in
  {| data :=
       {| base := Asset.initialize generated (p_base p);
          location := keep JsString.truthy (p_location p);
          condition := keep JsString.truthy (p_condition p);
          purchasePrice := price;
          warrantyExpiry := keep dateTruthy (p_warrantyExpiry p);
          lastCalibration := keep dateTruthy (p_lastCalibration p) |};
     errors := [];
     isDirty := false;
     customFields :=
       match price with
       | Some x => <["purchasePrice" := VNum x]> fromInput
       | None => fromInput
       end;
     hospitalConfig := config |}.

Definition getCustomField (k : string) (h : t) : value :=
  default VUndefined (customFields h !! k).

Definition setCustomField (k : string) (v : value) (h : t) : t :=
  {| data := data h; errors := errors h; isDirty := true;
     customFields := <[k := v]> (customFields h); hospitalConfig := hospitalConfig h |}.

Definition getAllCustomFields (h : t) : gmap string value := customFields h.

(** [set(key, value)], inherited: the update of one property of [data], and
    the dirty mark. *)
Definition set (update : HospitalAssetData -> HospitalAssetData) (h : t) : t :=
  {| data := update (data h); errors := errors h; isDirty := true;
     customFields := customFields h; hospitalConfig := hospitalConfig h |}.

Definition markAsClean (h : t) : t :=
  {| data := data h; errors := errors h; isDirty := false;
     customFields := customFields h; hospitalConfig := hospitalConfig h |}.

Definition hasErrors (h : t) : bool := Model.hasErrors (errors h).
Definition getErrors (h : t) := Model.getErrors (errors h).

Definition isLowStock (h : t) : bool := Asset.isLowStock (super h).
Definition isCritical (h : t) : bool := Asset.isCritical (super h).

Definition levelName (l : CriticalLevel) : string :=
  match l with
  | critical => "critical"
  | essential => "essential"
  | routine => "routine"
  end.

Definition dateValue (f : option DateField) : value :=
  match f with
  | None => VUndefined
  | Some (FDate d) => VDate d
  | Some (FIso s) => VStr s
  end.

(** Names every object inherits from [Object.prototype]. *)
Definition inherited : list string :=
  ["constructor"; "hasOwnProperty"; "isPrototypeOf"; "propertyIsEnumerable";
   "toLocaleString"; "toString"; "valueOf"; "__proto__";
   "__defineGetter__"; "__defineSetter__"; "__lookupGetter__"; "__lookupSetter__"].

(** [k in this.data ? Some this.data[k] : None] *)
Definition lookup (k : string) (d : HospitalAssetData) : option value :=
  let b := base d in
  if String.eqb k "id" then Some (VStr (id b))
  else if String.eqb k "name" then Some (VStr (name b))
  else if String.eqb k "manufacturer" then Some (VStr (manufacturer b))
  else if String.eqb k "category" then Some (VStr (category b))
  else if String.eqb k "quantity" then Some (VNum (quantity b))
  else if String.eqb k "serialNumber" then Some (VStr (serialNumber b))
  else if String.eqb k "criticalLevel" then Some (VStr (levelName (criticalLevel b)))
  else if String.eqb k "lastMaintenance" then Some (dateValue (lastMaintenance b))
  else if String.eqb k "expiryDate" then Some (dateValue (expiryDate b))
  else if String.eqb k "reorderPoint" then Some (VNum (reorderPoint b))
  else if String.eqb k "location" then VStr <$> location d
  else if String.eqb k "condition" then VStr <$> condition d
  else if String.eqb k "purchasePrice" then VNum <$> purchasePrice d
  else if String.eqb k "warrantyExpiry" then (fun f => dateValue (Some f)) <$> warrantyExpiry d
  else if String.eqb k "lastCalibration" then (fun f => dateValue (Some f)) <$> lastCalibration d
  else if existsb (String.eqb k) inherited then Some VObject
  else None.

(** One turn of the loop over the configured fields. *)
Definition checkRequired (h : t) (e : Model.Errors) (f : FieldConfig) : Model.Errors :=
  match required f with
  | Some true =>
      let v := match lookup (key f) (data h) with
               | Some v => v
               | None => getCustomField (key f) h
               end in
      if Value.is_blank v then Model.addError (key f) (label f +:+ " is required") e else e
  | _ => e
  end.

Definition validate (h : t) : t * bool :=
  let '(a, baseValid) := Asset.validate (super h) in
  let e := fold_left (checkRequired h) (fields (hospitalConfig h)) (Asset.errors a) in
  (with_errors e h, baseValid && negb (Model.hasErrors e)).

Definition serialize (h : t) : result HospitalAssetRecord :=
  match Asset.serialize (super h) with
  | Throw m => Throw m
  | Ok b =>
      match Asset.isoOf (warrantyExpiry (data h)) with
      | Throw m => Throw m
      | Ok we =>
          match Asset.isoOf (lastCalibration (data h)) with
          | Throw m => Throw m
          | Ok lc =>
              Ok {| r_base := b;
                    r_customFields := getAllCustomFields h;
                    r_location := location (data h);
                    r_condition := condition (data h);
                    r_purchasePrice := purchasePrice (data h);
                    r_warrantyExpiry := we;
                    r_lastCalibration := lc |}
          end
      end
  end.

Definition getLocation (h : t) : option string := location (data h).
Definition getCondition (h : t) : option Condition := condition (data h).

(** Reading a serialized record as the argument of the constructor: the
    names agree, and the date properties now hold strings. *)
Definition ofRecord (r : HospitalAssetRecord) : PartialHospitalAssetData :=
  let b := r_base r in
  {| p_base :=
       {| p_id := Some (r_id b); p_name := Some (r_name b);
          p_manufacturer := Some (r_manufacturer b); p_category := Some (r_category b);
          p_quantity := Some (r_quantity b); p_serialNumber := Some (r_serialNumber b);
          p_criticalLevel := Some (r_criticalLevel b);
          p_lastMaintenance := FIso <$> r_lastMaintenance b;
          p_expiryDate := FIso <$> r_expiryDate b;
          p_reorderPoint := Some (r_reorderPoint b) |};
     p_customFields := Some (r_customFields r);
     p_location := r_location r;
     p_condition := r_condition r;
     p_purchasePrice := r_purchasePrice r;
     p_warrantyExpiry := FIso <$> r_warrantyExpiry r;
     p_lastCalibration := FIso <$> r_lastCalibration r |}.

(** ** Assignments to the properties of [data] by name

    [this.data[k] = v] for a value [v] of the type declared for [k]; there
    is no result for a value of another type, or for a name that is not one
    of the fifteen properties. *)

Definition levelOfName (s : string) : option CriticalLevel :=
  if String.eqb s "critical" then Some critical
  else if String.eqb s "essential" then Some essential
  else if String.eqb s "routine" then Some routine
  else None.

Definition stringOf (v : value) : option string :=
  match v with VStr s => Some s | _ => None end.

Definition numberOf (v : value) : option number :=
  match v with VNum n => Some n | _ => None end.

Definition dateOf (v : value) : option DateField :=
  match v with
  | VDate d => Some (FDate d)
  | VStr s => Some (FIso s)
  | _ => None
  end.

Definition with_base (b : AssetData) (d : HospitalAssetData) : HospitalAssetData :=
  {| base := b; location := location d; condition := condition d;
     purchasePrice := purchasePrice d; warrantyExpiry := warrantyExpiry d;
     lastCalibration := lastCalibration d |}.

Definition write (k : string) (v : value) (d : HospitalAssetData) : option HospitalAssetData :=
  let b := base d in
  if String.eqb k "id" then
    (fun x => with_base (mkAssetData x (name b) (manufacturer b) (category b) (quantity b)
                (serialNumber b) (criticalLevel b) (lastMaintenance b) (expiryDate b)
                (reorderPoint b)) d) <$> stringOf v
  else if String.eqb k "name" then
    (fun x => with_base (mkAssetData (id b) x (manufacturer b) (category b) (quantity b)
                (serialNumber b) (criticalLevel b) (lastMaintenance b) (expiryDate b)
                (reorderPoint b)) d) <$> stringOf v
  else if String.eqb k "manufacturer" then
    (fun x => with_base (mkAssetData (id b) (name b) x (category b) (quantity b)
                (serialNumber b) (criticalLevel b) (lastMaintenance b) (expiryDate b)
                (reorderPoint b)) d) <$> stringOf v
  else if String.eqb k "category" then
    (fun x => with_base (mkAssetData (id b) (name b) (manufacturer b) x (quantity b)
                (serialNumber b) (criticalLevel b) (lastMaintenance b) (expiryDate b)
                (reorderPoint b)) d) <$> stringOf v
  else if String.eqb k "quantity" then
    (fun x => with_base (mkAssetData (id b) (name b) (manufacturer b) (category b) x
                (serialNumber b) (criticalLevel b) (lastMaintenance b) (expiryDate b)
                (reorderPoint b)) d) <$> numberOf v
  else if String.eqb k "serialNumber" then
    (fun x => with_base (mkAssetData (id b) (name b) (manufacturer b) (category b) (quantity b)
                x (criticalLevel b) (lastMaintenance b) (expiryDate b)
                (reorderPoint b)) d) <$> stringOf v
  else if String.eqb k "criticalLevel" then
    (fun x => with_base (mkAssetData (id b) (name b) (manufacturer b) (category b) (quantity b)
                (serialNumber b) x (lastMaintenance b) (expiryDate b)
                (reorderPoint b)) d) <$> (stringOf v ≫= levelOfName)
  else if String.eqb k "lastMaintenance" then
    (fun x => with_base (mkAssetData (id b) (name b) (manufacturer b) (category b) (quantity b)
                (serialNumber b) (criticalLevel b) (Some x) (expiryDate b)
                (reorderPoint b)) d) <$> dateOf v
  else if String.eqb k "expiryDate" then
    (fun x => with_base (mkAssetData (id b) (name b) (manufacturer b) (category b) (quantity b)
                (serialNumber b) (criticalLevel b) (lastMaintenance b) (Some x)
                (reorderPoint b)) d) <$> dateOf v
  else if String.eqb k "reorderPoint" then
    (fun x => with_base (mkAssetData (id b) (name b) (manufacturer b) (category b) (quantity b)
                (serialNumber b) (criticalLevel b) (lastMaintenance b) (expiryDate b)
                x) d) <$> numberOf v
  else if String.eqb k "location" then
    (fun x => mkHospitalAssetData b (Some x) (condition d) (purchasePrice d)
                (warrantyExpiry d) (lastCalibration d)) <$> stringOf v
  else if String.eqb k "condition" then
    (fun x => mkHospitalAssetData b (location d) (Some x) (purchasePrice d)
                (warrantyExpiry d) (lastCalibration d)) <$> stringOf v
  else if String.eqb k "purchasePrice" then
    (fun x => mkHospitalAssetData b (location d) (condition d) (Some x)
                (warrantyExpiry d) (lastCalibration d)) <$> numberOf v
  else if String.eqb k "warrantyExpiry" then
    (fun x => mkHospitalAssetData b (location d) (condition d) (purchasePrice d)
                (Some x) (lastCalibration d)) <$> dateOf v
  else if String.eqb k "lastCalibration" then
    (fun x => mkHospitalAssetData b (location d) (condition d) (purchasePrice d)
                (warrantyExpiry d) (Some x)) <$> dateOf v
  else None.

(** [(asset as any).data = d]: the data replaced, the dirty mark untouched. *)
Definition with_data (d : HospitalAssetData) (h : t) : t :=
  {| data := d; errors := errors h; isDirty := isDirty h;
     customFields := customFields h; hospitalConfig := hospitalConfig h |}.

End HospitalAsset.

(** * Part III. Shared state: the heap, the repository and the store *)

(** Entities and arrays are objects with identity; a reference to one is its
    address. *)
Definition loc := nat.

Inductive SortBy := ByName | ByQuantity | ByCategory.
Inductive SortDirection := Asc | Desc.
Inductive ActiveFilter := FilterAll | FilterCritical | FilterLowStock.

(** A snapshot written to [localStorage]: the array that is passed to
    [JSON.stringify]. *)
Definition Snapshot := list (string * HospitalAssetRecord).

Record World := mkWorld {
  (* the heap *)
  objects : gmap loc HospitalAsset.t;
  arrays : gmap loc (list loc);
  (* the singleton [AssetRepository] *)
  storage : list (string * loc);          (* [Map<string, HospitalAsset>], insertion order *)
  localStorage : option Snapshot;         (* the entry under [hospital_inventory_assets] *)
  (* the refs of the store *)
  assets : loc;                           (* [assets.value], an array *)
  loading : bool;
  error : option string;
  searchQuery : string;
  selectedCategory : option string;
  sortBy : SortBy;
  sortDirection : SortDirection;
  activeFilter : ActiveFilter
}.

Definition set_objects (f : gmap loc HospitalAsset.t -> gmap loc HospitalAsset.t) (w : World) : World :=
  mkWorld (f (objects w)) (arrays w) (storage w) (localStorage w) (assets w) (loading w)
    (error w) (searchQuery w) (selectedCategory w) (sortBy w) (sortDirection w) (activeFilter w).

Definition set_arrays (f : gmap loc (list loc) -> gmap loc (list loc)) (w : World) : World :=
  mkWorld (objects w) (f (arrays w)) (storage w) (localStorage w) (assets w) (loading w)
    (error w) (searchQuery w) (selectedCategory w) (sortBy w) (sortDirection w) (activeFilter w).

Definition set_storage (f : list (string * loc) -> list (string * loc)) (w : World) : World :=
  mkWorld (objects w) (arrays w) (f (storage w)) (localStorage w) (assets w) (loading w)
    (error w) (searchQuery w) (selectedCategory w) (sortBy w) (sortDirection w) (activeFilter w).

Definition set_localStorage (v : option Snapshot) (w : World) : World :=
  mkWorld (objects w) (arrays w) (storage w) v (assets w) (loading w)
    (error w) (searchQuery w) (selectedCategory w) (sortBy w) (sortDirection w) (activeFilter w).

Definition set_loading (v : bool) (w : World) : World :=
  mkWorld (objects w) (arrays w) (storage w) (localStorage w) (assets w) v
    (error w) (searchQuery w) (selectedCategory w) (sortBy w) (sortDirection w) (activeFilter w).

Definition set_error (v : option string) (w : World) : World :=
  mkWorld (objects w) (arrays w) (storage w) (localStorage w) (assets w) (loading w)
    v (searchQuery w) (selectedCategory w) (sortBy w) (sortDirection w) (activeFilter w).

Definition set_searchQuery (v : string) (w : World) : World :=
  mkWorld (objects w) (arrays w) (storage w) (localStorage w) (assets w) (loading w)
    (error w) v (selectedCategory w) (sortBy w) (sortDirection w) (activeFilter w).

Definition set_selectedCategory (v : option string) (w : World) : World :=
  mkWorld (objects w) (arrays w) (storage w) (localStorage w) (assets w) (loading w)
    (error w) (searchQuery w) v (sortBy w) (sortDirection w) (activeFilter w).

Definition set_activeFilter (v : ActiveFilter) (w : World) : World :=
  mkWorld (objects w) (arrays w) (storage w) (localStorage w) (assets w) (loading w)
    (error w) (searchQuery w) (selectedCategory w) (sortBy w) (sortDirection w) v.

Definition set_assets (v : loc) (w : World) : World :=
  mkWorld (objects w) (arrays w) (storage w) (localStorage w) v (loading w)
    (error w) (searchQuery w) (selectedCategory w) (sortBy w) (sortDirection w) (activeFilter w).

(** ** Computations: state, exceptions, and the misuse of an address *)

Inductive outcome (A : Type) :=
| Done (a : A)
| Raise (message : string)   (* a thrown [Error] *)
| Wrong.                     (* an address that holds nothing: never the case in the program *)
Arguments Done {A} a.
Arguments Raise {A} message.
Arguments Wrong {A}.

Definition M (A : Type) : Type := World -> outcome A * World.

Definition ret {A} (a : A) : M A := fun w => (Done a, w).

Definition bind {A B} (m : M A) (k : A -> M B) : M B :=
  fun w =>
    match m w with
    | (Done a, w') => k a w'
    | (Raise e, w') => (Raise e, w')
    | (Wrong, w') => (Wrong, w')
    end.

Declare Scope js_scope.
Delimit Scope js_scope with js.
Notation "x <- m ;; k" := (bind m (fun x => k))
  (at level 100, m at next level, right associativity) : js_scope.
Notation "m ;; k" := (bind m (fun _ => k))
  (at level 100, right associativity) : js_scope.
Local Open Scope js_scope.

Definition throw {A} (message : string) : M A := fun w => (Raise message, w).
Definition wrong {A} : M A := fun w => (Wrong, w).
Definition gets {A} (f : World -> A) : M A := fun w => (Done (f w), w).
Definition modify (f : World -> World) : M unit := fun w => (Done tt, f w).

(** [try { body } catch (e) { handler(e.message) }] *)
Definition try_catch {A} (body : M A) (handler : string -> M A) : M A :=
  fun w =>
    match body w with
    | (Raise e, w') => handler e w'
    | r => r
    end.

(** [try { body } finally { final }] *)
Definition try_finally {A} (body : M A) (final : M unit) : M A :=
  fun w =>
    match body w with
    | (Wrong, w') => (Wrong, w')
    | (o, w') =>
        match final w' with
        | (Done _, w'') => (o, w'')
        | (Raise e, w'') => (Raise e, w'')
        | (Wrong, w'') => (Wrong, w'')
        end
    end.

Definition deref (r : loc) : M HospitalAsset.t :=
  fun w => match objects w !! r with Some h => (Done h, w) | None => (Wrong, w) end.

Definition assign (r : loc) (h : HospitalAsset.t) : M unit :=
  modify (set_objects (insert r h)).

Definition readArray (a : loc) : M (list loc) :=
  fun w => match arrays w !! a with Some l => (Done l, w) | None => (Wrong, w) end.

Definition writeArray (a : loc) (l : list loc) : M unit :=
  modify (set_arrays (insert a l)).

(** A new array with the given elements. *)
Definition newArray (l : list loc) : M loc :=
  fun w => let a := fresh (dom (arrays w)) in (Done a, set_arrays (insert a l) w).

(** The objects behind a list of references. *)
Definition derefAll (l : list loc) : M (list (loc * HospitalAsset.t)) :=
  fun w =>
    match mapM (fun r => (fun h => (r, h)) <$> objects w !! r) l with
    | Some hs => (Done hs, w)
    | None => (Wrong, w)
    end.

(** [array.filter(p)]: a new array. *)
Definition filterArray (p : HospitalAsset.t -> bool) (a : loc) : M loc :=
  l <- readArray a ;;
  hs <- derefAll l ;;
  newArray (List.map fst (List.filter (fun x => p x.2) hs)).

(** [array.findIndex(p)] on the elements from position [n] on: the objects
    are looked at in turn, up to the first that satisfies [p]. *)
Fixpoint findIndex (p : HospitalAsset.t -> bool) (l : list loc) (n : nat) : M (option nat) :=
  match l with
  | [] => ret None
  | r :: rest =>
      h <- deref r ;;
      if p h then ret (Some n) else findIndex p rest (S n)
  end.

(** ** [Map<string, V>] in insertion order *)

Module JsMap.
Section Ops.
Context {V : Type}.

Fixpoint set (k : string) (v : V) (m : list (string * V)) : list (string * V) :=
  match m with
  | [] => [(k, v)]
  | (k', v') :: r => if String.eqb k' k then (k, v) :: r else (k', v') :: set k v r
  end.

Fixpoint get (k : string) (m : list (string * V)) : option V :=
  match m with
  | [] => None
  | (k', v) :: r => if String.eqb k' k then Some v else get k r
  end.

Definition has (k : string) (m : list (string * V)) : bool :=
  match get k m with Some _ => true | None => false end.

Definition delete (k : string) (m : list (string * V)) : list (string * V) :=
  List.filter (fun e => negb (String.eqb e.1 k)) m.

End Ops.
End JsMap.

(** ** The repository ([repositories/base/Repository.ts],
       [repositories/AssetRepository.ts]) *)

Module Repository.

Definition firstError (errors : list (string * list string)) : string :=
  match Object.values errors with
  | (m :: _) :: _ => if JsString.truthy m then m else "Validation failed"
  | _ => "Validation failed"
  end.

Definition beforeSave (model : loc) : M unit :=
  h <- deref model ;;
  let '(h', valid) := HospitalAsset.validate h in
  assign model h' ;;
  if valid then ret tt
  else throw ("Model validation failed: " +:+ firstError (HospitalAsset.getErrors h')).

Definition afterSave (model : loc) : M unit :=
  h <- deref model ;;
  assign model (HospitalAsset.markAsClean h).

Section Queries.
(** [findById] is abstract in the base class. *)
Variable findById : string -> M (option loc).

(** The loop of [findByIds] over the ids that remain; [results] is the array
    being filled. *)
Fixpoint collect (ids : list string) (results : loc) : M unit :=
  match ids with
  | [] => ret tt
  | i :: rest =>
      model <- findById i ;;
      match model with
      | Some m => l <- readArray results ;; writeArray results (l ++ [m])
      | None => ret tt
      end ;;
      collect rest results
  end.

Definition findByIds (ids : list string) : M loc :=
  results <- newArray [] ;;
  collect ids results ;;
  ret results.

Definition exists_ (i : string) : M bool :=
  model <- findById i ;;
  ret (match model with Some _ => true | None => false end).

End Queries.

End Repository.

Module AssetRepository.

(** [asset.serialize()] for every entry, stopping at the first that throws. *)
Fixpoint serializeAll (entries : list (string * HospitalAsset.t)) : result Snapshot :=
  match entries with
  | [] => Ok []
  | (i, h) :: r =>
      match HospitalAsset.serialize h with
      | Throw m => Throw m
      | Ok d =>
          match serializeAll r with
          | Throw m => Throw m
          | Ok ds => Ok ((i, d) :: ds)
          end
      end
  end.

(** The whole body runs inside [try]: whatever fails there, a [serialize()]
    that throws included, is caught and logged, and nothing is written. *)
Definition saveToLocalStorage : M unit :=
  fun w =>
    match mapM (fun e : string * loc => (fun h => (e.1, h)) <$> objects w !! e.2) (storage w) with
    | Some entries =>
        match serializeAll entries with
        | Ok snapshot => (Done tt, set_localStorage (Some snapshot) w)
        | Throw _ => (Done tt, w)
        end
    | None => (Done tt, w)
    end.

Definition findAll : M loc :=
  s <- gets storage ;;
  newArray (List.map snd s).

Definition findById (i : string) : M (option loc) :=
  s <- gets storage ;;
  ret (JsMap.get i s).

Definition save (model : loc) : M unit :=
  Repository.beforeSave model ;;
  h <- deref model ;;
  modify (set_storage (JsMap.set (id (base (HospitalAsset.data h))) model)) ;;
  Repository.afterSave model ;;
  saveToLocalStorage.

Definition delete (i : string) : M bool :=
  s <- gets storage ;;
  if JsMap.has i s
  then modify (set_storage (JsMap.delete i)) ;; saveToLocalStorage ;; ret true
  else ret false.

Definition count : M nat :=
  s <- gets storage ;;
  ret (length s).

Definition findByIds : list string -> M loc := Repository.findByIds findById.
Definition exists_ : string -> M bool := Repository.exists_ findById.

Definition findByCategory (c : string) : M loc :=
  all <- findAll ;;
  filterArray (fun h => String.eqb (category (base (HospitalAsset.data h))) c) all.

Definition CriticalLevel_eqb (a b : CriticalLevel) : bool :=
  match a, b with
  | critical, critical | essential, essential | routine, routine => true
  | _, _ => false
  end.

Definition findByCriticalLevel (level : CriticalLevel) : M loc :=
  all <- findAll ;;
  filterArray (fun h => CriticalLevel_eqb (criticalLevel (base (HospitalAsset.data h))) level) all.



(** The test of [search] on one asset, for the query already in lower case. *)
Definition searchMatches (lowerQuery : string) (h : HospitalAsset.t) : bool :=
  let b := base (HospitalAsset.data h) in
  JsString.includes (JsString.toLowerCase (name b)) lowerQuery
  || JsString.includes (JsString.toLowerCase (manufacturer b)) lowerQuery
  || JsString.includes (JsString.toLowerCase (serialNumber b)) lowerQuery
  || JsString.includes (JsString.toLowerCase (category b)) lowerQuery.

Definition search (query : string) : M loc :=
  all <- findAll ;;
  filterArray (searchMatches (JsString.toLowerCase query)) all.

(** [models] lists the elements of the array that is passed. *)
Fixpoint bulkSave (models : list loc) : M unit :=
  match models with
  | [] => ret tt
  | model :: rest => save model ;; bulkSave rest
  end.

Section Total.
(** The conversion of a value to a number, which [*] applies to the price. *)
Variable ToNumber : value -> number.

Definition addValue (sum : number) (h : HospitalAsset.t) : number :=
  let quantity := quantity (base (HospitalAsset.data h)) in
  let price := Value.or (HospitalAsset.getCustomField "purchasePrice" h) (VNum 0) in
  (sum + quantity * ToNumber price)%float.

Definition getTotalValue : M number :=
  all <- findAll ;;
  l <- readArray all ;;
  hs <- derefAll l ;;
  ret (fold_left addValue (List.map snd hs) 0%float).

End Total.

Definition deleteAll : M nat :=
  s <- gets storage ;;
  modify (set_storage (fun _ => [])) ;;
  modify (set_localStorage None) ;;
  ret (length s).

End AssetRepository.

(** ** The store ([stores/assets.ts]) *)

Module Store.

Definition searchMatches (query : string) (h : HospitalAsset.t) : bool :=
  let b := base (HospitalAsset.data h) in
  JsString.includes (JsString.toLowerCase (name b)) query
  || JsString.includes (JsString.toLowerCase (serialNumber b)) query
  || JsString.includes (JsString.toLowerCase (manufacturer b)) query.

Definition categoryIs (c : string) (h : HospitalAsset.t) : bool :=
  String.eqb (category (base (HospitalAsset.data h))) c.

(** [aVal > bVal ? 1 : aVal < bVal ? -1 : 0] on the chosen field *)
Definition comparison (by_ : SortBy) (a b : HospitalAsset.t) : Z :=
  let x := base (HospitalAsset.data a) in
  let y := base (HospitalAsset.data b) in
  match by_ with
  | ByName =>
      if JsString.gtb (name x) (name y) then 1
      else if JsString.ltb (name x) (name y) then -1 else 0
  | ByQuantity =>
      if Number.gtb (quantity x) (quantity y) then 1
      else if (quantity x <? quantity y)%float then -1 else 0
  | ByCategory =>
      if JsString.gtb (category x) (category y) then 1
      else if JsString.ltb (category x) (category y) then -1 else 0
  end.

Definition comparator (by_ : SortBy) (dir : SortDirection) (a b : HospitalAsset.t) : Z :=
  match dir with
  | Asc => comparison by_ a b
  | Desc => - comparison by_ a b
  end.

(** [result.sort(...)]: the array at [a] is sorted in place. *)
Definition sortArray (by_ : SortBy) (dir : SortDirection) (a : loc) : M unit :=
  l <- readArray a ;;
  hs <- derefAll l ;;
  writeArray a (List.map fst (Array.sort (fun x y => comparator by_ dir x.2 y.2) hs)).

(** The computed [filteredAssets]; the value is the array it returns. *)
Definition filteredAssets : M loc :=
  working <- gets assets ;;
  l <- readArray working ;;
  result <- newArray l ;;
  filter <- gets activeFilter ;;
  result <- match filter with
            | FilterCritical => filterArray HospitalAsset.isCritical result
            | FilterLowStock => filterArray HospitalAsset.isLowStock result
            | FilterAll => ret result
            end ;;
  q <- gets searchQuery ;;
  result <- (if JsString.truthy q
             then filterArray (searchMatches (JsString.toLowerCase q)) result
             else ret result) ;;
  c <- gets selectedCategory ;;
  result <- match c with
            | Some c => if JsString.truthy c then filterArray (categoryIs c) result
                        else ret result
            | None => ret result
            end ;;
  by_ <- gets sortBy ;;
  dir <- gets sortDirection ;;
  sortArray by_ dir result ;;
  ret result.

(** The message [createAsset] composes from the errors of the entity. *)
Definition composeErrors (errors : list (string * list string)) : string :=
  "Validation failed: " +:+
  JsString.join ", " (List.map (fun e => e.1 +:+ ": " +:+ JsString.join "," e.2) errors).

Section WithRepository.
(** The store talks to whatever [AssetRepository.getInstance()] returns. *)
Variable save : loc -> M unit.

(** Whatever is thrown inside [try] is an [Error], and its message becomes
    the [error] of the store. *)
Definition createAssetWith (asset : loc) : M unit :=
  modify (set_loading true) ;;
  modify (set_error None) ;;
  try_finally
    (try_catch
       (h <- deref asset ;;
        let '(h', valid) := HospitalAsset.validate h in
        assign asset h' ;;
        if negb valid
        then modify (set_error (Some (composeErrors (HospitalAsset.getErrors h'))))
        else (save asset ;;
              working <- gets assets ;;
              l <- readArray working ;;
              writeArray working (l ++ [asset])))
       (fun message => modify (set_error (Some message))))
    (modify (set_loading false)).

End WithRepository.

Definition createAsset : loc -> M unit := createAssetWith AssetRepository.save.



Section Coercion.
(** The conversion of a string to a number is left to the runtime. *)
Variable StringToNumber : string -> number.

Definition ToNumber (v : value) : number :=
  match v with
  | VUndefined => nan
  | VNull => 0%float
  | VBool b => if b then 1%float else 0%float
  | VNum n => n
  | VStr s => StringToNumber s
  | VDate (ValidDate t) => Number.ofZ t
  | VDate InvalidDate => nan
  | VObject => nan
  end.

(** One step of the reduction in [totalValue]. *)
Definition addValue (sum : number) (h : HospitalAsset.t) : number :=
  let quantity := quantity (base (HospitalAsset.data h)) in
  let price := Value.or (HospitalAsset.getCustomField "purchasePrice" h) (VNum 0) in
  (sum + quantity * ToNumber price)%float.

Definition totalValue : M number :=
  working <- gets assets ;;
  l <- readArray working ;;
  hs <- derefAll l ;;
  ret (fold_left addValue (List.map snd hs) 0%float).

End Coercion.






Definition setSearchQuery (q : string) : M unit := modify (set_searchQuery q).
Definition setCategory (c : option string) : M unit := modify (set_selectedCategory c).
Definition setActiveFilter (f : ActiveFilter) : M unit := modify (set_activeFilter f).



(** ** Changing and removing assets *)

Definition idIs (i : string) (h : HospitalAsset.t) : bool :=
  String.eqb (id (base (HospitalAsset.data h))) i.

Definition deleteAsset (i : string) : M unit :=
  modify (set_loading true) ;;
  modify (set_error None) ;;
  try_finally
    (try_catch
       (success <- AssetRepository.delete i ;;
        if negb success
        then modify (set_error (Some "Failed to delete asset"))
        else (working <- gets assets ;;
              l <- readArray working ;;
              index <- findIndex (idIs i) l 0 ;;
              match index with
              | Some n => writeArray working (delete n l)
              | None => ret tt
              end))
       (fun message => modify (set_error (Some message))))
    (modify (set_loading false)).

(** One turn of the loop over [Object.entries(updates)]. A value that does
    not have the type of the property it is assigned to has no result. *)
Definition applyUpdate (h : HospitalAsset.t) (entry : string * value) : option HospitalAsset.t :=
  let '(key, v) := entry in
  if JsString.startsWith "custom_" key
  then Some (HospitalAsset.setCustomField (JsString.replace "custom_" "" key) v h)
  else if String.eqb key "location"
  then (fun d => HospitalAsset.with_data d h) <$> HospitalAsset.write "location" v (HospitalAsset.data h)
  else if String.eqb key "condition"
  then (fun d => HospitalAsset.with_data d h) <$> HospitalAsset.write "condition" v (HospitalAsset.data h)
  else match HospitalAsset.lookup key (HospitalAsset.data h) with
       | Some _ =>
           (fun d => HospitalAsset.set (fun _ => d) h) <$> HospitalAsset.write key v (HospitalAsset.data h)
       | None => Some h
       end.

Fixpoint applyUpdates (updates : list (string * value)) (h : HospitalAsset.t)
  : option HospitalAsset.t :=
  match updates with
  | [] => Some h
  | entry :: rest =>
      match applyUpdate h entry with
      | Some h' => applyUpdates rest h'
      | None => None
      end
  end.

(** [updates] lists the entries of the object that is passed, in the order
    of [Object.entries]. *)
Definition updateAsset (i : string) (updates : list (string * value)) : M unit :=
  modify (set_loading true) ;;
  modify (set_error None) ;;
  try_finally
    (try_catch
       (found <- AssetRepository.findById i ;;
        match found with
        | None => modify (set_error (Some ("Asset with ID " +:+ i +:+ " not found")))
        | Some asset =>
            h <- deref asset ;;
            match applyUpdates updates h with
            | None => wrong
            | Some updated =>
                let '(h', valid) := HospitalAsset.validate updated in
                assign asset h' ;;
                if negb valid
                then modify (set_error (Some (composeErrors (HospitalAsset.getErrors h'))))
                else (AssetRepository.save asset ;;
                      working <- gets assets ;;
                      l <- readArray working ;;
                      index <- findIndex (idIs i) l 0 ;;
                      match index with
                      | Some n => writeArray working (<[n := asset]> l)
                      | None => ret tt
                      end)
            end
        end)
       (fun message => modify (set_error (Some message))))
    (modify (set_loading false)).

Section Seeding.
(** What [loadAssets] does when the repository is empty: it generates sample
    assets with random contents and saves them. *)
Variable seedSamples : M unit.

Definition loadAssetsWith : M unit :=
  modify (set_loading true) ;;
  modify (set_error None) ;;
  try_finally
    (try_catch
       (data <- AssetRepository.findAll ;;
        l <- readArray data ;;
        data <- (if (length l =? 0)%nat
                 then seedSamples ;; AssetRepository.findAll
                 else ret data) ;;
        modify (set_assets data))
       (fun message =>
          modify (set_error (Some message)) ;;
          empty <- newArray [] ;;
          modify (set_assets empty)))
    (modify (set_loading false)).

Definition refreshDataWith : M unit := loadAssetsWith.

End Seeding.

End Store.

(** * Part IV. Properties *)

(** ** Comparing numbers *)

Lemma SFcompare_antisym (a b : spec_float) (c : comparison) :
  SFcompare a b = Some c -> SFcompare b a = Some (CompOpp c).
Proof.
  destruct a as [sa|sa| |sa ma ea], b as [sb|sb| |sb mb eb]; simpl;
    intros H; inversion H; subst; clear H;
    repeat match goal with s : bool |- _ => destruct s end; simpl; try reflexivity.
  - rewrite (Z.compare_antisym ea eb).
    destruct (ea ?= eb)%Z; simpl; try reflexivity.
    rewrite CompOpp_involutive. f_equal.
    exact (Pos.compare_cont_antisym mb ma Eq).
  - rewrite (Z.compare_antisym ea eb).
    destruct (ea ?= eb)%Z; simpl; try reflexivity.
    f_equal. symmetry. exact (Pos.compare_cont_antisym ma mb Eq).
Qed.

(** [x < y] excludes [y <= x], whatever the two numbers are. *)
Lemma ltb_not_leb (x y : number) : (x <? y)%float = true -> (y <=? x)%float = false.
Proof.
  rewrite ltb_spec, leb_spec. unfold SFltb, SFleb.
  destruct (SFcompare (Prim2SF x) (Prim2SF y)) as [c|] eqn:E; [|discriminate].
  apply SFcompare_antisym in E. rewrite E. destruct c; simpl; congruence.
Qed.

Lemma leb_not_ltb (x y : number) : (x <=? y)%float = true -> (y <? x)%float = false.
Proof.
  intros H. destruct (y <? x)%float eqn:E; [|reflexivity].
  apply ltb_not_leb in E. congruence.
Qed.

(** ** The two stock predicates *)

Definition tagged (l : CriticalLevel) : bool :=
  match l with critical => true | _ => false end.

Lemma isCritical_unfold (a : Asset.t) :
  Asset.isCritical a =
  tagged (criticalLevel (Asset.data a))
  || (quantity (Asset.data a) <=? reorderPoint (Asset.data a) * 0.3)%float.
Proof. unfold Asset.isCritical. now destruct (criticalLevel (Asset.data a)). Qed.

(** An asset tagged critical whose quantity 8 lies between 30% of the reorder
    point 10 and the reorder point itself. *)
Definition taggedAndLow : Asset.t :=
  Asset.new "a-1"
    (mkPartialAssetData None (Some "Ventilator") (Some "MedTech") (Some "Life Support")
       (Some 8%float) (Some "LS-123456") (Some critical) None None (Some 10%float)).

(** C1, as stated, fails: the asset [taggedAndLow] is both low on stock and
    critical, so the two predicates are not exclusive for all inputs. *)
Lemma C1_both_true_when_tagged :
  ~ (forall a : Asset.t, Asset.isLowStock a && Asset.isCritical a = false).
Proof. intros H. specialize (H taggedAndLow). vm_compute in H. discriminate. Qed.

(** C1, amended: for every asset whose criticalLevel is not "critical",
    isLowStock() and isCritical() are never both true. Equivalently,
    isLowStock() excludes the quantity clause of isCritical() for every
    asset. *)
Theorem C1_exclusive_unless_tagged (a : Asset.t) :
  criticalLevel (Asset.data a) <> critical ->
  Asset.isLowStock a && Asset.isCritical a = false.
Proof.
  intros Hlevel. rewrite isCritical_unfold.
  destruct (criticalLevel (Asset.data a)); try congruence; simpl;
    unfold Asset.isLowStock, Number.gtb;
    destruct (quantity (Asset.data a) <? reorderPoint (Asset.data a))%float; simpl; trivial;
    destruct (reorderPoint (Asset.data a) * 0.3 <? quantity (Asset.data a))%float eqn:E;
    simpl; trivial; now apply ltb_not_leb.
Qed.

Definition untaggedAndLow : Asset.t :=
  Asset.set (fun d => mkAssetData (id d) (name d) (manufacturer d) (category d) (quantity d)
                        (serialNumber d) routine (lastMaintenance d) (expiryDate d)
                        (reorderPoint d)) taggedAndLow.

Lemma C1_exclusive_unless_tagged_witness :
  criticalLevel (Asset.data untaggedAndLow) <> critical
  /\ Asset.isLowStock untaggedAndLow = true
  /\ Asset.isLowStock untaggedAndLow && Asset.isCritical untaggedAndLow = false.
Proof.
  split; [discriminate|]. split; [reflexivity|].
  apply (C1_exclusive_unless_tagged untaggedAndLow). discriminate.
Defined.

(** C2: isCritical() is true iff criticalLevel is "critical" or
    quantity <= reorderPoint * 0.3; isLowStock() is true iff
    quantity < reorderPoint and quantity > reorderPoint * 0.3. The
    comparisons and the product are those of binary64 numbers. *)
Theorem C2_predicates (a : Asset.t) :
  let q := quantity (Asset.data a) in
  let r := reorderPoint (Asset.data a) in
  (Asset.isCritical a = true <->
     criticalLevel (Asset.data a) = critical \/ (q <=? r * 0.3)%float = true)
  /\ (Asset.isLowStock a = true <->
     (q <? r)%float = true /\ Number.gtb q (r * 0.3)%float = true).
Proof.
  cbv zeta. split.
  - rewrite isCritical_unfold, orb_true_iff.
    destruct (criticalLevel (Asset.data a)); simpl; intuition congruence.
  - unfold Asset.isLowStock. now rewrite andb_true_iff.
Qed.

(** ** Validation *)

(** A serial number of the shape [^[A-Z]{2}-\d{6}$]: two capitals, a hyphen,
    six digits, and nothing else. *)
Definition SerialShape (s : string) : Prop :=
  exists a b d1 d2 d3 d4 d5 d6,
    s = String a (String b (String "-" (String d1 (String d2 (String d3
          (String d4 (String d5 (String d6 EmptyString))))))))
    /\ JsString.is_upper a = true /\ JsString.is_upper b = true
    /\ Forall (fun d => JsString.is_digit d = true) [d1; d2; d3; d4; d5; d6].

Lemma matchesSerial_shape (s : string) : Asset.matchesSerial s = true <-> SerialShape s.
Proof.
  split.
  - intros H.
    destruct s as [|a [|b [|h [|d1 [|d2 [|d3 [|d4 [|d5 [|d6 [|? ?]]]]]]]]]]; try discriminate.
    simpl in H. rewrite !andb_true_iff in H.
    destruct H as (((Ha & Hb) & Hh) & H1 & H2 & H3 & H4 & H5 & H6 & _).
    apply Ascii.eqb_eq in Hh. subst h.
    exists a, b, d1, d2, d3, d4, d5, d6. repeat split; auto.
    repeat constructor; assumption.
  - intros (a & b & d1 & d2 & d3 & d4 & d5 & d6 & -> & Ha & Hb & Hd).
    simpl. rewrite Ha, Hb. simpl.
    repeat match goal with
           | H : Forall _ (_ :: _) |- _ => inversion H; subst; clear H
           end.
    repeat match goal with H : JsString.is_digit _ = true |- _ => rewrite H; clear H end.
    reflexivity.
Qed.

(** The documented ranges of the validated fields. *)
Record WithinRanges (d : AssetData) : Prop := {
  name_present : JsString.trim (name d) <> "";
  name_short : (String.length (name d) <= 100)%nat;
  quantity_whole : Number.isInteger (quantity d) = true;
  quantity_min : (0 <=? quantity d)%float = true;
  quantity_max : (quantity d <=? 999999)%float = true;
  serial_shaped : SerialShape (serialNumber d);
  reorder_min : (0 <=? reorderPoint d)%float = true
}.

Lemma truthy_nonempty (s : string) : JsString.truthy s = true <-> s <> "".
Proof. unfold JsString.truthy. destruct s; simpl; intuition congruence. Qed.

Lemma validation_within_ranges (d : AssetData) : WithinRanges d -> Asset.validation d = [].
Proof.
  intros [Hn Hl Hw Hq0 Hq1 Hs Hr]. unfold Asset.validation.
  assert (E1 : Asset.checkName d Model.clearErrors = []).
  { unfold Asset.checkName. apply truthy_nonempty in Hn. rewrite Hn. simpl.
    destruct (100 <? String.length (name d))%nat eqn:E; [|reflexivity].
    apply Nat.ltb_lt in E. lia. }
  rewrite E1.
  assert (E2 : Asset.checkQuantity d [] = []).
  { unfold Asset.checkQuantity, Number.gtb.
    rewrite (leb_not_ltb _ _ Hq0), (leb_not_ltb _ _ Hq1), Hw. reflexivity. }
  rewrite E2.
  assert (E3 : Asset.checkSerialNumber d [] = []).
  { unfold Asset.checkSerialNumber.
    pose proof (proj2 (matchesSerial_shape _) Hs) as Hm. rewrite Hm.
    destruct (serialNumber d); [discriminate|reflexivity]. }
  rewrite E3.
  unfold Asset.checkReorderPoint. now rewrite (leb_not_ltb _ _ Hr).
Qed.

(** C3: an asset whose fields are within the documented ranges validates,
    and has no errors afterwards; and for every asset, validate() returns
    true if and only if the call recorded no error (the errors map, emptied
    when the call starts, is empty when it ends). *)
Theorem C3_validate (a : Asset.t) :
  (WithinRanges (Asset.data a) ->
     snd (Asset.validate a) = true /\ Asset.hasErrors (fst (Asset.validate a)) = false)
  /\ (snd (Asset.validate a) = true <-> Asset.errors (fst (Asset.validate a)) = []).
Proof.
  unfold Asset.validate, Asset.hasErrors. simpl. split.
  - intros H. rewrite (validation_within_ranges _ H). split; reflexivity.
  - destruct (Asset.validation (Asset.data a)); simpl; split; congruence.
Qed.

Definition ventilator : Asset.t :=
  Asset.new "a-2"
    (mkPartialAssetData None (Some "Ventilator") (Some "MedTech") (Some "Life Support")
       (Some 5%float) (Some "LS-123456") (Some critical) None None (Some 10%float)).

Lemma C3_validate_witness :
  WithinRanges (Asset.data ventilator)
  /\ snd (Asset.validate ventilator) = true
  /\ Asset.hasErrors (fst (Asset.validate ventilator)) = false.
Proof.
  assert (H : WithinRanges (Asset.data ventilator)).
  { constructor; try (vm_compute; reflexivity).
    - vm_compute. discriminate.
    - vm_compute. lia.
    - apply matchesSerial_shape. vm_compute. reflexivity. }
  split; [exact H|]. exact (proj1 (C3_validate ventilator) H).
Defined.

(** ** The constructor of a hospital asset *)

(** C9: a purchasePrice of zero is neither stored in the typed field nor
    synced into the custom-fields map, which then is exactly the map the
    input carried; the typed field is stored, and synced, only for a
    non-zero price; and an empty-string location or condition is dropped. *)
Theorem C9_falsy_inputs_dropped (g : string) (p : PartialHospitalAssetData) (cfg : HospitalConfig) :
  let h := HospitalAsset.new g p cfg in
  (forall x, p_purchasePrice p = Some x -> is_zero x = true ->
     purchasePrice (HospitalAsset.data h) = None
     /\ HospitalAsset.customFields h = default ∅ (p_customFields p))
  /\ (forall x, purchasePrice (HospitalAsset.data h) = Some x ->
        p_purchasePrice p = Some x /\ is_zero x = false
        /\ HospitalAsset.customFields h !! "purchasePrice" = Some (VNum x))
  /\ (p_location p = Some "" -> location (HospitalAsset.data h) = None)
  /\ (p_condition p = Some "" -> condition (HospitalAsset.data h) = None).
Proof.
  cbv zeta. unfold HospitalAsset.new. simpl. repeat split.
  - rewrite H. simpl. unfold Number.truthy. now rewrite H0.
  - rewrite H. simpl. unfold Number.truthy. now rewrite H0.
  - destruct (p_purchasePrice p) as [y|]; simpl in H; [|discriminate].
    destruct (Number.truthy y); congruence.
  - destruct (p_purchasePrice p) as [y|]; simpl in H; [|discriminate].
    unfold Number.truthy in H.
    destruct (is_zero y) eqn:Ez; simpl in H; [discriminate|].
    destruct (is_nan y); simpl in H; congruence.
  - destruct (p_purchasePrice p) as [y|]; simpl in *; [|discriminate].
    destruct (Number.truthy y); [|discriminate].
    inversion H; subst. apply lookup_insert_eq.
  - intros ->. reflexivity.
  - intros ->. reflexivity.
Qed.

Definition emptyConfig : HospitalConfig := mkHospitalConfig "hospital-1" "St Thomas" [] None.

Definition freeInput : PartialHospitalAssetData :=
  mkPartialHospitalAssetData
    (mkPartialAssetData (Some "1") (Some "Gauze") (Some "MedTech") (Some "Supplies")
       (Some 5%float) (Some "GZ-123456") None None None None)
    (Some {["department" := VStr "ICU"]}) (Some "") (Some "") (Some 0%float) None None.

Lemma C9_falsy_inputs_dropped_witness :
  let h := HospitalAsset.new "g" freeInput emptyConfig in
  purchasePrice (HospitalAsset.data h) = None
  /\ HospitalAsset.customFields h = {["department" := VStr "ICU"]}
  /\ location (HospitalAsset.data h) = None
  /\ condition (HospitalAsset.data h) = None.
Proof.
  pose proof (C9_falsy_inputs_dropped "g" freeInput emptyConfig) as (H1 & _ & H3 & H4).
  destruct (H1 0%float eq_refl eq_refl) as [Ha Hb].
  cbv zeta. split; [exact Ha|]. split; [exact Hb|].
  split; [exact (H3 eq_refl) | exact (H4 eq_refl)].
Defined.

(** ** The errors a validation records *)

(** Every entry carries at least one message, and its first message is a
    non-empty string. *)
Definition Sound (e : list (string * list string)) : Prop :=
  Forall (fun x => exists m ms, x.2 = m :: ms /\ JsString.truthy m = true) e.

Lemma addError_sound (f m : string) (e : Model.Errors) :
  JsString.truthy m = true -> Sound e -> Sound (Model.addError f m e).
Proof.
  intros Hm. induction e as [|[k ms] e IH]; simpl; intros He.
  - constructor; [|constructor]. exists m, []. split; [reflexivity|assumption].
  - inversion He as [|? ? (m0 & ms0 & E & T) He']; subst. simpl in E. subst ms.
    destruct (String.eqb k f).
    + constructor; [|assumption]. exists m0, (ms0 ++ [m]). split; [reflexivity|assumption].
    + constructor; [|now apply IH]. exists m0, ms0. split; [reflexivity|assumption].
Qed.

Lemma addError_length (f m : string) (e : Model.Errors) :
  (length e <= length (Model.addError f m e))%nat /\ (0 < length (Model.addError f m e))%nat.
Proof.
  induction e as [|[k ms] e IH]; simpl; [lia|].
  destruct (String.eqb k f); simpl; lia.
Qed.

Lemma truthy_append_r (s t : string) :
  JsString.truthy t = true -> JsString.truthy (s +:+ t) = true.
Proof. destruct s; simpl; auto. Qed.

Lemma validation_sound (d : AssetData) : Sound (Asset.validation d).
Proof.
  unfold Asset.validation, Asset.checkReorderPoint, Asset.checkSerialNumber,
    Asset.checkQuantity, Asset.checkName, Model.clearErrors.
  repeat match goal with
         | |- Sound (if ?c then _ else _) => destruct c
         | |- Sound (Model.addError _ _ _) => apply addError_sound; [reflexivity|]
         | |- Sound [] => constructor
         end.
Qed.

(** The errors map a hospital asset holds after [validate()]. *)
Definition recorded (h : HospitalAsset.t) : Model.Errors :=
  fold_left (HospitalAsset.checkRequired h) (fields (HospitalAsset.hospitalConfig h))
    (Asset.validation (base (HospitalAsset.data h))).

Lemma checkRequired_fold (h : HospitalAsset.t) (fs : list FieldConfig) (e : Model.Errors) :
  (Sound e -> Sound (fold_left (HospitalAsset.checkRequired h) fs e))
  /\ (length e <= length (fold_left (HospitalAsset.checkRequired h) fs e))%nat.
Proof.
  revert e. induction fs as [|f fs IH]; intros e; simpl; [split; auto|].
  specialize (IH (HospitalAsset.checkRequired h e f)). destruct IH as [IH1 IH2].
  assert (Hs : Sound e -> Sound (HospitalAsset.checkRequired h e f)).
  { intros He. unfold HospitalAsset.checkRequired.
    destruct (required f) as [[|]|]; auto.
    destruct (Value.is_blank _); auto.
    apply addError_sound; auto. now apply truthy_append_r. }
  assert (Hl : (length e <= length (HospitalAsset.checkRequired h e f))%nat).
  { unfold HospitalAsset.checkRequired.
    destruct (required f) as [[|]|]; auto.
    destruct (Value.is_blank _); auto. apply addError_length. }
  split; [auto | lia].
Qed.

Lemma recorded_sound (h : HospitalAsset.t) : Sound (recorded h).
Proof. apply checkRequired_fold, validation_sound. Qed.

(** [validate()] stores the recorded errors and answers whether there are
    none. *)
Lemma validate_recorded (h : HospitalAsset.t) :
  HospitalAsset.validate h
  = (HospitalAsset.with_errors (recorded h) h, negb (Model.hasErrors (recorded h))).
Proof.
  unfold HospitalAsset.validate, Asset.validate, recorded. simpl. f_equal.
  pose proof (proj2 (checkRequired_fold h (fields (HospitalAsset.hospitalConfig h))
                       (Asset.validation (base (HospitalAsset.data h))))) as Hl.
  unfold Model.hasErrors in *.
  destruct (Asset.validation (base (HospitalAsset.data h))) as [|x e]; simpl in *; [reflexivity|].
  destruct (fold_left _ _ _); simpl in *; [lia|reflexivity].
Qed.

(** For a hospital asset too, [validate()] answers true exactly when it
    recorded no error. *)
Lemma validate_true_iff (h : HospitalAsset.t) :
  (HospitalAsset.validate h).2 = true
  <-> HospitalAsset.errors (HospitalAsset.validate h).1 = [].
Proof.
  rewrite validate_recorded. cbn. unfold Model.hasErrors.
  destruct (recorded h); cbn; split; congruence.
Qed.

(** Validating again gives the same answer: the rules read the data, the
    custom fields and the configuration, never the errors. *)
Lemma validate_again (h : HospitalAsset.t) :
  HospitalAsset.validate (HospitalAsset.validate h).1 = HospitalAsset.validate h.
Proof. rewrite !validate_recorded. reflexivity. Qed.

(** ** The order of own properties *)

Lemma insert_index_In {V : Type} (n : N) (e : string * V) (l : list (N * (string * V))) x :
  In x (Object.insert_index n e l) <-> x = (n, e) \/ In x l.
Proof.
  induction l as [|[m e'] l IH]; simpl; [intuition|].
  destruct (n <? m)%N; simpl; [intuition|]. rewrite IH. intuition.
Qed.

Lemma indexed_In {V : Type} (l : list (string * V)) n e :
  In (n, e) (Object.indexed l) -> In e l.
Proof.
  induction l as [|e' l IH]; simpl; [auto|].
  destruct (Object.array_index e'.1); [|auto].
  rewrite insert_index_In. intros [H|H]; [inversion H; auto|auto].
Qed.

Lemma fromEntries_In {V : Type} (l : list (string * V)) e :
  In e (Object.fromEntries l) -> In e l.
Proof.
  unfold Object.fromEntries, Object.named. rewrite in_app_iff, in_map_iff, filter_In.
  intros [([n e'] & <- & H)|[H _]]; [|assumption]. now apply indexed_In in H.
Qed.

Lemma fromEntries_nonempty {V : Type} (l : list (string * V)) :
  l <> [] -> Object.fromEntries l <> [].
Proof.
  destruct l as [|e l]; [congruence|]. intros _.
  unfold Object.fromEntries, Object.named. simpl.
  destruct (Object.array_index e.1) as [n|].
  - destruct (Object.indexed l) as [|[m e'] r]; simpl; [discriminate|].
    destruct (n <? m)%N; discriminate.
  - intros H. apply app_eq_nil in H. destruct H; discriminate.
Qed.

(** The errors of an invalid entity start with a field that has a first
    message, and that message is what [beforeSave] reports. *)
Lemma first_error_exists (h : HospitalAsset.t) :
  (HospitalAsset.validate h).2 = false ->
  exists field m ms rest,
    HospitalAsset.getErrors (HospitalAsset.validate h).1 = (field, m :: ms) :: rest
    /\ Repository.firstError (HospitalAsset.getErrors (HospitalAsset.validate h).1) = m.
Proof.
  rewrite validate_recorded. simpl. intros Hv.
  unfold HospitalAsset.getErrors, Model.getErrors. simpl.
  assert (Hne : recorded h <> []).
  { unfold Model.hasErrors in Hv. destruct (recorded h); [discriminate|congruence]. }
  apply fromEntries_nonempty in Hne.
  assert (Hs : Sound (Object.fromEntries (recorded h))).
  { pose proof (recorded_sound h) as Hr. unfold Sound in *.
    rewrite List.Forall_forall in *. intros x Hx. apply fromEntries_In in Hx. now apply Hr. }
  destruct (Object.fromEntries (recorded h)) as [|[field msgs] rest]; [congruence|].
  inversion Hs as [|? ? (m & ms & E & T) _]; subst. simpl in E. subst msgs.
  exists field, m, ms, rest. split; [reflexivity|].
  unfold Repository.firstError. simpl. now rewrite T.
Qed.

(** ** The map of the repository *)

Lemma JsMap_get_set {V : Type} (k : string) (v : V) (m : list (string * V)) :
  JsMap.get k (JsMap.set k v m) = Some v.
Proof.
  induction m as [|[k' v'] m IH]; simpl.
  - now rewrite String.eqb_refl.
  - destruct (String.eqb k' k) eqn:E; simpl; [now rewrite String.eqb_refl|now rewrite E].
Qed.

Lemma JsMap_get_set_other {V : Type} (k k0 : string) (v : V) (m : list (string * V)) :
  k0 <> k -> JsMap.get k0 (JsMap.set k v m) = JsMap.get k0 m.
Proof.
  intros Hne. induction m as [|[k' v'] m IH]; simpl.
  - destruct (String.eqb k k0) eqn:E; [apply String.eqb_eq in E; congruence|reflexivity].
  - destruct (String.eqb k' k) eqn:E; simpl.
    + apply String.eqb_eq in E. subst k'.
      destruct (String.eqb k k0) eqn:E'; [apply String.eqb_eq in E'; congruence|reflexivity].
    + now rewrite IH.
Qed.

(** ** Worlds, field by field *)

Lemma World_ext (w1 w2 : World) :
  objects w1 = objects w2 -> arrays w1 = arrays w2 -> storage w1 = storage w2 ->
  localStorage w1 = localStorage w2 -> assets w1 = assets w2 -> loading w1 = loading w2 ->
  error w1 = error w2 -> searchQuery w1 = searchQuery w2 ->
  selectedCategory w1 = selectedCategory w2 -> sortBy w1 = sortBy w2 ->
  sortDirection w1 = sortDirection w2 -> activeFilter w1 = activeFilter w2 ->
  w1 = w2.
Proof. destruct w1, w2. simpl. intros. congruence. Qed.

(** Reduce the projections of updated worlds, and nothing else. *)
Ltac fields :=
  cbn [objects arrays storage localStorage assets loading error searchQuery
       selectedCategory sortBy sortDirection activeFilter
       set_objects set_arrays set_storage set_localStorage set_loading set_error
       set_searchQuery set_selectedCategory set_activeFilter].

Ltac same_world := apply World_ext; fields; try reflexivity.

(** ** Saving an entity *)

Lemma beforeSave_run (w : World) (r : loc) (h : HospitalAsset.t) :
  objects w !! r = Some h ->
  Repository.beforeSave r w =
  (if (HospitalAsset.validate h).2 then Done tt
   else Raise ("Model validation failed: "
               +:+ Repository.firstError (HospitalAsset.getErrors (HospitalAsset.validate h).1)),
   set_objects (insert r (HospitalAsset.validate h).1) w).
Proof.
  intros H. unfold Repository.beforeSave, bind, deref. rewrite H.
  destruct (HospitalAsset.validate h) as [h' [|]]; reflexivity.
Qed.

Lemma saveToLocalStorage_run (w : World) :
  exists ls, AssetRepository.saveToLocalStorage w = (Done tt, set_localStorage ls w).
Proof.
  unfold AssetRepository.saveToLocalStorage.
  destruct (mapM _ _) as [entries|].
  - destruct (AssetRepository.serializeAll entries) as [snapshot|m].
    + now exists (Some snapshot).
    + exists (localStorage w). now destruct w.
  - exists (localStorage w). now destruct w.
Qed.

(** A successful [save]: the entity, validated and marked clean, sits in the
    map under its id; the snapshot in [localStorage] may have been
    rewritten; nothing else moved. *)
Lemma save_run_valid (w : World) (r : loc) (h : HospitalAsset.t) :
  objects w !! r = Some h ->
  (HospitalAsset.validate h).2 = true ->
  exists ls,
    AssetRepository.save r w =
    (Done tt,
     set_localStorage ls
       (set_objects (fun _ => <[r := HospitalAsset.markAsClean (HospitalAsset.validate h).1]> (objects w))
          (set_storage (JsMap.set (id (base (HospitalAsset.data h))) r) w))).
Proof.
  intros H Hv. unfold AssetRepository.save.
  unfold bind at 1. rewrite (beforeSave_run _ _ _ H), Hv.
  rewrite validate_recorded. simpl.
  unfold bind at 1. unfold deref at 1. simpl. rewrite lookup_insert_eq. simpl.
  unfold bind at 1. unfold modify at 1.
  unfold bind at 1. unfold Repository.afterSave, bind, deref, assign, modify. simpl.
  rewrite lookup_insert_eq. simpl.
  match goal with |- context [AssetRepository.saveToLocalStorage ?w'] =>
    destruct (saveToLocalStorage_run w') as [ls Hls]; rewrite Hls end.
  exists ls. f_equal. same_world. now rewrite insert_insert_eq.
Qed.

(** C4: [save] fails exactly when the entity does not validate; the error
    then carries the first message of the first field of the entity's
    errors, and the map of the repository is as before (only the errors of
    the entity were rewritten by the validation); when the entity validates,
    it is stored under its id, other ids keeping their entry, and it is
    marked clean. *)
Theorem C4_save (w : World) (r : loc) (h : HospitalAsset.t) :
  objects w !! r = Some h ->
  let h' := (HospitalAsset.validate h).1 in
  let valid := (HospitalAsset.validate h).2 in
  let i := id (base (HospitalAsset.data h)) in
  ((exists m w', AssetRepository.save r w = (Raise m, w')) <-> valid = false)
  /\ (valid = false ->
      exists field m ms rest w',
        HospitalAsset.getErrors h' = (field, m :: ms) :: rest
        /\ AssetRepository.save r w = (Raise ("Model validation failed: " +:+ m), w')
        /\ storage w' = storage w
        /\ objects w' = <[r := h']> (objects w))
  /\ (valid = true ->
      exists w' h'',
        AssetRepository.save r w = (Done tt, w')
        /\ JsMap.get i (storage w') = Some r
        /\ (forall k, k <> i -> JsMap.get k (storage w') = JsMap.get k (storage w))
        /\ objects w' !! r = Some h''
        /\ HospitalAsset.isDirty h'' = false
        /\ HospitalAsset.data h'' = HospitalAsset.data h).
Proof.
  intros H h' valid i.
  assert (Hfail : valid = false ->
            AssetRepository.save r w =
            (Raise ("Model validation failed: "
                    +:+ Repository.firstError (HospitalAsset.getErrors h')),
             set_objects (insert r h') w)).
  { intros Hv. unfold AssetRepository.save. unfold bind at 1.
    rewrite (beforeSave_run _ _ _ H). fold valid h'. now rewrite Hv. }
  split; [|split].
  - split.
    + intros (m & w' & E). destruct valid eqn:Hv; [|reflexivity].
      destruct (save_run_valid w r h H Hv) as [ls E']. congruence.
    + intros Hv. eexists _, _. exact (Hfail Hv).
  - intros Hv. destruct (first_error_exists h Hv) as (field & m & ms & rest & E1 & E2).
    exists field, m, ms, rest, (set_objects (insert r h') w).
    split; [exact E1|]. split; [|split; reflexivity].
    rewrite (Hfail Hv). fold h' in E2. now rewrite E2.
  - intros Hv. destruct (save_run_valid w r h H Hv) as [ls E].
    eexists _, (HospitalAsset.markAsClean h'). split; [exact E|]. simpl.
    split; [apply JsMap_get_set|]. split; [intros k Hk; now apply JsMap_get_set_other|].
    split; [apply lookup_insert_eq|]. split; [reflexivity|].
    reflexivity.
Qed.

(** Two entities and a world that holds them: the first validates, the
    serial number of the second has the wrong shape. *)
Definition requiredFields : HospitalConfig :=
  mkHospitalConfig "hospital-1" "St Thomas Hospital"
    [ mkFieldConfig "name" "Name" FText (Some true) (Some true) None None None;
      mkFieldConfig "manufacturer" "Manufacturer" FText (Some true) (Some true) None None None;
      mkFieldConfig "purchasePrice" "Price" FCurrency (Some false) (Some false) None None None ]
    None.

Definition goodAsset : HospitalAsset.t :=
  HospitalAsset.new "g-1"
    (mkPartialHospitalAssetData
       (mkPartialAssetData (Some "1") (Some "New Equipment") (Some "MedTech") (Some "Diagnostic")
          (Some 10%float) (Some "NE-123456") None None None None)
       None None None None None None)
    requiredFields.

Definition badAsset : HospitalAsset.t :=
  HospitalAsset.new "g-2"
    (mkPartialHospitalAssetData
       (mkPartialAssetData (Some "2") (Some "Bad Serial") None (Some "Diagnostic")
          (Some 10%float) (Some "INVALID") None None None None)
       None None None None None None)
    requiredFields.

Definition smallWorld : World :=
  {| objects := <[0%nat := goodAsset]> (<[1%nat := badAsset]> ∅);
     arrays := <[0%nat := [0%nat]]> ∅;
     storage := [("1", 0%nat)];
     localStorage := None;
     assets := 0%nat;
     loading := false;
     error := None;
     searchQuery := "";
     selectedCategory := None;
     sortBy := ByName;
     sortDirection := Asc;
     activeFilter := FilterAll |}.

Lemma C4_save_witness :
  (exists w',
     AssetRepository.save 1%nat smallWorld
     = (Raise "Model validation failed: Invalid serial number format (should be XX-000000)", w')
     /\ storage w' = storage smallWorld)
  /\ (exists w', AssetRepository.save 0%nat smallWorld = (Done tt, w')
                 /\ JsMap.get "1" (storage w') = Some 0%nat).
Proof.
  split.
  - destruct (C4_save smallWorld 1%nat badAsset eq_refl) as (_ & Hfail & _).
    destruct (Hfail eq_refl) as (field & m & ms & rest & w' & E1 & E2 & E3 & _).
    exists w'. split; [|exact E3].
    vm_compute in E1. inversion E1; subst. exact E2.
  - destruct (C4_save smallWorld 0%nat goodAsset eq_refl) as (_ & _ & Hok).
    destruct (Hok eq_refl) as (w' & h'' & E & Hget & _).
    exists w'. split; [exact E | exact Hget].
Defined.

(** ** Creating an asset through the store *)

Arguments HospitalAsset.validate : simpl never.
Arguments HospitalAsset.getErrors : simpl never.
Arguments HospitalAsset.markAsClean : simpl never.
Arguments Store.composeErrors : simpl never.
Arguments AssetRepository.save : simpl never.

Lemma createAsset_invalid (save : loc -> M unit) (w : World) (asset : loc) (h : HospitalAsset.t) :
  objects w !! asset = Some h ->
  (HospitalAsset.validate h).2 = false ->
  Store.createAssetWith save asset w =
  (Done tt,
   set_loading false
     (set_error (Some (Store.composeErrors (HospitalAsset.getErrors (HospitalAsset.validate h).1)))
        (set_objects (insert asset (HospitalAsset.validate h).1)
           (set_error None (set_loading true w))))).
Proof.
  intros H Hv. unfold Store.createAssetWith, bind, modify, try_finally, try_catch, deref, assign.
  cbn [objects set_error set_loading]. rewrite H.
  destruct (HospitalAsset.validate h) as [h' valid]. cbn [snd] in Hv. subst valid. reflexivity.
Qed.

Lemma createAsset_valid (w : World) (asset : loc) (h : HospitalAsset.t) (l : list loc) :
  objects w !! asset = Some h ->
  (HospitalAsset.validate h).2 = true ->
  arrays w !! assets w = Some l ->
  exists ls,
    Store.createAsset asset w =
    (Done tt,
     set_loading false
       (set_arrays (insert (assets w) (l ++ [asset]))
          (set_localStorage ls
             (set_objects
                (fun _ => <[asset := HospitalAsset.markAsClean (HospitalAsset.validate h).1]> (objects w))
                (set_storage (JsMap.set (id (base (HospitalAsset.data h))) asset)
                   (set_error None (set_loading true w))))))).
Proof.
  intros H Hv Ha. unfold Store.createAsset, Store.createAssetWith.
  unfold bind, modify, try_finally, try_catch, deref, assign.
  cbn [objects set_error set_loading]. rewrite H.
  destruct (HospitalAsset.validate h) as [h' valid] eqn:E. cbn [fst snd] in *. subst valid.
  cbn [negb]. unfold modify.
  assert (Hagain : HospitalAsset.validate h' = (h', true)).
  { pose proof (validate_again h) as Hg. rewrite E in Hg. exact Hg. }
  assert (Hd : HospitalAsset.data h' = HospitalAsset.data h).
  { pose proof (validate_recorded h) as Hr. rewrite E in Hr. inversion Hr. reflexivity. }
  destruct (save_run_valid (set_objects <[asset:=h']> (set_error None (set_loading true w)))
              asset h') as [ls Hs].
  { cbn [objects set_objects]. apply lookup_insert_eq. }
  { now rewrite Hagain. }
  rewrite Hs. unfold gets, readArray, writeArray, modify.
  cbn [assets arrays set_localStorage set_objects set_storage set_error set_loading].
  rewrite Ha. exists ls. rewrite Hagain, Hd. cbn [fst].
  f_equal. same_world. now rewrite insert_insert_eq.
Qed.

(** C5: when the entity does not validate (as it does not when its serial
    number has not the shape XX-000000), [createAsset] leaves the working
    set as it is, does not use the repository, whatever its [save] is, and
    sets [error] to the composed message; when the entity validates, it is
    appended to the working set. *)
Theorem C5_createAsset (w : World) (asset : loc) (h : HospitalAsset.t) :
  objects w !! asset = Some h ->
  let h' := (HospitalAsset.validate h).1 in
  let valid := (HospitalAsset.validate h).2 in
  (Asset.matchesSerial (serialNumber (base (HospitalAsset.data h))) = false -> valid = false)
  /\ (valid = false ->
      forall save : loc -> M unit,
      exists w',
        Store.createAssetWith save asset w = (Done tt, w')
        /\ assets w' = assets w /\ arrays w' = arrays w
        /\ storage w' = storage w /\ localStorage w' = localStorage w
        /\ error w' = Some (Store.composeErrors (HospitalAsset.getErrors h'))
        /\ loading w' = false)
  /\ (valid = true ->
      forall l, arrays w !! assets w = Some l ->
      exists w',
        Store.createAsset asset w = (Done tt, w')
        /\ assets w' = assets w
        /\ arrays w' !! assets w' = Some (l ++ [asset])
        /\ error w' = None /\ loading w' = false).
Proof.
  intros H h' valid. split; [|split].
  - intros Hs. unfold valid. rewrite validate_recorded. simpl.
    unfold recorded.
    pose proof (proj2 (checkRequired_fold h (fields (HospitalAsset.hospitalConfig h))
                  (Asset.validation (base (HospitalAsset.data h))))) as Hl.
    assert (Hb : (0 < length (Asset.validation (base (HospitalAsset.data h))))%nat).
    { unfold Asset.validation, Asset.checkReorderPoint.
      assert (Hc : forall e, (0 < length (Asset.checkSerialNumber (base (HospitalAsset.data h)) e))%nat).
      { intros e. unfold Asset.checkSerialNumber. rewrite Hs. simpl.
        destruct (negb _); apply addError_length. }
      destruct (_ <? _)%float; [apply addError_length | apply Hc]. }
    unfold Model.hasErrors. destruct (fold_left _ _ _); simpl in *; [lia|reflexivity].
  - intros Hv save. eexists. split; [exact (createAsset_invalid save w asset h H Hv)|].
    simpl. repeat split; reflexivity.
  - intros Hv l Ha. destruct (createAsset_valid w asset h l H Hv Ha) as [ls E].
    eexists. split; [exact E|]. simpl. split; [reflexivity|].
    split; [apply lookup_insert_eq|]. split; reflexivity.
Qed.

Lemma C5_createAsset_witness :
  (exists w',
     Store.createAssetWith AssetRepository.save 1%nat smallWorld = (Done tt, w')
     /\ arrays w' = arrays smallWorld
     /\ storage w' = storage smallWorld
     /\ error w' = Some "Validation failed: serialNumber: Invalid serial number format (should be XX-000000), manufacturer: Manufacturer is required")
  /\ (exists w',
        Store.createAsset 0%nat smallWorld = (Done tt, w')
        /\ arrays w' !! assets w' = Some [0%nat; 0%nat]).
Proof.
  split.
  - destruct (C5_createAsset smallWorld 1%nat badAsset eq_refl) as (Hserial & Hbad & _).
    destruct (Hbad (Hserial eq_refl) AssetRepository.save)
      as (w' & E & _ & Harr & Hsto & _ & Herr & _).
    exists w'. repeat split; assumption.
  - destruct (C5_createAsset smallWorld 0%nat goodAsset eq_refl) as (_ & _ & Hgood).
    destruct (Hgood eq_refl [0%nat] eq_refl) as (w' & E & _ & Harr & _).
    exists w'. split; [exact E | exact Harr].
Defined.

(** ** Reading the working set *)

(** [hs] pairs references with the objects found behind them. *)
Definition Holds (w : World) (hs : list (loc * HospitalAsset.t)) : Prop :=
  Forall (fun x => objects w !! x.1 = Some x.2) hs.

Lemma derefAll_run (w : World) (hs : list (loc * HospitalAsset.t)) :
  Holds w hs -> derefAll (List.map fst hs) w = (Done hs, w).
Proof.
  unfold derefAll. intros H.
  assert (E : mapM (fun r => (fun h => (r, h)) <$> objects w !! r) (List.map fst hs) = Some hs).
  { induction H as [|[r h] hs Hx _ IH]; [reflexivity|].
    cbn in *. rewrite Hx. cbn. rewrite IH. reflexivity. }
  now rewrite E.
Qed.



Lemma Holds_filter (p : loc * HospitalAsset.t -> bool) w hs :
  Holds w hs -> Holds w (List.filter p hs).
Proof.
  unfold Holds. rewrite !List.Forall_forall. intros H x Hx.
  apply filter_In in Hx. now apply H.
Qed.

Lemma filterArray_run (p : HospitalAsset.t -> bool) (w : World) (a : loc) hs :
  arrays w !! a = Some (List.map fst hs) ->
  Holds w hs ->
  filterArray p a w =
  (Done (fresh (dom (arrays w))),
   set_arrays (insert (fresh (dom (arrays w)))
                 (List.map fst (List.filter (fun x => p x.2) hs))) w).
Proof.
  intros Ha Hh. unfold filterArray, bind, readArray. rewrite Ha.
  rewrite (derefAll_run _ _ Hh). reflexivity.
Qed.

(** ** Statistics *)
















(** ** Sorting *)

Section SortFacts.
Context {A : Type} (cmp : A -> A -> Z) (P : A -> Prop).

(** A comparator that is consistent on the elements that satisfy [P]. *)
Hypothesis cmp_flip : forall x y, P x -> P y -> cmp y x = - cmp x y.
Hypothesis cmp_trans :
  forall x y z, P x -> P y -> P z -> cmp x y <= 0 -> cmp y z <= 0 -> cmp x z <= 0.
Hypothesis cmp_eq :
  forall x y z, P x -> P y -> P z -> cmp x y = 0 -> cmp x z = 0 -> cmp y z = 0.

Lemma insert_perm (x : A) (l : list A) : Permutation (Array.insert cmp x l) (x :: l).
Proof.
  induction l as [|y l IH]; simpl; [reflexivity|].
  destruct (0 <? cmp x y); [|reflexivity].
  rewrite IH. apply perm_swap.
Qed.

Lemma sort_perm (l : list A) : Permutation (Array.sort cmp l) l.
Proof.
  induction l as [|x l IH]; simpl; [reflexivity|].
  rewrite insert_perm. now constructor.
Qed.

Lemma sort_all (l : list A) : List.Forall P l -> List.Forall P (Array.sort cmp l).
Proof.
  intros H. rewrite List.Forall_forall in *. intros x Hx. apply H.
  apply (Permutation_in x (sort_perm l)). exact Hx.
Qed.

Lemma insert_sorted (x : A) (l : list A) :
  P x -> List.Forall P l ->
  StronglySorted (fun a b => cmp a b <= 0) l ->
  StronglySorted (fun a b => cmp a b <= 0) (Array.insert cmp x l).
Proof.
  intros Hx Hl Hs. induction Hs as [|y l Hs IH Hy]; simpl.
  - repeat constructor.
  - inversion Hl as [|? ? Py Pl]; subst.
    destruct (0 <? cmp x y) eqn:E.
    + apply Z.ltb_lt in E. constructor; [now apply IH|].
      rewrite List.Forall_forall. intros z Hz.
      apply (Permutation_in z (insert_perm x l)) in Hz. destruct Hz as [<-|Hz].
      * rewrite (cmp_flip x y Hx Py). lia.
      * rewrite List.Forall_forall in Hy. now apply Hy.
    + apply Z.ltb_ge in E. constructor; [now constructor|].
      constructor; [exact E|].
      rewrite List.Forall_forall in *. intros z Hz.
      apply (cmp_trans x y z); auto.
Qed.

Lemma sort_sorted (l : list A) :
  List.Forall P l -> StronglySorted (fun a b => cmp a b <= 0) (Array.sort cmp l).
Proof.
  induction l as [|x l IH]; simpl; intros H; [constructor|].
  inversion H; subst. apply insert_sorted; auto. now apply sort_all.
Qed.

Lemma insert_stable (k x : A) (l : list A) :
  P k -> P x -> List.Forall P l ->
  List.filter (fun y => cmp k y =? 0) (Array.insert cmp x l)
  = List.filter (fun y => cmp k y =? 0) (x :: l).
Proof.
  intros Hk Hx Hl. induction Hl as [|y l Py Hl IH]; [reflexivity|].
  cbn [Array.insert]. destruct (0 <? cmp x y) eqn:E; [|reflexivity].
  apply Z.ltb_lt in E. cbn [List.filter] in *. rewrite IH.
  destruct (cmp k y =? 0) eqn:Ey; destruct (cmp k x =? 0) eqn:Ex; try reflexivity.
  apply Z.eqb_eq in Ey, Ex. pose proof (cmp_eq k x y Hk Hx Py Ex Ey). lia.
Qed.

Lemma sort_stable (k : A) (l : list A) :
  P k -> List.Forall P l ->
  List.filter (fun y => cmp k y =? 0) (Array.sort cmp l)
  = List.filter (fun y => cmp k y =? 0) l.
Proof.
  intros Hk Hl. induction Hl as [|x l Px Hl IH]; [reflexivity|].
  cbn [Array.sort]. rewrite insert_stable; auto; [|now apply sort_all].
  cbn [List.filter]. now rewrite IH.
Qed.

End SortFacts.

(** ** Orders given by a three-way comparison *)

Section ThreeWay.
Context {K : Type} (c : K -> K -> comparison).
Hypothesis c_antisym : forall x y, c y x = CompOpp (c x y).
Hypothesis c_trans : forall x y z, c x y = Lt -> c y z = Lt -> c x z = Lt.
Hypothesis c_eq : forall x y z, c x y = Eq -> c x z = c y z.

Definition three (x y : K) : Z :=
  match c x y with Gt => 1 | Lt => -1 | Eq => 0 end.

Lemma three_flip (x y : K) : three y x = - three x y.
Proof. unfold three. rewrite (c_antisym x y). now destruct (c x y). Qed.

Lemma three_eq (x y z : K) : three x y = 0 -> three x z = 0 -> three y z = 0.
Proof.
  unfold three. intros H1 H2.
  destruct (c x y) eqn:E1; try discriminate. destruct (c x z) eqn:E2; try discriminate.
  now rewrite <- (c_eq x y z E1), E2.
Qed.

Lemma three_trans (x y z : K) : three x y <= 0 -> three y z <= 0 -> three x z <= 0.
Proof.
  unfold three. intros H1 H2.
  destruct (c x y) eqn:E1; try lia.
  - rewrite (c_eq x y z E1). exact H2.
  - destruct (c y z) eqn:E2; try lia.
    + pose proof (c_eq y z x E2) as E4.
      rewrite (c_antisym x y), E1 in E4. simpl in E4.
      rewrite (c_antisym z x), <- E4. simpl. lia.
    + rewrite (c_trans x y z E1 E2). lia.
Qed.

End ThreeWay.

(** ** The order of numbers and of strings *)

(** Numbers other than [NaN] are ordered like triples of integers: the
    class ([-inf], negative, zero, positive, [+inf]), then the exponent and
    the mantissa, both counted downwards for negative numbers. *)
Definition floatKey (f : spec_float) : Z * Z * Z :=
  match f with
  | S754_zero _ | S754_nan => (0, 0, 0)
  | S754_infinity s => (if s then -2 else 2, 0, 0)
  | S754_finite s m e => if s then (-1, - e, Z.neg m) else (1, e, Z.pos m)
  end.

Definition lex3 (x y : Z * Z * Z) : comparison :=
  match x.1.1 ?= y.1.1 with
  | Eq => match x.1.2 ?= y.1.2 with
          | Eq => x.2 ?= y.2
          | o => o
          end
  | o => o
  end.

Ltac by_cases_on_compare :=
  repeat match goal with
         | |- context [(?a ?= ?b)%Z] => destruct (Z.compare_spec a b)
         | H : context [(?a ?= ?b)%Z] |- _ => destruct (Z.compare_spec a b)
         end;
  try reflexivity; try discriminate; try lia.

Lemma lex3_antisym (x y : Z * Z * Z) : lex3 y x = CompOpp (lex3 x y).
Proof. destruct x as [[a b] c], y as [[a' b'] c']. unfold lex3; simpl. by_cases_on_compare. Qed.

Lemma lex3_trans (x y z : Z * Z * Z) : lex3 x y = Lt -> lex3 y z = Lt -> lex3 x z = Lt.
Proof.
  destruct x as [[a b] c], y as [[a' b'] c'], z as [[a'' b''] c''].
  unfold lex3; simpl. intros H1 H2. by_cases_on_compare.
Qed.

Lemma lex3_eq (x y z : Z * Z * Z) : lex3 x y = Eq -> lex3 x z = lex3 y z.
Proof.
  destruct x as [[a b] c], y as [[a' b'] c']. unfold lex3 at 1; simpl. intros H.
  assert (a = a' /\ b = b' /\ c = c') as (-> & -> & ->); [|reflexivity].
  by_cases_on_compare; auto.
Qed.

Lemma SFcompare_lex3 (a b : spec_float) :
  a <> S754_nan -> b <> S754_nan ->
  SFcompare a b = Some (lex3 (floatKey a) (floatKey b)).
Proof.
  intros Ha Hb.
  destruct a as [sa|sa| |sa ma ea], b as [sb|sb| |sb mb eb]; try congruence;
    repeat match goal with s : bool |- _ => destruct s end;
    cbn [SFcompare floatKey]; try reflexivity; f_equal; unfold lex3; cbn [fst snd];
    rewrite ?Z.compare_refl.
  rewrite Z.compare_opp. rewrite (Z.compare_antisym ea eb).
  destruct (ea ?= eb); reflexivity.
Qed.

Definition numCompare (x y : number) : comparison :=
  lex3 (floatKey (Prim2SF x)) (floatKey (Prim2SF y)).

Lemma not_nan (x : number) : is_nan x = false -> Prim2SF x <> S754_nan.
Proof.
  unfold is_nan. rewrite FloatAxioms.eqb_spec. intros H E. rewrite E in H. discriminate.
Qed.

Lemma ltb_numCompare (x y : number) :
  is_nan x = false -> is_nan y = false ->
  (x <? y)%float = match numCompare x y with Lt => true | _ => false end.
Proof.
  intros Hx Hy. rewrite ltb_spec. unfold SFltb, numCompare.
  now rewrite (SFcompare_lex3 _ _ (not_nan x Hx) (not_nan y Hy)).
Qed.

Lemma eqb_numCompare (x y : number) :
  is_nan x = false -> is_nan y = false ->
  (x =? y)%float = match numCompare x y with Eq => true | _ => false end.
Proof.
  intros Hx Hy. rewrite FloatAxioms.eqb_spec. unfold SFeqb, numCompare.
  now rewrite (SFcompare_lex3 _ _ (not_nan x Hx) (not_nan y Hy)).
Qed.

Lemma string_compare_trans (x y z : string) :
  String.compare x y = Lt -> String.compare y z = Lt -> String.compare x z = Lt.
Proof.
  revert y z. induction x as [|a x IH]; intros [|b y] [|c z]; simpl; try congruence.
  unfold Ascii.compare.
  destruct (N.compare_spec (N_of_ascii a) (N_of_ascii b)) as [E1|E1|E1]; try discriminate;
    destruct (N.compare_spec (N_of_ascii b) (N_of_ascii c)) as [E2|E2|E2]; try discriminate;
    intros H1 H2.
  - rewrite E1, E2, N.compare_refl. eauto.
  - rewrite E1. now apply N.compare_lt_iff in E2 as ->.
  - rewrite <- E2. now apply N.compare_lt_iff in E1 as ->.
  - assert (E3 : (N_of_ascii a < N_of_ascii c)%N) by lia.
    now apply N.compare_lt_iff in E3 as ->.
Qed.

Lemma string_compare_eq (x y z : string) :
  String.compare x y = Eq -> String.compare x z = String.compare y z.
Proof. intros H. apply String.compare_eq_iff in H. now subst. Qed.

Lemma string_compare_antisym (x y : string) :
  String.compare y x = CompOpp (String.compare x y).
Proof. apply String.compare_antisym. Qed.

Lemma string_compare_refl (x : string) : String.compare x x = Eq.
Proof.
  pose proof (String.compare_antisym x x) as H. destruct (String.compare x x); simpl in H; congruence.
Qed.

(** ** The keys the store sorts by *)

(** [a > b], [a < b] and [a == b] on the field chosen by [sortBy]. *)
Definition keyGt (by_ : SortBy) (a b : HospitalAsset.t) : bool :=
  let x := base (HospitalAsset.data a) in
  let y := base (HospitalAsset.data b) in
  match by_ with
  | ByName => JsString.gtb (name x) (name y)
  | ByQuantity => Number.gtb (quantity x) (quantity y)
  | ByCategory => JsString.gtb (category x) (category y)
  end.

Definition keyLt (by_ : SortBy) (a b : HospitalAsset.t) : bool :=
  let x := base (HospitalAsset.data a) in
  let y := base (HospitalAsset.data b) in
  match by_ with
  | ByName => JsString.ltb (name x) (name y)
  | ByQuantity => (quantity x <? quantity y)%float
  | ByCategory => JsString.ltb (category x) (category y)
  end.

Definition sameKey (by_ : SortBy) (a b : HospitalAsset.t) : bool :=
  let x := base (HospitalAsset.data a) in
  let y := base (HospitalAsset.data b) in
  match by_ with
  | ByName => String.eqb (name x) (name y)
  | ByQuantity => (quantity x =? quantity y)%float
  | ByCategory => String.eqb (category x) (category y)
  end.

(** [a] may stand before [b]: ascending, [a] is not greater; descending,
    [a] is not less. *)
Definition inOrder (by_ : SortBy) (dir : SortDirection) (a b : HospitalAsset.t) : Prop :=
  match dir with
  | Asc => keyGt by_ a b = false
  | Desc => keyLt by_ a b = false
  end.

(** The key of the asset can be compared: a quantity must not be [NaN],
    which is neither less than, nor greater than, nor equal to anything. *)
Definition Sortable (by_ : SortBy) (h : HospitalAsset.t) : Prop :=
  match by_ with
  | ByQuantity => is_nan (quantity (base (HospitalAsset.data h))) = false
  | _ => True
  end.

Definition keyCompare (by_ : SortBy) (a b : HospitalAsset.t) : comparison :=
  let x := base (HospitalAsset.data a) in
  let y := base (HospitalAsset.data b) in
  match by_ with
  | ByName => String.compare (name x) (name y)
  | ByQuantity => numCompare (quantity x) (quantity y)
  | ByCategory => String.compare (category x) (category y)
  end.

Lemma keyCompare_antisym by_ a b : keyCompare by_ b a = CompOpp (keyCompare by_ a b).
Proof.
  destruct by_; unfold keyCompare, numCompare;
    first [apply string_compare_antisym | apply lex3_antisym].
Qed.

Lemma keyCompare_trans by_ a b c :
  keyCompare by_ a b = Lt -> keyCompare by_ b c = Lt -> keyCompare by_ a c = Lt.
Proof.
  destruct by_; unfold keyCompare, numCompare;
    first [apply string_compare_trans | apply lex3_trans].
Qed.

Lemma keyCompare_eq by_ a b c :
  keyCompare by_ a b = Eq -> keyCompare by_ a c = keyCompare by_ b c.
Proof.
  destruct by_; unfold keyCompare, numCompare;
    first [apply string_compare_eq | apply lex3_eq].
Qed.

Lemma string_ltb_compare (x y : string) :
  JsString.ltb x y = match String.compare x y with Lt => true | _ => false end.
Proof. reflexivity. Qed.

Lemma string_gtb_compare (x y : string) :
  JsString.gtb x y = match String.compare x y with Gt => true | _ => false end.
Proof.
  unfold JsString.gtb, String.ltb. rewrite (String.compare_antisym y x).
  now destruct (String.compare x y).
Qed.

Lemma string_eqb_compare (x y : string) :
  String.eqb x y = match String.compare x y with Eq => true | _ => false end.
Proof.
  destruct (String.eqb x y) eqn:E.
  - apply String.eqb_eq in E. subst. now rewrite string_compare_refl.
  - destruct (String.compare x y) eqn:C; try reflexivity.
    apply String.compare_eq_iff in C. subst. now rewrite String.eqb_refl in E.
Qed.

Lemma keyGt_compare by_ a b :
  Sortable by_ a -> Sortable by_ b ->
  keyGt by_ a b = match keyCompare by_ a b with Gt => true | _ => false end.
Proof.
  destruct by_; simpl; intros Ha Hb; try apply string_gtb_compare.
  unfold Number.gtb. rewrite (ltb_numCompare _ _ Hb Ha).
  unfold numCompare. rewrite (lex3_antisym (floatKey (Prim2SF (quantity (base (HospitalAsset.data a)))))).
  now destruct (lex3 _ _).
Qed.

Lemma keyLt_compare by_ a b :
  Sortable by_ a -> Sortable by_ b ->
  keyLt by_ a b = match keyCompare by_ a b with Lt => true | _ => false end.
Proof.
  destruct by_; simpl; intros Ha Hb; try apply string_ltb_compare.
  now apply ltb_numCompare.
Qed.

Lemma sameKey_compare by_ a b :
  Sortable by_ a -> Sortable by_ b ->
  sameKey by_ a b = match keyCompare by_ a b with Eq => true | _ => false end.
Proof.
  destruct by_; simpl; intros Ha Hb; try apply string_eqb_compare.
  now apply eqb_numCompare.
Qed.

Lemma comparison_three by_ a b :
  Sortable by_ a -> Sortable by_ b ->
  Store.comparison by_ a b = three (keyCompare by_) a b.
Proof.
  intros Ha Hb.
  assert (E : Store.comparison by_ a b
              = if keyGt by_ a b then 1 else if keyLt by_ a b then -1 else 0)
    by (destruct by_; reflexivity).
  rewrite E, (keyGt_compare by_ a b Ha Hb), (keyLt_compare by_ a b Ha Hb).
  unfold three. now destruct (keyCompare by_ a b).
Qed.

Section Comparator.
Variables (by_ : SortBy) (dir : SortDirection).

Definition byKey (x y : loc * HospitalAsset.t) : Z := Store.comparator by_ dir x.2 y.2.
Definition comparable (x : loc * HospitalAsset.t) : Prop := Sortable by_ x.2.

Lemma comparator_three (a b : HospitalAsset.t) :
  Sortable by_ a -> Sortable by_ b ->
  Store.comparator by_ dir a b
  = match dir with
    | Asc => three (keyCompare by_) a b
    | Desc => - three (keyCompare by_) a b
    end.
Proof. intros Ha Hb. unfold Store.comparator. now rewrite comparison_three. Qed.

Lemma byKey_flip x y : comparable x -> comparable y -> byKey y x = - byKey x y.
Proof.
  intros Hx Hy. unfold byKey. rewrite !comparator_three by assumption.
  rewrite (three_flip _ (keyCompare_antisym by_)). destruct dir; lia.
Qed.

Lemma byKey_trans x y z :
  comparable x -> comparable y -> comparable z ->
  byKey x y <= 0 -> byKey y z <= 0 -> byKey x z <= 0.
Proof.
  intros Hx Hy Hz. unfold byKey. rewrite !comparator_three by assumption.
  pose proof (three_trans _ (keyCompare_antisym by_) (keyCompare_trans by_) (keyCompare_eq by_)) as T.
  pose proof (three_flip _ (keyCompare_antisym by_)) as F.
  destruct dir; [apply T|].
  intros H1 H2. specialize (T z.2 y.2 x.2).
  rewrite (F y.2 z.2), (F x.2 y.2), (F x.2 z.2) in T. lia.
Qed.

Lemma byKey_eq x y z :
  comparable x -> comparable y -> comparable z ->
  byKey x y = 0 -> byKey x z = 0 -> byKey y z = 0.
Proof.
  intros Hx Hy Hz. unfold byKey. rewrite !comparator_three by assumption.
  pose proof (three_eq _ (keyCompare_eq by_) x.2 y.2 z.2) as T.
  destruct dir; lia.
Qed.

Lemma byKey_inOrder x y :
  comparable x -> comparable y -> (byKey x y <= 0 <-> inOrder by_ dir x.2 y.2).
Proof.
  intros Hx Hy. unfold byKey, inOrder. rewrite comparator_three by assumption.
  rewrite (keyGt_compare _ _ _ Hx Hy), (keyLt_compare _ _ _ Hx Hy). unfold three.
  destruct dir, (keyCompare by_ x.2 y.2); split; intros; try lia; congruence.
Qed.

Lemma byKey_sameKey x y :
  comparable x -> comparable y -> (byKey x y =? 0) = sameKey by_ x.2 y.2.
Proof.
  intros Hx Hy. unfold byKey. rewrite comparator_three by assumption.
  rewrite (sameKey_compare _ _ _ Hx Hy). unfold three.
  destruct dir, (keyCompare by_ x.2 y.2); reflexivity.
Qed.

End Comparator.

(** ** What a derived view leaves alone *)

(** [w] differs from [w0] at most by arrays that did not exist in [w0]:
    the entities, every array of [w0], the repository and all the refs of
    the store are as they were. *)
Record Frame (w0 w : World) : Prop := {
  frame_objects : objects w = objects w0;
  frame_arrays : arrays w0 ⊆ arrays w;
  frame_storage : storage w = storage w0;
  frame_localStorage : localStorage w = localStorage w0;
  frame_assets : assets w = assets w0;
  frame_loading : loading w = loading w0;
  frame_error : error w = error w0;
  frame_searchQuery : searchQuery w = searchQuery w0;
  frame_selectedCategory : selectedCategory w = selectedCategory w0;
  frame_sortBy : sortBy w = sortBy w0;
  frame_sortDirection : sortDirection w = sortDirection w0;
  frame_activeFilter : activeFilter w = activeFilter w0
}.

Lemma Frame_refl (w : World) : Frame w w.
Proof. constructor; reflexivity. Qed.

(** Writing an array that [w0] does not have keeps the frame. *)
Lemma Frame_write (w0 w : World) (r : loc) (l : list loc) :
  Frame w0 w -> arrays w0 !! r = None -> Frame w0 (set_arrays (insert r l) w).
Proof.
  intros [] Hr. constructor; fields; try assumption.
  now apply insert_subseteq_r.
Qed.

Lemma Frame_fresh (w0 w : World) :
  Frame w0 w -> arrays w0 !! fresh (dom (arrays w)) = None.
Proof.
  intros F. apply (lookup_weaken_None _ (arrays w)); [|apply (frame_arrays _ _ F)].
  apply not_elem_of_dom. apply is_fresh.
Qed.

(** A computation keeps the frame of [w0], and its value satisfies [Q]. *)
Definition Framed {A : Type} (w0 : World) (m : M A) (Q : A -> Prop) : Prop :=
  forall w, Frame w0 w -> Frame w0 (m w).2 /\ forall a, (m w).1 = Done a -> Q a.

Lemma Framed_bind {A B : Type} (w0 : World) (m : M A) (k : A -> M B) Q R :
  Framed w0 m Q -> (forall a, Q a -> Framed w0 (k a) R) -> Framed w0 (bind m k) R.
Proof.
  intros Hm Hk w F. unfold bind. destruct (Hm w F) as [F' HQ].
  destruct (m w) as [[a| |] w']; cbn [fst snd] in *.
  - apply (Hk a (HQ a eq_refl) w' F').
  - split; [assumption|discriminate].
  - split; [assumption|discriminate].
Qed.

Lemma Framed_ret {A : Type} (w0 : World) (a : A) (Q : A -> Prop) :
  Q a -> Framed w0 (ret a) Q.
Proof. intros H w F. split; [exact F|]. cbn. intros ? [= <-]. exact H. Qed.

Lemma Framed_gets {A : Type} (w0 : World) (f : World -> A) :
  Framed w0 (gets f) (fun _ => True).
Proof. intros w F. split; [exact F|trivial]. Qed.

Lemma Framed_readArray (w0 : World) (a : loc) : Framed w0 (readArray a) (fun _ => True).
Proof. intros w F. unfold readArray. destruct (arrays w !! a); split; trivial. Qed.

Lemma Framed_derefAll (w0 : World) (l : list loc) : Framed w0 (derefAll l) (fun _ => True).
Proof. intros w F. unfold derefAll. destruct (mapM _ _); split; trivial. Qed.

Lemma Framed_newArray (w0 : World) (l : list loc) :
  Framed w0 (newArray l) (fun r => arrays w0 !! r = None).
Proof.
  intros w F. unfold newArray. cbn [fst snd]. split.
  - apply Frame_write; [exact F|]. now apply Frame_fresh.
  - intros a [= <-]. now apply Frame_fresh.
Qed.

Lemma Framed_filterArray (w0 : World) (p : HospitalAsset.t -> bool) (a : loc) :
  Framed w0 (filterArray p a) (fun r => arrays w0 !! r = None).
Proof.
  unfold filterArray.
  eapply Framed_bind; [apply Framed_readArray|]. intros l _.
  eapply Framed_bind; [apply Framed_derefAll|]. intros hs _.
  apply Framed_newArray.
Qed.

Lemma Framed_sortArray (w0 : World) by_ dir (r : loc) :
  arrays w0 !! r = None -> Framed w0 (Store.sortArray by_ dir r) (fun _ => True).
Proof.
  intros Hr. unfold Store.sortArray.
  eapply Framed_bind; [apply Framed_readArray|]. intros l _.
  eapply Framed_bind; [apply Framed_derefAll|]. intros hs _.
  intros w F. split; [|trivial]. cbn. now apply Frame_write.
Qed.

Lemma Framed_filteredAssets (w0 : World) :
  Framed w0 Store.filteredAssets (fun r => arrays w0 !! r = None).
Proof.
  unfold Store.filteredAssets.
  eapply Framed_bind; [apply Framed_gets|]. intros working _.
  eapply Framed_bind; [apply Framed_readArray|]. intros l _.
  eapply Framed_bind; [apply Framed_newArray|]. intros r0 H0.
  eapply Framed_bind; [apply Framed_gets|]. intros f _.
  eapply (Framed_bind _ _ _ (fun r => arrays w0 !! r = None)).
  { destruct f; [now apply Framed_ret | apply Framed_filterArray | apply Framed_filterArray]. }
  intros r1 H1.
  eapply Framed_bind; [apply Framed_gets|]. intros q _.
  eapply (Framed_bind _ _ _ (fun r => arrays w0 !! r = None)).
  { destruct (JsString.truthy q); [apply Framed_filterArray | now apply Framed_ret]. }
  intros r2 H2.
  eapply Framed_bind; [apply Framed_gets|]. intros c _.
  eapply (Framed_bind _ _ _ (fun r => arrays w0 !! r = None)).
  { destruct c as [c|]; [|now apply Framed_ret].
    destruct (JsString.truthy c); [apply Framed_filterArray | now apply Framed_ret]. }
  intros r3 H3.
  eapply Framed_bind; [apply Framed_gets|]. intros by_ _.
  eapply Framed_bind; [apply Framed_gets|]. intros dir _.
  eapply Framed_bind; [now apply Framed_sortArray|]. intros _ _.
  now apply Framed_ret.
Qed.

(** C10: reading [filteredAssets] leaves the state of the store as it was:
    the working set is the same array with the same elements in the same
    order, as is every other array that existed; the entities, the
    repository and every filter, sort and status setting are unchanged. If
    the view returns an array, it is one that did not exist before. *)
Theorem C10_filteredAssets_pure (w : World) :
  let w' := (Store.filteredAssets w).2 in
  assets w' = assets w
  /\ arrays w' !! assets w' = arrays w !! assets w
  /\ (forall a l, arrays w !! a = Some l -> arrays w' !! a = Some l)
  /\ objects w' = objects w
  /\ searchQuery w' = searchQuery w /\ selectedCategory w' = selectedCategory w
  /\ sortBy w' = sortBy w /\ sortDirection w' = sortDirection w
  /\ activeFilter w' = activeFilter w
  /\ loading w' = loading w /\ error w' = error w
  /\ storage w' = storage w /\ localStorage w' = localStorage w
  /\ (forall r, (Store.filteredAssets w).1 = Done r -> arrays w !! r = None).
Proof.
  cbv zeta. destruct (Framed_filteredAssets w w (Frame_refl w)) as [[] Hfresh].
  assert (Hsub : forall a l, arrays w !! a = Some l ->
                   arrays (Store.filteredAssets w).2 !! a = Some l).
  { intros a l Ha. eapply lookup_weaken; eassumption. }
  repeat split; try assumption.
  rewrite frame_assets0.
  destruct (arrays w !! assets w) as [l|] eqn:E; [now apply Hsub|].
  assert (Hw : Store.filteredAssets w = (Wrong, w)).
  { unfold Store.filteredAssets, bind, gets, readArray. now rewrite E. }
  rewrite Hw. exact E.
Qed.

(** ** The filtered view, stage by stage *)

(** The three filters in the words of the specification. *)
Definition passesActive (f : ActiveFilter) (h : HospitalAsset.t) : bool :=
  match f with
  | FilterAll => true
  | FilterCritical => HospitalAsset.isCritical h
  | FilterLowStock => HospitalAsset.isLowStock h
  end.

(** [sub] occurs in [s], letter case aside. *)
Definition containsIgnoringCase (s sub : string) : bool :=
  JsString.includes (JsString.toLowerCase s) (JsString.toLowerCase sub).

Definition passesSearch (q : string) (h : HospitalAsset.t) : bool :=
  let b := base (HospitalAsset.data h) in
  JsString.is_empty q
  || containsIgnoringCase (name b) q
  || containsIgnoringCase (serialNumber b) q
  || containsIgnoringCase (manufacturer b) q.

(** A category is selected when [selectedCategory] holds a non-empty
    string; [null] and the empty string select none. *)
Definition passesCategory (c : option string) (h : HospitalAsset.t) : bool :=
  match c with
  | Some c => JsString.is_empty c || String.eqb (category (base (HospitalAsset.data h))) c
  | None => true
  end.

Definition selected (w : World) (hs : list (loc * HospitalAsset.t)) : list (loc * HospitalAsset.t) :=
  List.filter (fun x => passesCategory (selectedCategory w) x.2)
    (List.filter (fun x => passesSearch (searchQuery w) x.2)
       (List.filter (fun x => passesActive (activeFilter w) x.2) hs)).

(** [includes] finds exactly the contiguous occurrences. *)
Lemma prefix_spec (sub s : string) :
  String.prefix sub s = true <-> exists b, s = sub +:+ b.
Proof.
  revert s. induction sub as [|c sub IH]; intros s.
  - split; [intros _; now exists s | intros _; now destruct s].
  - destruct s as [|c' s]; cbn [String.prefix String.append].
    + split; [discriminate | intros [b H]; discriminate].
    + destruct (ascii_dec c c') as [->|Hne].
      * rewrite IH. split; intros [b H]; exists b; [now rewrite H | now inversion H].
      * split; [discriminate|]. intros [b H]. inversion H. congruence.
Qed.

Lemma includes_spec (s sub : string) :
  JsString.includes s sub = true <-> exists a b, s = a +:+ sub +:+ b.
Proof.
  induction s as [|c s IH].
  - cbn [JsString.includes]. rewrite orb_false_r, prefix_spec. split.
    + intros [b H]. now exists "", b.
    + intros ([|c a] & b & H); [now exists b|discriminate].
  - cbn [JsString.includes]. rewrite orb_true_iff, prefix_spec, IH. split.
    + intros [[b H]|(a & b & H)]; [now exists "", b|exists (String c a), b; now rewrite H].
    + intros ([|c' a] & b & H); [left; now exists b|right].
      inversion H. now exists a, b.
Qed.

(** An array under construction: it holds the references of [hs], behind
    which the objects of [hs] are found; it did not exist in [w0], and the
    rest of the world is as in [w0]. *)
Record Stage (w0 w : World) (r : loc) (hs : list (loc * HospitalAsset.t)) : Prop := {
  stage_array : arrays w !! r = Some (List.map fst hs);
  stage_holds : Holds w hs;
  stage_frame : Frame w0 w;
  stage_fresh : arrays w0 !! r = None
}.

Lemma bind_done {A B : Type} (m : M A) (k : A -> M B) (w w' : World) (a : A) :
  m w = (Done a, w') -> bind m k w = k a w'.
Proof. intros H. unfold bind. now rewrite H. Qed.

Lemma Stage_filter (w0 w : World) (r : loc) hs (p : HospitalAsset.t -> bool) :
  Stage w0 w r hs ->
  exists r' w', filterArray p r w = (Done r', w')
                /\ Stage w0 w' r' (List.filter (fun x => p x.2) hs).
Proof.
  intros [Ha Hh F Hf]. eexists _, _. split; [exact (filterArray_run p w r hs Ha Hh)|].
  constructor.
  - cbn. apply lookup_insert_eq.
  - now apply Holds_filter.
  - apply Frame_write; [exact F|now apply Frame_fresh].
  - now apply Frame_fresh.
Qed.

Lemma filter_all {A : Type} (p : A -> bool) (l : list A) :
  (forall x, p x = true) -> List.filter p l = l.
Proof. intros H. induction l as [|x l IH]; simpl; [reflexivity|]. now rewrite H, IH. Qed.


Lemma Stage_sort (w0 w : World) (r : loc) hs by_ dir :
  Stage w0 w r hs ->
  exists w', Store.sortArray by_ dir r w = (Done tt, w')
             /\ Stage w0 w' r (Array.sort (byKey by_ dir) hs).
Proof.
  intros [Ha Hh F Hf]. unfold Store.sortArray.
  rewrite (bind_done _ _ w w (List.map fst hs)) by (unfold readArray; now rewrite Ha).
  rewrite (bind_done _ _ w w hs) by now apply derefAll_run.
  eexists. split; [reflexivity|]. constructor.
  - cbn. apply lookup_insert_eq.
  - unfold Holds in *. rewrite List.Forall_forall in *. intros x Hx. apply Hh.
    eapply Permutation_in; [apply sort_perm|exact Hx].
  - now apply Frame_write.
  - exact Hf.
Qed.

(** The run of [filteredAssets] on a world whose working set is [hs]. *)
Lemma filteredAssets_run (w : World) (hs : list (loc * HospitalAsset.t)) :
  arrays w !! assets w = Some (List.map fst hs) ->
  Holds w hs ->
  exists r w',
    Store.filteredAssets w = (Done r, w')
    /\ Stage w w' r (Array.sort (byKey (sortBy w) (sortDirection w)) (selected w hs)).
Proof.
  intros Ha Hh. unfold Store.filteredAssets, selected.
  rewrite (bind_done _ _ w w (assets w)) by reflexivity.
  rewrite (bind_done _ _ w w (List.map fst hs)) by (unfold readArray; now rewrite Ha).
  set (r0 := fresh (dom (arrays w))).
  set (w1 := set_arrays (insert r0 (List.map fst hs)) w).
  rewrite (bind_done _ _ w w1 r0) by reflexivity.
  assert (S0 : Stage w w1 r0 hs).
  { constructor.
    - cbn. apply lookup_insert_eq.
    - exact Hh.
    - apply Frame_write; [apply Frame_refl|]. apply Frame_fresh, Frame_refl.
    - apply Frame_fresh, Frame_refl. }
  clearbody w1 r0.
  rewrite (bind_done _ _ w1 w1 (activeFilter w)) by (unfold gets; now rewrite (frame_activeFilter _ _ (stage_frame _ _ _ _ S0))).
  (* the status filter *)
  assert (S1 : exists r1 w2,
             match activeFilter w with
             | FilterCritical => filterArray HospitalAsset.isCritical r0
             | FilterLowStock => filterArray HospitalAsset.isLowStock r0
             | FilterAll => ret r0
             end w1 = (Done r1, w2)
             /\ Stage w w2 r1 (List.filter (fun x => passesActive (activeFilter w) x.2) hs)).
  { destruct (activeFilter w).
    - exists r0, w1. split; [reflexivity|]. now rewrite filter_all.
    - apply Stage_filter, S0.
    - apply Stage_filter, S0. }
  destruct S1 as (r1 & w2 & E1 & S1). rewrite (bind_done _ _ _ _ _ E1). clear E1 S0.
  set (hs1 := List.filter _ hs) in *. clearbody hs1.
  rewrite (bind_done _ _ w2 w2 (searchQuery w)) by (unfold gets; now rewrite (frame_searchQuery _ _ (stage_frame _ _ _ _ S1))).
  (* the search *)
  assert (S2 : exists r2 w3,
             (if JsString.truthy (searchQuery w)
              then filterArray (Store.searchMatches (JsString.toLowerCase (searchQuery w))) r1
              else ret r1) w2 = (Done r2, w3)
             /\ Stage w w3 r2 (List.filter (fun x => passesSearch (searchQuery w) x.2) hs1)).
  { unfold passesSearch, JsString.truthy.
    destruct (JsString.is_empty (searchQuery w)); cbn [negb orb].
    - exists r1, w2. split; [reflexivity|]. now rewrite filter_all.
    - apply Stage_filter, S1. }
  destruct S2 as (r2 & w3 & E2 & S2). rewrite (bind_done _ _ _ _ _ E2). clear E2 S1.
  set (hs2 := List.filter _ hs1) in *. clearbody hs2.
  rewrite (bind_done _ _ w3 w3 (selectedCategory w)) by (unfold gets; now rewrite (frame_selectedCategory _ _ (stage_frame _ _ _ _ S2))).
  (* the category *)
  assert (S3 : exists r3 w4,
             match selectedCategory w with
             | Some c => if JsString.truthy c then filterArray (Store.categoryIs c) r2 else ret r2
             | None => ret r2
             end w3 = (Done r3, w4)
             /\ Stage w w4 r3 (List.filter (fun x => passesCategory (selectedCategory w) x.2) hs2)).
  { unfold passesCategory, JsString.truthy. destruct (selectedCategory w) as [c|].
    - destruct (JsString.is_empty c); cbn [negb orb].
      + exists r2, w3. split; [reflexivity|]. now rewrite filter_all.
      + apply Stage_filter, S2.
    - exists r2, w3. split; [reflexivity|]. now rewrite filter_all. }
  destruct S3 as (r3 & w4 & E3 & S3). rewrite (bind_done _ _ _ _ _ E3). clear E3 S2.
  set (hs3 := List.filter _ hs2) in *. clearbody hs3.
  rewrite (bind_done _ _ w4 w4 (sortBy w)) by (unfold gets; now rewrite (frame_sortBy _ _ (stage_frame _ _ _ _ S3))).
  rewrite (bind_done _ _ w4 w4 (sortDirection w)) by (unfold gets; now rewrite (frame_sortDirection _ _ (stage_frame _ _ _ _ S3))).
  destruct (Stage_sort w w4 r3 hs3 (sortBy w) (sortDirection w) S3) as (w5 & E5 & S5).
  rewrite (bind_done _ _ _ _ _ E5).
  exists r3, w5. split; [reflexivity|exact S5].
Qed.

Lemma StronglySorted_weaken {A : Type} (P : A -> Prop) (R R' : A -> A -> Prop) (l : list A) :
  (forall x y, P x -> P y -> R x y -> R' x y) ->
  List.Forall P l -> StronglySorted R l -> StronglySorted R' l.
Proof.
  intros HR HP HS. induction HS as [|x l HS IH Hx]; [constructor|].
  inversion HP as [|? ? Px Pl]; subst. constructor; [now apply IH|].
  rewrite List.Forall_forall in *. intros y Hy. apply HR; auto.
Qed.

Lemma Forall_filter_keep {A : Type} (P : A -> Prop) (p : A -> bool) (l : list A) :
  List.Forall P l -> List.Forall P (List.filter p l).
Proof.
  rewrite !List.Forall_forall. intros H x Hx. apply filter_In in Hx. now apply H.
Qed.

(** A working set of one asset, of category Diagnostic, while the selected
    category is the empty string. *)
Definition xray : HospitalAsset.t :=
  HospitalAsset.new "g"
    (mkPartialHospitalAssetData
       (mkPartialAssetData (Some "2") (Some "X-Ray Machine") (Some "Global") (Some "Diagnostic")
          (Some 5%float) (Some "DG-123456") (Some essential) None None (Some 1%float))
       None None None None None None)
    requiredFields.

Definition emptyCategoryWorld : World :=
  {| objects := <[0%nat := xray]> ∅;
     arrays := <[0%nat := [0%nat]]> ∅;
     storage := [];
     localStorage := None;
     assets := 0%nat;
     loading := false;
     error := None;
     searchQuery := "";
     selectedCategory := Some "";
     sortBy := ByName;
     sortDirection := Asc;
     activeFilter := FilterAll |}.

(** The selection as the claim words it: the category filter applies
    whenever [selectedCategory] is not [null]. *)
Definition selectedWheneverSet (w : World) (hs : list (loc * HospitalAsset.t))
  : list (loc * HospitalAsset.t) :=
  List.filter (fun x => match selectedCategory w with
                        | Some c => Store.categoryIs c x.2
                        | None => true
                        end)
    (List.filter (fun x => passesSearch (searchQuery w) x.2)
       (List.filter (fun x => passesActive (activeFilter w) x.2) hs)).

(** C6, as stated, fails: with the empty string as selected category the
    view returns the X-ray machine, whose category is Diagnostic, while an
    equality filter on the category would return nothing. *)
Lemma C6_empty_category_selects_all :
  ~ (forall (w : World) (hs : list (loc * HospitalAsset.t)),
       arrays w !! assets w = Some (List.map fst hs) -> Holds w hs ->
       forall r w', Store.filteredAssets w = (Done r, w') ->
       arrays w' !! r
       = Some (List.map fst (Array.sort (byKey (sortBy w) (sortDirection w))
                               (selectedWheneverSet w hs)))).
Proof.
  intros H.
  assert (Hh : Holds emptyCategoryWorld [(0%nat, xray)]) by (repeat constructor).
  destruct (Store.filteredAssets emptyCategoryWorld) as [[r| |] w'] eqn:E;
    vm_compute in E; try discriminate.
  specialize (H emptyCategoryWorld [(0%nat, xray)] eq_refl Hh).
  injection E as Hr Hw. subst r w'.
  specialize (H _ _ eq_refl). vm_compute in H. discriminate.
Qed.

(** C6, amended: [filteredAssets] is the working set filtered by the
    status predicate of [activeFilter], then, when [searchQuery] is not
    empty, by the case-insensitive search over name, serial number and
    manufacturer, then, when [selectedCategory] is a non-empty string, by
    equality of the category, and then put in order: the result is a
    permutation of that selection and, when every sort key can be
    compared (no quantity is [NaN] when sorting by quantity), it is in
    [sortDirection] order of the [sortBy] field, with assets of equal key
    in the relative order they had. *)
Theorem C6_filteredAssets (w : World) (hs : list (loc * HospitalAsset.t)) :
  arrays w !! assets w = Some (List.map fst hs) ->
  Holds w hs ->
  exists r w' out,
    Store.filteredAssets w = (Done r, w')
    /\ arrays w' !! r = Some (List.map fst out)
    /\ Permutation out (selected w hs)
    /\ (List.Forall (fun x => Sortable (sortBy w) x.2) hs ->
        StronglySorted (fun a b => inOrder (sortBy w) (sortDirection w) a.2 b.2) out
        /\ forall k, Sortable (sortBy w) k ->
             List.filter (fun x => sameKey (sortBy w) k x.2) out
             = List.filter (fun x => sameKey (sortBy w) k x.2) (selected w hs)).
Proof.
  intros Ha Hh. destruct (filteredAssets_run w hs Ha Hh) as (r & w' & E & S).
  set (cmp := byKey (sortBy w) (sortDirection w)) in *.
  exists r, w', (Array.sort cmp (selected w hs)).
  split; [exact E|]. split; [exact (stage_array _ _ _ _ S)|].
  split; [apply sort_perm|]. intros Hs.
  assert (Hsel : List.Forall (comparable (sortBy w)) (selected w hs)).
  { unfold selected. now repeat apply Forall_filter_keep. }
  pose proof (sort_all cmp (comparable (sortBy w)) (selected w hs) Hsel) as Hout.
  split.
  - apply (StronglySorted_weaken (comparable (sortBy w)) (fun a b => cmp a b <= 0)).
    + intros x y Hx Hy. now apply byKey_inOrder.
    + exact Hout.
    + apply (sort_sorted cmp (comparable (sortBy w))
               (byKey_flip (sortBy w) (sortDirection w))
               (byKey_trans (sortBy w) (sortDirection w))).
      exact Hsel.
  - intros k Hk.
    pose proof (sort_stable cmp (comparable (sortBy w))
                  (byKey_eq (sortBy w) (sortDirection w)) (0%nat, k) (selected w hs) Hk Hsel) as St.
    rewrite (filter_ext_in (fun x => sameKey (sortBy w) k x.2) (fun y => cmp (0%nat, k) y =? 0)).
    2:{ intros x Hx. symmetry. apply (byKey_sameKey _ _ (0%nat, k) x Hk).
        rewrite List.Forall_forall in Hout. now apply Hout. }
    rewrite St. apply filter_ext_in.
    intros x Hx. apply (byKey_sameKey _ _ (0%nat, k) x Hk).
    rewrite List.Forall_forall in Hsel. now apply Hsel.
Qed.

(** The working set of the store's sorting test. *)
Definition named (i n : string) (q : number) : HospitalAsset.t :=
  HospitalAsset.new "g"
    (mkPartialHospitalAssetData
       (mkPartialAssetData (Some i) (Some n) (Some "MedTech") (Some "Diagnostic")
          (Some q) (Some "ZE-123456") None None None None)
       None None None None None None)
    requiredFields.

Definition zebraAlpha : list (loc * HospitalAsset.t) :=
  [(0%nat, named "1" "Zebra Equipment" 10); (1%nat, named "2" "Alpha Equipment" 5)].

Definition sortWorld : World :=
  {| objects := list_to_map zebraAlpha;
     arrays := <[0%nat := [0%nat; 1%nat]]> ∅;
     storage := [];
     localStorage := None;
     assets := 0%nat;
     loading := false;
     error := None;
     searchQuery := "";
     selectedCategory := None;
     sortBy := ByName;
     sortDirection := Asc;
     activeFilter := FilterAll |}.

Lemma C6_filteredAssets_witness :
  exists r w' out,
    Store.filteredAssets sortWorld = (Done r, w')
    /\ arrays w' !! r = Some (List.map fst out)
    /\ Permutation out (selected sortWorld zebraAlpha)
    /\ StronglySorted (fun a b => inOrder ByName Asc a.2 b.2) out.
Proof.
  assert (Hh : Holds sortWorld zebraAlpha) by (repeat constructor).
  destruct (C6_filteredAssets sortWorld zebraAlpha eq_refl Hh) as (r & w' & out & E & A & P & S).
  exists r, w', out. split; [exact E|]. split; [exact A|]. split; [exact P|].
  apply S. repeat constructor.
Defined.

(** On that working set the view lists Alpha before Zebra, and the working
    set itself still lists Zebra before Alpha. *)
Example filteredAssets_sorts_a_copy :
  exists r w',
    Store.filteredAssets sortWorld = (Done r, w')
    /\ arrays w' !! r = Some [1%nat; 0%nat]
    /\ arrays w' !! assets w' = Some [0%nat; 1%nat].
Proof. eexists _, _. split; [vm_compute; reflexivity|]. split; reflexivity. Qed.

(** Had the view sorted [assets.value] itself, the working set would have
    been reordered. *)
Example sorting_in_place_reorders :
  exists w',
    Store.sortArray ByName Asc (assets sortWorld) sortWorld = (Done tt, w')
    /\ arrays w' !! assets w' = Some [1%nat; 0%nat].
Proof. eexists. split; [vm_compute; reflexivity|reflexivity]. Qed.

(** ** Dates: what [toISOString] writes, [Date.parse] reads back *)

Lemma digitChar_ok (d : Z) :
  0 <= d <= 9 ->
  JsString.is_digit (Date.digitChar d) = true
  /\ Z.of_N (JsString.code (Date.digitChar d) - 48) = d
  /\ Ascii.eqb (Date.digitChar d) "+" = false
  /\ Ascii.eqb (Date.digitChar d) "-" = false.
Proof.
  intros H.
  assert (C : d = 0 \/ d = 1 \/ d = 2 \/ d = 3 \/ d = 4 \/ d = 5 \/ d = 6 \/ d = 7 \/ d = 8 \/ d = 9)
    by lia.
  repeat destruct C as [->|C]; try subst d; vm_compute; auto.
Qed.

Lemma append_cons (c : ascii) (s r : string) : String c s +:+ r = String c (s +:+ r).
Proof. reflexivity. Qed.

Lemma append_nil (r : string) : "" +:+ r = r.
Proof. reflexivity. Qed.

Lemma takeDigits_pad (w : nat) (acc n : Z) (rest : string) :
  Date.takeDigits w acc (Date.pad w n +:+ rest)
  = Some (acc * 10 ^ Z.of_nat w + n mod 10 ^ Z.of_nat w, rest).
Proof.
  revert acc. induction w as [|w IH]; intros acc.
  - cbn. rewrite Z.mod_1_r. do 2 f_equal. lia.
  - cbn [Date.pad]. rewrite append_cons. cbn [Date.takeDigits].
    set (d := (n / 10 ^ Z.of_nat w) mod 10).
    assert (Hd : 0 <= d <= 9) by (unfold d; pose proof (Z.mod_pos_bound (n / 10 ^ Z.of_nat w) 10); lia).
    destruct (digitChar_ok d Hd) as (H1 & H2 & _). rewrite H1, H2, IH. do 2 f_equal.
    rewrite Nat2Z.inj_succ, Z.pow_succ_r by lia.
    rewrite (Z.mul_comm 10), Z.rem_mul_r by lia. fold d. ring.
Qed.

(** A field that fits its width is read back as it is. *)
Lemma takeDigits_field (w : nat) (n : Z) (rest : string) :
  0 <= n < 10 ^ Z.of_nat w ->
  Date.takeDigits w 0 (Date.pad w n +:+ rest) = Some (n, rest).
Proof. intros H. rewrite takeDigits_pad, Z.mod_small by exact H. do 2 f_equal. Qed.

Lemma takeYear_formatYear (y : Z) (rest : string) :
  - 1000000 < y < 1000000 ->
  Date.takeYear (Date.formatYear y +:+ rest) = Some (y, rest).
Proof.
  intros Hy. unfold Date.formatYear.
  destruct ((0 <=? y) && (y <=? 9999)) eqn:E.
  - apply andb_true_iff in E. destruct E as [E1 E2]. apply Z.leb_le in E1, E2.
    pose proof (takeDigits_field 4 y rest) as T.
    cbn [Date.pad] in *. rewrite append_cons in *. unfold Date.takeYear.
    destruct (digitChar_ok ((y / 10 ^ Z.of_nat 3) mod 10)) as (_ & _ & H3 & H4).
    { pose proof (Z.mod_pos_bound (y / 10 ^ Z.of_nat 3) 10). lia. }
    rewrite H3, H4. apply T. cbn. lia.
  - rewrite append_cons. unfold Date.takeYear.
    destruct (y <? 0) eqn:Hneg.
    + apply Z.ltb_lt in Hneg. cbn [Ascii.eqb Bool.eqb].
      rewrite (takeDigits_field 6 (Z.abs y) rest) by (cbn; lia).
      destruct (Z.abs y =? 0) eqn:Ez; [apply Z.eqb_eq in Ez; lia|].
      do 2 f_equal. lia.
    + apply Z.ltb_ge in Hneg. cbn [Ascii.eqb Bool.eqb].
      rewrite (takeDigits_field 6 (Z.abs y) rest) by (cbn; lia).
      do 2 f_equal. lia.
Qed.

(** The calendar: bounds that hold for each of the 146097 days of an era,
    checked day by day. *)
Fixpoint allFrom (n : nat) (start : Z) (p : Z -> bool) : bool :=
  match n with
  | O => true
  | S n' => if p start then allFrom n' (start + 1) p else false
  end.

Lemma allFrom_spec (n : nat) (start : Z) (p : Z -> bool) :
  allFrom n start p = true -> forall z, start <= z < start + Z.of_nat n -> p z = true.
Proof.
  revert start. induction n as [|n IH]; intros start H z Hz; [lia|].
  cbn [allFrom] in H. destruct (p start) eqn:E; [|discriminate].
  destruct (Z.eq_dec z start) as [->|Hne]; [exact E|].
  apply (IH (start + 1) H). lia.
Qed.

Definition eraDayOk (doe : Z) : bool :=
  let yoe := Date.yearOfEra doe in
  let doy := Date.dayOfYear doe in
  let mp := Date.monthFromMarch doy in
  let d := doy - Date.firstDayOfMonth mp + 1 in
  (0 <=? yoe) && (yoe <=? 399) && (0 <=? mp) && (mp <=? 11) && (1 <=? d) && (d <=? 31).

Lemma eraDays_checked : allFrom (Z.to_nat 146097) 0 eraDayOk = true.
Proof. vm_cast_no_check (eq_refl true). Qed.

Lemma eraDay_bounds (doe : Z) :
  0 <= doe < 146097 ->
  let yoe := Date.yearOfEra doe in
  let mp := Date.monthFromMarch (Date.dayOfYear doe) in
  let d := Date.dayOfYear doe - Date.firstDayOfMonth mp + 1 in
  0 <= yoe <= 399 /\ 0 <= mp <= 11 /\ 1 <= d <= 31.
Proof.
  intros H. pose proof (allFrom_spec _ _ _ eraDays_checked doe) as C.
  rewrite Z2Nat.id in C by lia.
  specialize (C ltac:(lia)). unfold eraDayOk in C.
  rewrite !andb_true_iff, !Z.leb_le in C. cbv zeta. lia.
Qed.

Lemma marchMonth_civilMonth (mp : Z) :
  0 <= mp <= 11 ->
  Date.marchMonth (Date.civilMonth mp) = mp /\ 1 <= Date.civilMonth mp <= 12.
Proof.
  intros H. unfold Date.marchMonth, Date.civilMonth.
  destruct (mp <? 10) eqn:E; [apply Z.ltb_lt in E|apply Z.ltb_ge in E].
  - destruct (2 <? mp + 3) eqn:E'; [|apply Z.ltb_ge in E']; lia.
  - destruct (2 <? mp - 9) eqn:E'; [apply Z.ltb_lt in E'|]; lia.
Qed.

(** Day number to civil date and back. *)
Lemma daysFromCivil_civilFromDays (z : Z) :
  let '(y, m, d) := Date.civilFromDays z in
  Date.daysFromCivil y m d = z
  /\ 1 <= m <= 12 /\ 1 <= d <= 31
  /\ (z + Date.eraShift) / Date.daysPerEra * 400 <= y
     <= (z + Date.eraShift) / Date.daysPerEra * 400 + 400.
Proof.
  unfold Date.civilFromDays.
  set (era := (z + Date.eraShift) / Date.daysPerEra).
  set (doe := (z + Date.eraShift) mod Date.daysPerEra).
  assert (Hdoe : 0 <= doe < 146097) by (apply Z.mod_pos_bound; reflexivity).
  destruct (eraDay_bounds doe Hdoe) as (Hy & Hmp & Hd).
  set (yoe := Date.yearOfEra doe) in *.
  set (doy := Date.dayOfYear doe) in *.
  set (mp := Date.monthFromMarch doy) in *.
  destruct (marchMonth_civilMonth mp Hmp) as [Hmm Hm].
  set (m := Date.civilMonth mp) in *.
  assert (Hz : z = era * 146097 + doe - 719468).
  { pose proof (Z.div_mod (z + Date.eraShift) Date.daysPerEra ltac:(discriminate)) as D.
    fold era doe in D. unfold Date.eraShift, Date.daysPerEra in D. lia. }
  assert (Hdoy : doy = doe - (365 * yoe + yoe / 4 - yoe / 100)) by reflexivity.
  split; [|split; [exact Hm|split; [exact Hd|destruct (m <=? 2); lia]]].
  unfold Date.daysFromCivil.
  assert (Hy' : (if m <=? 2 then (if m <=? 2 then yoe + era * 400 + 1 else yoe + era * 400) - 1
                 else (if m <=? 2 then yoe + era * 400 + 1 else yoe + era * 400))
                = yoe + era * 400) by (destruct (m <=? 2); lia).
  rewrite Hy', Hmm.
  rewrite Z.div_add, Z.mod_add by lia.
  rewrite (Z.div_small yoe 400), (Z.mod_small yoe 400) by lia.
  unfold Date.daysPerEra, Date.eraShift. lia.
Qed.

Lemma bind_some {A B : Type} (x : A) (f : A -> option B) : (Some x ≫= f) = f x.
Proof. reflexivity. Qed.

Lemma expect_literal (c : ascii) (rest : string) :
  Date.expect c (String c "" +:+ rest) = Some rest.
Proof. rewrite append_cons, append_nil. cbn [Date.expect]. now rewrite Ascii.eqb_refl. Qed.

Lemma append_nil' (s : string) : s +:+ "" = s.
Proof. induction s as [|c s IH]; [reflexivity|]. rewrite append_cons. now rewrite IH. Qed.

Ltac next := rewrite bind_some; cbv beta iota.

(** [Date.parse(d.toISOString())] is the time value of [d]. *)
Lemma parse_toISOString (t : Z) (s : string) :
  Date.toISOString (ValidDate t) = Some s -> Date.parse s = Some t.
Proof.
  unfold Date.toISOString. destruct (Date.in_range t) eqn:R; [|discriminate].
  pose proof (daysFromCivil_civilFromDays (t / Date.msPerDay)) as C.
  destruct (Date.civilFromDays (t / Date.msPerDay)) as [[y m] d].
  destruct C as (Hdays & Hm & Hd & Hy). intros [= <-].
  assert (Hrange : - 8640000000000000 <= t <= 8640000000000000).
  { unfold Date.in_range, Date.maxTime in R. apply andb_true_iff in R.
    rewrite !Z.leb_le in R. exact R. }
  set (days := t / Date.msPerDay) in *. set (r := t mod Date.msPerDay).
  assert (Hr : 0 <= r < 86400000) by (apply Z.mod_pos_bound; reflexivity).
  assert (Ht : t = days * 86400000 + r).
  { pose proof (Z.div_mod t Date.msPerDay ltac:(discriminate)) as D.
    fold days r in D. unfold Date.msPerDay in D. lia. }
  assert (Hyear : - 1000000 < y < 1000000).
  { unfold Date.eraShift, Date.daysPerEra in Hy.
    assert (Hdays' : - 100000000 <= days <= 100000000) by lia.
    assert (He : - 700 <= (days + 719468) / 146097 <= 700)
      by (split; [apply Z.div_le_lower_bound | apply Z.div_le_upper_bound]; lia).
    lia. }
  set (hh := r / 3600000). set (mi := r / 60000 mod 60).
  set (ss := r / 1000 mod 60). set (ms := r mod 1000).
  assert (Hfields : 0 <= hh <= 23 /\ 0 <= mi <= 59 /\ 0 <= ss <= 59 /\ 0 <= ms <= 999
                    /\ hh * 3600000 + mi * 60000 + ss * 1000 + ms = r).
  { unfold hh, mi, ss, ms. Z.to_euclidean_division_equations. lia. }
  destruct Hfields as (Hhh & Hmi & Hss & Hms & Hsum).
  unfold Date.parse.
  rewrite takeYear_formatYear by exact Hyear. next.
  rewrite expect_literal. next.
  rewrite (takeDigits_field 2 m) by (cbn; lia). next.
  rewrite expect_literal. next.
  rewrite (takeDigits_field 2 d) by (cbn; lia). next.
  rewrite expect_literal. next.
  rewrite (takeDigits_field 2 hh) by (cbn; lia). next.
  rewrite expect_literal. next.
  rewrite (takeDigits_field 2 mi) by (cbn; lia). next.
  rewrite expect_literal. next.
  rewrite (takeDigits_field 2 ss) by (cbn; lia). next.
  rewrite expect_literal. next.
  rewrite (takeDigits_field 3 ms) by (cbn; lia). next.
  rewrite <- (append_nil' "Z"), expect_literal. next.
  cbn [JsString.is_empty].
  repeat rewrite (proj2 (Z.leb_le _ _)) by lia. cbn [andb].
  rewrite Hdays.
  replace (days * Date.msPerDay + hh * 3600000 + mi * 60000 + ss * 1000 + ms) with t
    by (unfold Date.msPerDay; lia).
  now rewrite R.
Qed.

Lemma toISOString_truthy (d : Date) (s : string) :
  Date.toISOString d = Some s -> JsString.truthy s = true.
Proof.
  destruct d as [t|]; [|discriminate]. unfold Date.toISOString.
  destruct (Date.in_range t); [|discriminate].
  destruct (Date.civilFromDays _) as [[y m] d]. intros [= <-].
  unfold Date.formatYear. destruct (_ && _); cbn [Date.pad]; now rewrite append_cons.
Qed.

(** ** Serializing and constructing again *)

(** A date field and what stands in its place after the round trip: nothing
    for nothing, and for a date the string that parses to its instant. *)
Definition sameInstant (original rebuilt : option DateField) : Prop :=
  match original, rebuilt with
  | None, None => True
  | Some (FDate (ValidDate t)), Some (FIso s) => Date.parse s = Some t
  | _, _ => False
  end.

Lemma isoOf_ok (f : option DateField) (o : option string) :
  Asset.isoOf f = Ok o ->
  sameInstant f (FIso <$> o)
  /\ HospitalAsset.keep HospitalAsset.dateTruthy (FIso <$> o) = FIso <$> o.
Proof.
  destruct f as [[d|s]|]; cbn [Asset.isoOf]; try discriminate.
  - destruct (Date.toISOString d) as [s|] eqn:E; [|discriminate]. intros [= <-].
    cbn. rewrite (toISOString_truthy d s E). split; [|reflexivity].
    destruct d as [t|]; [|discriminate]. now apply parse_toISOString.
  - intros [= <-]. cbn. auto.
Qed.

Lemma str_or_same (x : string) : Asset.str_or (Some x) "" = x.
Proof. destruct x; reflexivity. Qed.

(** An asset built with a purchase price of 5 whose custom field was then
    set to 7, as [updateAsset] does for the key [custom_purchasePrice]. *)
Definition repriced : HospitalAsset.t :=
  HospitalAsset.setCustomField "purchasePrice" (VNum 7)
    (HospitalAsset.new "g-3"
       (mkPartialHospitalAssetData
          (mkPartialAssetData (Some "3") (Some "Monitor") (Some "MedTech") (Some "Diagnostic")
             (Some 4%float) (Some "MN-123456") None
             (Some (FDate (ValidDate 1704067200000))) None None)
          None (Some "Ward 3") (Some "Good") (Some 5%float) None None)
       requiredFields).

(** C8, as stated, fails: the custom field purchasePrice of [repriced] is 7,
    and after serialize() and the constructor it is 5, the value of the
    typed field. *)
Lemma C8_custom_price_overwritten :
  ~ (forall (h : HospitalAsset.t) (g : string) (r : HospitalAssetRecord),
       HospitalAsset.serialize h = Ok r ->
       HospitalAsset.customFields
         (HospitalAsset.new g (HospitalAsset.ofRecord r) (HospitalAsset.hospitalConfig h))
       = HospitalAsset.customFields h).
Proof.
  intros H.
  destruct (HospitalAsset.serialize repriced) as [r|m] eqn:E; [|vm_compute in E; discriminate].
  specialize (H repriced "g-4" r E).
  apply (f_equal (fun m => match m !! "purchasePrice" with
                           | Some (VNum x) => Prim2SF x
                           | _ => S754_nan
                           end)) in H.
  vm_compute in E. injection E as <-. vm_compute in H. discriminate.
Qed.

(** C8, amended: for every asset that serialize() accepts, the asset the
    constructor builds from the record has the same name, manufacturer,
    category, quantity, serial number, critical level and reorder point, and
    the same id when that is not empty; its location, condition and typed
    purchase price are the original's when those are absent or truthy (an
    empty string, a zero or a NaN is dropped); its custom fields are the
    original's, except that the entry purchasePrice is overwritten by the
    typed purchase price when that is kept; and each date field is absent
    where it was absent and otherwise holds the ISO string, which parses
    back to the original instant. *)
Theorem C8_round_trip (h : HospitalAsset.t) (g : string) (r : HospitalAssetRecord) :
  HospitalAsset.serialize h = Ok r ->
  let h' := HospitalAsset.new g (HospitalAsset.ofRecord r) (HospitalAsset.hospitalConfig h) in
  let d := HospitalAsset.data h in
  let d' := HospitalAsset.data h' in
  let price := HospitalAsset.keep Number.truthy (purchasePrice d) in
  (id (base d) <> "" -> id (base d') = id (base d))
  /\ name (base d') = name (base d)
  /\ manufacturer (base d') = manufacturer (base d)
  /\ category (base d') = category (base d)
  /\ quantity (base d') = quantity (base d)
  /\ serialNumber (base d') = serialNumber (base d)
  /\ criticalLevel (base d') = criticalLevel (base d)
  /\ reorderPoint (base d') = reorderPoint (base d)
  /\ location d' = HospitalAsset.keep JsString.truthy (location d)
  /\ condition d' = HospitalAsset.keep JsString.truthy (condition d)
  /\ purchasePrice d' = price
  /\ HospitalAsset.customFields h'
     = match price with
       | Some x => <["purchasePrice" := VNum x]> (HospitalAsset.customFields h)
       | None => HospitalAsset.customFields h
       end
  /\ sameInstant (lastMaintenance (base d)) (lastMaintenance (base d'))
  /\ sameInstant (expiryDate (base d)) (expiryDate (base d'))
  /\ sameInstant (warrantyExpiry d) (warrantyExpiry d')
  /\ sameInstant (lastCalibration d) (lastCalibration d').
Proof.
  unfold HospitalAsset.serialize, Asset.serialize. cbn [HospitalAsset.super Asset.data].
  destruct (Asset.isoOf (lastMaintenance _)) as [lm|] eqn:E1; [|discriminate].
  destruct (Asset.isoOf (expiryDate _)) as [ex|] eqn:E2; [|discriminate].
  destruct (Asset.isoOf (warrantyExpiry _)) as [we|] eqn:E3; [|discriminate].
  destruct (Asset.isoOf (lastCalibration _)) as [lc|] eqn:E4; [|discriminate].
  intros [= <-]. cbv zeta.
  destruct (isoOf_ok _ _ E1) as [S1 _]. destruct (isoOf_ok _ _ E2) as [S2 _].
  destruct (isoOf_ok _ _ E3) as [S3 K3]. destruct (isoOf_ok _ _ E4) as [S4 K4].
  unfold HospitalAsset.new, HospitalAsset.ofRecord, Asset.initialize.
  cbn [HospitalAsset.data HospitalAsset.customFields base id name manufacturer category
       quantity serialNumber criticalLevel reorderPoint lastMaintenance expiryDate
       location condition purchasePrice warrantyExpiry lastCalibration
       p_base p_customFields p_location p_condition p_purchasePrice p_warrantyExpiry
       p_lastCalibration p_id p_name p_manufacturer p_category p_quantity p_serialNumber
       p_criticalLevel p_lastMaintenance p_expiryDate p_reorderPoint
       r_base r_customFields r_location r_condition r_purchasePrice r_warrantyExpiry
       r_lastCalibration r_id r_name r_manufacturer r_category r_quantity r_serialNumber
       r_criticalLevel r_lastMaintenance r_expiryDate r_reorderPoint
       HospitalAsset.getAllCustomFields default].
  rewrite !str_or_same, K3, K4.
  repeat split; try assumption; try reflexivity.
  intros Hid. unfold Asset.str_or. apply truthy_nonempty in Hid. now rewrite Hid.
Qed.

Definition monitor : HospitalAsset.t :=
  HospitalAsset.new "g-5"
    (mkPartialHospitalAssetData
       (mkPartialAssetData (Some "5") (Some "Monitor") (Some "MedTech") (Some "Diagnostic")
          (Some 4%float) (Some "MN-123456") (Some essential)
          (Some (FDate (ValidDate 1704067200000))) None None)
       (Some {["department" := VStr "ICU"]}) (Some "Ward 3") (Some "Good") (Some 5%float)
       (Some (FDate (ValidDate 1735689600000))) None)
    requiredFields.

Lemma C8_round_trip_witness :
  exists r,
    HospitalAsset.serialize monitor = Ok r
    /\ r_lastMaintenance (r_base r) = Some "2024-01-01T00:00:00.000Z"
    /\ let h' := HospitalAsset.new "g-6" (HospitalAsset.ofRecord r) requiredFields in
       name (base (HospitalAsset.data h')) = "Monitor"
       /\ HospitalAsset.customFields h' = HospitalAsset.customFields monitor
       /\ sameInstant (Some (FDate (ValidDate 1704067200000)))
            (lastMaintenance (base (HospitalAsset.data h'))).
Proof.
  destruct (HospitalAsset.serialize monitor) as [r|m] eqn:E; [|vm_compute in E; discriminate].
  exists r. split; [reflexivity|].
  pose proof (C8_round_trip monitor "g-6" r E) as T. cbv zeta in T.
  destruct T as (_ & Hname & _ & _ & _ & _ & _ & _ & _ & _ & _ & Hcustom & Hlm & _).
  split; [vm_compute in E; injection E as <-; reflexivity|].
  cbv zeta. split; [exact Hname|]. split; [|exact Hlm].
  etransitivity; [exact Hcustom|]. vm_compute. reflexivity.
Defined.

(** ** The cases of the test suites, evaluated *)

Definition invalidEverywhere : Asset.t :=
  Asset.set (fun d => mkAssetData (id d) "  " (manufacturer d) (category d) 3.5 "INVALID"
                        routine None None (-1)) ventilator.

Example validate_ventilator : Asset.validate ventilator = (ventilator, true).
Proof. vm_compute. reflexivity. Qed.

Example validate_reports_each_field :
  Asset.getErrors (fst (Asset.validate invalidEverywhere))
  = [("name", ["Name is required"]);
     ("quantity", ["Quantity must be a whole number"]);
     ("serialNumber", ["Invalid serial number format (should be XX-000000)"]);
     ("reorderPoint", ["Reorder point cannot be negative"])].
Proof. vm_compute. reflexivity. Qed.

Example thirty_percent_of_ten : (10 * 0.3 =? 3)%float = true.
Proof. vm_compute. reflexivity. Qed.

Example critical_at_thirty_percent :
  Asset.isCritical
    (Asset.set (fun d => mkAssetData (id d) (name d) (manufacturer d) (category d) 3
                           (serialNumber d) routine None None 10) ventilator) = true.
Proof. vm_compute. reflexivity. Qed.

Example index_keys_come_first :
  Object.fromEntries [("name", 1); ("10", 2); ("2", 3); ("02", 4); ("4294967295", 5); ("0", 6)]
  = [("0", 6); ("2", 3); ("10", 2); ("name", 1); ("02", 4); ("4294967295", 5)].
Proof. vm_compute. reflexivity. Qed.

Example iso_new_year_2024 :
  Date.toISOString (ValidDate 1704067200000) = Some "2024-01-01T00:00:00.000Z".
Proof. vm_compute. reflexivity. Qed.

Example iso_before_the_epoch :
  Date.toISOString (ValidDate (-1)) = Some "1969-12-31T23:59:59.999Z".
Proof. vm_compute. reflexivity. Qed.

Example iso_latest_instant :
  Date.toISOString (ValidDate 8640000000000000) = Some "+275760-09-13T00:00:00.000Z".
Proof. vm_compute. reflexivity. Qed.

Example iso_earliest_instant :
  Date.toISOString (ValidDate (-8640000000000000)) = Some "-271821-04-20T00:00:00.000Z".
Proof. vm_compute. reflexivity. Qed.

Example iso_invalid_date_throws : Asset.isoOf (Some (FDate InvalidDate)) = Throw "Invalid time value".
Proof. reflexivity. Qed.

Example parse_leap_day : Date.parse "2024-02-29T12:34:56.789Z" = Some 1709210096789.
Proof. vm_compute. reflexivity. Qed.

(** An asset built from a serialized record cannot be serialized again: its
    date fields are strings. *)
Example rebuilt_asset_does_not_serialize :
  exists r,
    HospitalAsset.serialize monitor = Ok r
    /\ HospitalAsset.serialize (HospitalAsset.new "g-7" (HospitalAsset.ofRecord r) requiredFields)
       = Throw "toISOString is not a function".
Proof.
  destruct (HospitalAsset.serialize monitor) as [r|m] eqn:E; [|vm_compute in E; discriminate].
  exists r. split; [reflexivity|].
  vm_compute in E. injection E as <-. vm_compute. reflexivity.
Qed.

(** * Part V. Further properties of the code *)

(** ** Numbers that are not NaN *)

Lemma is_nan_false (x : number) : Prim2SF x <> S754_nan -> is_nan x = false.
Proof.
  intros H. unfold is_nan. rewrite FloatAxioms.eqb_spec. unfold SFeqb.
  rewrite (SFcompare_lex3 _ _ H H). unfold lex3. now rewrite !Z.compare_refl.
Qed.

Lemma ltb_true_not_nan (x y : number) :
  (x <? y)%float = true -> is_nan x = false /\ is_nan y = false.
Proof.
  rewrite ltb_spec. unfold SFltb. intros H.
  split; apply is_nan_false; intros E; rewrite E in H;
    [|destruct (Prim2SF x)]; discriminate.
Qed.

Lemma leb_true_not_nan (x y : number) :
  (x <=? y)%float = true -> is_nan x = false /\ is_nan y = false.
Proof.
  rewrite leb_spec. unfold SFleb. intros H.
  split; apply is_nan_false; intros E; rewrite E in H;
    [|destruct (Prim2SF x)]; discriminate.
Qed.

(** On numbers that are not NaN the order is total. *)
Lemma leb_of_not_ltb (x y : number) :
  is_nan x = false -> is_nan y = false -> (x <? y)%float = false -> (y <=? x)%float = true.
Proof.
  intros Hx Hy. rewrite ltb_spec, leb_spec. unfold SFltb, SFleb.
  rewrite (SFcompare_lex3 _ _ (not_nan x Hx) (not_nan y Hy)),
    (SFcompare_lex3 _ _ (not_nan y Hy) (not_nan x Hx)).
  rewrite (lex3_antisym (floatKey (Prim2SF x))).
  destruct (lex3 _ _); simpl; congruence.
Qed.

Lemma isInteger_not_nan (x : number) : Number.isInteger x = true -> is_nan x = false.
Proof.
  unfold Number.isInteger. intros H. apply is_nan_false. intros E. rewrite E in H. discriminate.
Qed.

(** The rounding of a product never makes a NaN. *)
Lemma shr_1_nonneg (mrs : shr_record) : 0 <= shr_m mrs -> 0 <= shr_m (shr_1 mrs).
Proof.
  destruct mrs as [m r s]. simpl. destruct m as [|[p|p|]|p]; simpl; lia.
Qed.

Lemma iter_shr_1_nonneg (p : positive) (mrs : shr_record) :
  0 <= shr_m mrs -> 0 <= shr_m (SpecFloat.iter_pos shr_1 p mrs).
Proof.
  revert mrs. induction p as [p IH|p IH|]; intros mrs H; simpl.
  - apply IH, IH. now apply shr_1_nonneg.
  - now apply IH, IH.
  - now apply shr_1_nonneg.
Qed.

Lemma shr_fexp_nonneg (m e : Z) (l : SpecFloat.location) :
  0 <= m -> 0 <= shr_m (shr_fexp prec emax m e l).1.
Proof.
  intros H. unfold shr_fexp, shr.
  assert (H0 : 0 <= shr_m (shr_record_of_loc m l)).
  { destruct l as [|[| |]]; exact H. }
  destruct (_ - e); simpl; auto. now apply iter_shr_1_nonneg.
Qed.

Lemma binary_round_aux_not_nan (s : bool) (m : positive) (e : Z) :
  binary_round_aux prec emax s (Z.pos m) e loc_Exact <> S754_nan.
Proof.
  unfold binary_round_aux.
  pose proof (shr_fexp_nonneg (Z.pos m) e loc_Exact ltac:(lia)) as H1.
  destruct (shr_fexp prec emax (Z.pos m) e loc_Exact) as [mrs' e'] eqn:E1. simpl in H1.
  assert (H2 : 0 <= round_nearest_even (shr_m mrs') (loc_of_shr_record mrs')).
  { unfold round_nearest_even. destruct (loc_of_shr_record mrs') as [|[| |]]; try lia.
    destruct (Z.even _); lia. }
  pose proof (shr_fexp_nonneg _ e' loc_Exact H2) as H3.
  destruct (shr_fexp prec emax _ e' loc_Exact) as [mrs'' e''] eqn:E2. simpl in H3.
  destruct (shr_m mrs''); [discriminate| |lia].
  destruct (_ <=? _); discriminate.
Qed.

Lemma mul_finite_not_nan (x y : number) (s : bool) (m : positive) (e : Z) :
  is_nan x = false -> Prim2SF y = S754_finite s m e -> is_nan (x * y) = false.
Proof.
  intros Hx Hy. apply is_nan_false. rewrite mul_spec, Hy. apply not_nan in Hx.
  unfold SF64mul, SFmul. destruct (Prim2SF x); try congruence; try discriminate.
  apply binary_round_aux_not_nan.
Qed.

(** ** What [validate] accepts *)

(** The data [Asset.validate] lets through: the documented ranges, except
    that a reorder point only has to be not below zero, which NaN is. *)
Record Accepted (d : AssetData) : Prop := {
  acc_name_present : JsString.trim (name d) <> "";
  acc_name_short : (String.length (name d) <= 100)%nat;
  acc_quantity_whole : Number.isInteger (quantity d) = true;
  acc_quantity_min : (0 <=? quantity d)%float = true;
  acc_quantity_max : (quantity d <=? 999999)%float = true;
  acc_serial : SerialShape (serialNumber d);
  acc_reorder : (0 <=? reorderPoint d)%float = true \/ is_nan (reorderPoint d) = true
}.

Lemma addError_not_nil (f m : string) (e : Model.Errors) : Model.addError f m e <> [].
Proof. pose proof (addError_length f m e) as [_ H]. destruct (Model.addError f m e); simpl in *; [lia|discriminate]. Qed.

Ltac no_error H := first [discriminate H | now apply addError_not_nil in H].

Lemma Accepted_validation (d : AssetData) : Asset.validation d = [] <-> Accepted d.
Proof.
  split.
  - unfold Asset.validation. intros H.
    unfold Asset.checkReorderPoint in H.
    destruct (reorderPoint d <? 0)%float eqn:Er; [no_error H|].
    unfold Asset.checkSerialNumber in H.
    destruct (JsString.truthy (serialNumber d)) eqn:Es1; simpl in H;
      [|no_error H].
    destruct (Asset.matchesSerial (serialNumber d)) eqn:Es2; simpl in H;
      [|no_error H].
    unfold Asset.checkQuantity, Number.gtb in H.
    destruct (quantity d <? 0)%float eqn:Eq0; [no_error H|].
    destruct (999999 <? quantity d)%float eqn:Eq1; [no_error H|].
    destruct (Number.isInteger (quantity d)) eqn:Eq2; simpl in H;
      [|no_error H].
    unfold Asset.checkName in H.
    destruct (JsString.truthy (JsString.trim (name d))) eqn:En1; simpl in H;
      [|no_error H].
    destruct (100 <? String.length (name d))%nat eqn:En2; [no_error H|].
    pose proof (isInteger_not_nan _ Eq2) as Hq.
    constructor.
    + now apply truthy_nonempty.
    + apply Nat.ltb_ge in En2. exact En2.
    + exact Eq2.
    + now apply leb_of_not_ltb.
    + now apply leb_of_not_ltb.
    + now apply matchesSerial_shape.
    + destruct (is_nan (reorderPoint d)) eqn:Hn; [now right|left].
      now apply leb_of_not_ltb.
  - intros [Hn Hl Hw Hq0 Hq1 Hs Hr]. unfold Asset.validation.
    assert (E1 : Asset.checkName d Model.clearErrors = []).
    { unfold Asset.checkName. apply truthy_nonempty in Hn. rewrite Hn. simpl.
      destruct (100 <? String.length (name d))%nat eqn:E; [|reflexivity].
      apply Nat.ltb_lt in E. lia. }
    rewrite E1.
    assert (E2 : Asset.checkQuantity d [] = []).
    { unfold Asset.checkQuantity, Number.gtb.
      rewrite (leb_not_ltb _ _ Hq0), (leb_not_ltb _ _ Hq1), Hw. reflexivity. }
    rewrite E2.
    assert (E3 : Asset.checkSerialNumber d [] = []).
    { unfold Asset.checkSerialNumber.
      pose proof (proj2 (matchesSerial_shape _) Hs) as Hm. rewrite Hm.
      destruct (serialNumber d); [discriminate|reflexivity]. }
    rewrite E3.
    unfold Asset.checkReorderPoint.
    destruct Hr as [Hr|Hr]; [now rewrite (leb_not_ltb _ _ Hr)|].
    destruct (reorderPoint d <? 0)%float eqn:E; [|reflexivity].
    apply ltb_true_not_nan in E. destruct E as [E _]. congruence.
Qed.

(** X1: [Asset.validate] answers true exactly for the data within the
    documented ranges, with one exception read off the code: the only test
    on the reorder point is [reorderPoint < 0], so a reorder point that is
    NaN is accepted too. *)
Theorem validate_accepts_exactly (a : Asset.t) :
  (Asset.validate a).2 = true <-> Accepted (Asset.data a).
Proof.
  rewrite <- Accepted_validation. unfold Asset.validate, Model.hasErrors. simpl.
  destruct (Asset.validation (Asset.data a)); simpl; split; congruence.
Qed.

Example nan_reorder_point_is_accepted :
  (Asset.validate
     (Asset.new "g" (mkPartialAssetData (Some "1") (Some "Ventilator") (Some "MedTech")
                       (Some "Respiratory") (Some 5%float) (Some "VT-123456") None None None
                       (Some nan)))).2 = true.
Proof. reflexivity. Qed.


(** ** What [HospitalAsset.validate] accepts *)

(** The value the loop over the configured fields looks at: the property of
    [data] of that name if there is one, else the custom field. *)
Definition fieldValue (k : string) (h : HospitalAsset.t) : value :=
  match HospitalAsset.lookup k (HospitalAsset.data h) with
  | Some v => v
  | None => HospitalAsset.getCustomField k h
  end.

Definition RequiredPresent (h : HospitalAsset.t) (f : FieldConfig) : Prop :=
  required f = Some true -> Value.is_blank (fieldValue (key f) h) = false.

Lemma checkRequired_nil (h : HospitalAsset.t) (f : FieldConfig) (e : Model.Errors) :
  HospitalAsset.checkRequired h e f = [] <-> e = [] /\ RequiredPresent h f.
Proof.
  unfold HospitalAsset.checkRequired, RequiredPresent, fieldValue.
  destruct (required f) as [[|]|].
  - destruct (Value.is_blank _) eqn:E.
    + split; [intros H; now apply addError_not_nil in H|].
      intros [_ H]. specialize (H eq_refl). discriminate.
    + intuition.
  - intuition discriminate.
  - intuition discriminate.
Qed.

Lemma fold_checkRequired_nil (h : HospitalAsset.t) (fs : list FieldConfig) (e : Model.Errors) :
  fold_left (HospitalAsset.checkRequired h) fs e = []
  <-> e = [] /\ Forall (RequiredPresent h) fs.
Proof.
  revert e. induction fs as [|f fs IH]; intros e; simpl.
  - intuition.
  - rewrite IH, checkRequired_nil. split.
    + intros [[He Hf] Hfs]. split; [assumption|]. now constructor.
    + intros [He Hall]. inversion Hall; subst. auto.
Qed.

(** X2: a hospital asset validates exactly when the inherited validation
    passes and every field the configuration marks as required has a value
    that is not undefined, null or the empty string. *)
Theorem hospital_validate_exactly (h : HospitalAsset.t) :
  (HospitalAsset.validate h).2 = true
  <-> (Asset.validate (HospitalAsset.super h)).2 = true
      /\ Forall (RequiredPresent h) (fields (HospitalAsset.hospitalConfig h)).
Proof.
  rewrite validate_recorded. cbn [snd]. unfold recorded.
  unfold Asset.validate. cbn [snd HospitalAsset.super Asset.data].
  rewrite !negb_true_iff. unfold Model.hasErrors.
  pose proof (fold_checkRequired_nil h (fields (HospitalAsset.hospitalConfig h))
                (Asset.validation (base (HospitalAsset.data h)))) as Hf.
  destruct (fold_left _ _ _) eqn:E1; destruct (Asset.validation _) eqn:E2; cbn [length];
    split; intros H; try discriminate; try (destruct H; discriminate).
  - split; [reflexivity|]. now apply Hf.
  - reflexivity.
  - exfalso. apply proj1 in Hf. destruct (Hf eq_refl). discriminate.
  - destruct H as [_ H]. exfalso. destruct Hf as [_ Hf]. discriminate Hf. split; [reflexivity|exact H].
Qed.

(** X3: validation starts from an empty errors map, so its outcome depends
    on nothing a previous validation left: validating again gives the same
    errors and the same answer, whatever errors the entity carried, and the
    data, the custom fields and the dirty mark are not touched. *)
Theorem validate_does_not_accumulate (h : HospitalAsset.t) (e : Model.Errors) :
  let h' := (HospitalAsset.validate h).1 in
  HospitalAsset.validate h' = (h', (HospitalAsset.validate h).2)
  /\ HospitalAsset.validate (HospitalAsset.with_errors e h) = HospitalAsset.validate h
  /\ HospitalAsset.data h' = HospitalAsset.data h
  /\ HospitalAsset.customFields h' = HospitalAsset.customFields h
  /\ HospitalAsset.isDirty h' = HospitalAsset.isDirty h.
Proof.
  cbv zeta. rewrite !validate_recorded. cbn [fst snd].
  repeat split; reflexivity.
Qed.

(** ** Stock below the reorder point *)

Lemma three_tenths_finite : Prim2SF 0.3 = S754_finite false 5404319552844595 (-54).
Proof. reflexivity. Qed.

(** Below the reorder point, the quantity is either above three tenths of
    it or at most three tenths of it: the product is not NaN. *)
Lemma above_or_within_three_tenths (q r : number) :
  (q <? r)%float = true ->
  (r * 0.3 <? q)%float = true \/ (q <=? r * 0.3)%float = true.
Proof.
  intros H. pose proof (ltb_true_not_nan _ _ H) as [Hq Hr].
  pose proof (mul_finite_not_nan _ _ _ _ _ Hr three_tenths_finite) as Hm.
  destruct (r * 0.3 <? q)%float eqn:E; [now left|right].
  now apply leb_of_not_ltb.
Qed.

(** X4: an asset whose quantity is below its reorder point is always
    flagged, as low in stock or as critical; and unless it is tagged
    critical it is flagged as exactly one of the two. *)
Theorem below_reorder_point_is_flagged (a : Asset.t) :
  (quantity (Asset.data a) <? reorderPoint (Asset.data a))%float = true ->
  Asset.isLowStock a || Asset.isCritical a = true
  /\ (criticalLevel (Asset.data a) <> critical ->
      Asset.isLowStock a = negb (Asset.isCritical a)).
Proof.
  intros H. unfold Asset.isLowStock, Asset.isCritical, Number.gtb. rewrite H. cbn [andb].
  destruct (above_or_within_three_tenths _ _ H) as [E|E].
  - rewrite E. split; [reflexivity|]. intros Hc. apply ltb_not_leb in E.
    destruct (criticalLevel (Asset.data a)); [congruence|now rewrite E..].
  - rewrite E, (leb_not_ltb _ _ E).
    split; [|intros Hc]; destruct (criticalLevel (Asset.data a)); reflexivity || congruence.
Qed.

Definition gloves : Asset.t :=
  Asset.new "g"
    (mkPartialAssetData (Some "7") (Some "Gloves") (Some "Medline") (Some "Consumables")
       (Some 2%float) (Some "GL-000007") (Some routine) None None (Some 10%float)).

Lemma below_reorder_point_is_flagged_witness :
  Asset.isLowStock gloves || Asset.isCritical gloves = true
  /\ (criticalLevel (Asset.data gloves) <> critical ->
      Asset.isLowStock gloves = negb (Asset.isCritical gloves)).
Proof. apply (below_reorder_point_is_flagged gloves). reflexivity. Defined.

(** ** When [serialize] throws *)

(** A date property can be written out when it is absent or holds a valid
    [Date]. *)
Definition serializable (f : option DateField) : bool :=
  match f with
  | None => true
  | Some (FDate (ValidDate t)) => Date.in_range t
  | Some (FDate InvalidDate) => false
  | Some (FIso _) => false
  end.

Lemma isoOf_serializable (f : option DateField) :
  (exists o, Asset.isoOf f = Ok o) <-> serializable f = true.
Proof.
  destruct f as [[[t|]|s]|]; cbn [serializable Asset.isoOf Date.toISOString].
  - destruct (Date.in_range t); [|split; [intros [o H]; discriminate|discriminate]].
    destruct (Date.civilFromDays (t / Date.msPerDay)) as [[y m] dd]. split; eauto.
  - split; [intros [o H]; discriminate|discriminate].
  - split; [intros [o H]; discriminate|discriminate].
  - split; eauto.
Qed.

(** X5: [serialize] returns a record exactly when each of the four date
    properties is absent or holds a valid [Date]; otherwise it throws, in
    particular for an entity rebuilt from a record, whose dates are strings.
    Errors and the dirty mark play no part. *)
Theorem serialize_succeeds_exactly (h : HospitalAsset.t) :
  (exists r, HospitalAsset.serialize h = Ok r)
  <-> serializable (lastMaintenance (base (HospitalAsset.data h)))
      && serializable (expiryDate (base (HospitalAsset.data h)))
      && serializable (warrantyExpiry (HospitalAsset.data h))
      && serializable (lastCalibration (HospitalAsset.data h)) = true.
Proof.
  rewrite !andb_true_iff, <- !isoOf_serializable.
  unfold HospitalAsset.serialize, Asset.serialize. cbn [HospitalAsset.super Asset.data].
  destruct (Asset.isoOf (lastMaintenance _)) as [a|?];
    [|split; [intros [r H]; discriminate|intros [[[[o H] _] _] _]; discriminate]].
  destruct (Asset.isoOf (expiryDate _)) as [b|?];
    [|split; [intros [r H]; discriminate|intros [[[_ [o H]] _] _]; discriminate]].
  destruct (Asset.isoOf (warrantyExpiry _)) as [c|?];
    [|split; [intros [r H]; discriminate|intros [[_ [o H]] _]; discriminate]].
  destruct (Asset.isoOf (lastCalibration _)) as [d|?];
    [|split; [intros [r H]; discriminate|intros [_ [o H]]; discriminate]].
  split; eauto 10.
Qed.

(** ** The map of the repository: keys and sizes *)

Lemma JsMap_has_In {V : Type} (k : string) (m : list (string * V)) :
  JsMap.has k m = true <-> In k (List.map fst m).
Proof.
  unfold JsMap.has. induction m as [|[k' v] m IH]; simpl.
  - split; [discriminate|tauto].
  - destruct (String.eqb k' k) eqn:E.
    + apply String.eqb_eq in E. split; auto.
    + rewrite IH. apply String.eqb_neq in E. split; [auto|intros [H|H]; [congruence|auto]].
Qed.

Lemma JsMap_has_get {V : Type} (k : string) (m : list (string * V)) :
  JsMap.has k m = false -> JsMap.get k m = None.
Proof. unfold JsMap.has. destruct (JsMap.get k m); [discriminate|reflexivity]. Qed.

Lemma JsMap_set_keys {V : Type} (k : string) (v : V) (m : list (string * V)) :
  List.map fst (JsMap.set k v m)
  = if JsMap.has k m then List.map fst m else List.map fst m ++ [k].
Proof.
  unfold JsMap.has. induction m as [|[k' v'] m IH]; simpl; [reflexivity|].
  destruct (String.eqb k' k) eqn:E; simpl.
  - apply String.eqb_eq in E. now subst.
  - rewrite IH. destruct (JsMap.get k m); reflexivity.
Qed.

Lemma JsMap_set_length {V : Type} (k : string) (v : V) (m : list (string * V)) :
  length (JsMap.set k v m) = if JsMap.has k m then length m else S (length m).
Proof.
  rewrite <- (length_map fst (JsMap.set k v m)), JsMap_set_keys.
  destruct (JsMap.has k m); rewrite ?length_app, !length_map; simpl; lia.
Qed.

Lemma JsMap_set_NoDup {V : Type} (k : string) (v : V) (m : list (string * V)) :
  List.NoDup (List.map fst m) -> List.NoDup (List.map fst (JsMap.set k v m)).
Proof.
  intros H. rewrite JsMap_set_keys. destruct (JsMap.has k m) eqn:E; [exact H|].
  assert (Hk : ~ In k (List.map fst m)).
  { intros Hin. apply JsMap_has_In in Hin. congruence. }
  clear E. induction (List.map fst m) as [|x l IH]; simpl.
  - constructor; [intros []|constructor].
  - inversion H; subst. constructor.
    + rewrite in_app_iff. simpl. intros [Hx|[Hx|[]]]; [auto|]. subst. apply Hk. now left.
    + apply IH; [assumption|]. intros Hin. apply Hk. now right.
Qed.

Lemma JsMap_delete_keys {V : Type} (k : string) (m : list (string * V)) :
  List.map fst (JsMap.delete k m)
  = List.filter (fun x => negb (String.eqb x k)) (List.map fst m).
Proof.
  unfold JsMap.delete. induction m as [|[k' v] m IH]; simpl; [reflexivity|].
  destruct (String.eqb k' k); simpl; now rewrite IH.
Qed.

Lemma JsMap_delete_NoDup {V : Type} (k : string) (m : list (string * V)) :
  List.NoDup (List.map fst m) -> List.NoDup (List.map fst (JsMap.delete k m)).
Proof. intros H. rewrite JsMap_delete_keys. now apply List.NoDup_filter. Qed.

Lemma JsMap_get_delete {V : Type} (k : string) (m : list (string * V)) :
  JsMap.get k (JsMap.delete k m) = None.
Proof.
  unfold JsMap.delete. induction m as [|[k' v] m IH]; simpl; [reflexivity|].
  destruct (String.eqb k' k) eqn:E; simpl; [exact IH|]. now rewrite E.
Qed.

Lemma JsMap_get_delete_other {V : Type} (k k0 : string) (m : list (string * V)) :
  k0 <> k -> JsMap.get k0 (JsMap.delete k m) = JsMap.get k0 m.
Proof.
  intros Hne. unfold JsMap.delete. induction m as [|[k' v] m IH]; simpl; [reflexivity|].
  destruct (String.eqb k' k) eqn:E; simpl.
  - apply String.eqb_eq in E. subst k'.
    destruct (String.eqb k k0) eqn:E'; [apply String.eqb_eq in E'; congruence|exact IH].
  - now rewrite IH.
Qed.

Lemma JsMap_delete_absent {V : Type} (k : string) (m : list (string * V)) :
  JsMap.has k m = false -> JsMap.delete k m = m.
Proof.
  unfold JsMap.has, JsMap.delete. induction m as [|[k' v] m IH]; simpl; [reflexivity|].
  destruct (String.eqb k' k); simpl; [discriminate|]. intros H. now rewrite IH.
Qed.

Lemma JsMap_delete_length {V : Type} (k : string) (m : list (string * V)) :
  List.NoDup (List.map fst m) -> JsMap.has k m = true ->
  S (length (JsMap.delete k m)) = length m.
Proof.
  induction m as [|[k' v] m IH]; simpl; intros Hd Hh; [discriminate|].
  inversion Hd; subst. unfold JsMap.has in Hh. simpl in Hh.
  unfold JsMap.delete. simpl. destruct (String.eqb k' k) eqn:E; simpl.
  - apply String.eqb_eq in E. subst k'.
    fold (JsMap.delete k m). rewrite JsMap_delete_absent; [reflexivity|].
    destruct (JsMap.has k m) eqn:Eh; [|reflexivity].
    apply JsMap_has_In in Eh. contradiction.
  - f_equal. apply IH; [assumption|]. exact Hh.
Qed.

(** ** Runs of the repository *)

Lemma save_run_invalid (w : World) (r : loc) (h : HospitalAsset.t) :
  objects w !! r = Some h ->
  (HospitalAsset.validate h).2 = false ->
  AssetRepository.save r w =
  (Raise ("Model validation failed: "
          +:+ Repository.firstError (HospitalAsset.getErrors (HospitalAsset.validate h).1)),
   set_objects (insert r (HospitalAsset.validate h).1) w).
Proof.
  intros H Hv. unfold AssetRepository.save. unfold bind at 1.
  rewrite (beforeSave_run _ _ _ H). now rewrite Hv.
Qed.

Lemma save_run_dangling (w : World) (r : loc) :
  objects w !! r = None -> AssetRepository.save r w = (Wrong, w).
Proof.
  intros H. unfold AssetRepository.save, Repository.beforeSave, bind, deref. now rewrite H.
Qed.

Lemma save_storage (w : World) (r : loc) :
  storage (AssetRepository.save r w).2 = storage w
  \/ exists i, storage (AssetRepository.save r w).2 = JsMap.set i r (storage w).
Proof.
  destruct (objects w !! r) as [h|] eqn:H.
  - destruct (HospitalAsset.validate h).2 eqn:Hv.
    + destruct (save_run_valid w r h H Hv) as [ls E]. rewrite E. right. eexists. reflexivity.
    + rewrite (save_run_invalid w r h H Hv). now left.
  - rewrite (save_run_dangling w r H). now left.
Qed.

Lemma delete_run_absent (w : World) (i : string) :
  JsMap.has i (storage w) = false -> AssetRepository.delete i w = (Done false, w).
Proof. intros H. unfold AssetRepository.delete, bind, gets. now rewrite H. Qed.

Lemma delete_run_present (w : World) (i : string) :
  JsMap.has i (storage w) = true ->
  exists ls, AssetRepository.delete i w
             = (Done true, set_localStorage ls (set_storage (JsMap.delete i) w)).
Proof.
  intros H. unfold AssetRepository.delete, bind, gets, modify, ret. rewrite H.
  destruct (saveToLocalStorage_run (set_storage (JsMap.delete i) w)) as [ls E].
  rewrite E. now exists ls.
Qed.

(** A small ward to run the operations on: an infusion pump and a
    defibrillator that validate, and a monitor whose serial number is
    malformed. *)
Definition wardConfig : HospitalConfig :=
  mkHospitalConfig "hospital-1" "St Thomas Hospital"
    [ mkFieldConfig "manufacturer" "Manufacturer" FText (Some true) (Some true) None None None;
      mkFieldConfig "ward" "Ward" FText (Some false) (Some true) None None None ]
    None.

Definition wardAsset (i n s : string) (q : number) (l : CriticalLevel) : HospitalAsset.t :=
  HospitalAsset.new "generated"
    (mkPartialHospitalAssetData
       (mkPartialAssetData (Some i) (Some n) (Some "MedTech") (Some "Equipment")
          (Some q) (Some s) (Some l) None None (Some 10%float))
       None None None (Some 100%float) None None)
    wardConfig.

Definition pump : HospitalAsset.t := wardAsset "a-1" "Infusion Pump" "IP-000001" 12 routine.
Definition defibrillator : HospitalAsset.t := wardAsset "a-2" "Defibrillator" "DF-000002" 2 critical.
Definition brokenMonitor : HospitalAsset.t := wardAsset "a-3" "Monitor" "bad" 4 routine.

(** The pump is stored and shown; the other two are only on the heap. *)
Definition ward : World :=
  {| objects := <[0%nat := pump]> (<[1%nat := defibrillator]> (<[2%nat := brokenMonitor]> ∅));
     arrays := <[0%nat := [0%nat]]> ∅;
     storage := [("a-1", 0%nat)];
     localStorage := None;
     assets := 0%nat;
     loading := false;
     error := None;
     searchQuery := "";
     selectedCategory := None;
     sortBy := ByName;
     sortDirection := Asc;
     activeFilter := FilterAll |}.

(** ** Saving, finding, counting *)

(** X6: after an entity was saved, [findById] with its id returns that very
    entity and [exists] answers true; [count] has grown by one if the id was
    new and is unchanged if it replaced an entry. *)
Theorem save_then_find (w : World) (r : loc) (h : HospitalAsset.t) :
  objects w !! r = Some h ->
  (HospitalAsset.validate h).2 = true ->
  let i := id (base (HospitalAsset.data h)) in
  exists w',
    AssetRepository.save r w = (Done tt, w')
    /\ AssetRepository.findById i w' = (Done (Some r), w')
    /\ AssetRepository.exists_ i w' = (Done true, w')
    /\ AssetRepository.count w'
       = (Done (if JsMap.has i (storage w) then length (storage w)
                else S (length (storage w))), w').
Proof.
  intros H Hv i. destruct (save_run_valid w r h H Hv) as [ls E].
  eexists. split; [exact E|].
  unfold AssetRepository.exists_, Repository.exists_, AssetRepository.findById,
    AssetRepository.count, bind, gets, ret.
  cbn [storage set_localStorage set_objects set_storage].
  fold i. rewrite JsMap_get_set, JsMap_set_length. repeat split; reflexivity.
Qed.

Lemma save_then_find_witness :
  exists w',
    AssetRepository.save 1%nat ward = (Done tt, w')
    /\ AssetRepository.findById "a-2" w' = (Done (Some 1%nat), w')
    /\ AssetRepository.exists_ "a-2" w' = (Done true, w')
    /\ AssetRepository.count w' = (Done 2%nat, w').
Proof. exact (save_then_find ward 1%nat defibrillator eq_refl eq_refl). Defined.

(** X7: the ids under which the repository holds entities stay distinct:
    neither [save] nor [delete] nor [bulkSave], whatever their outcome, can
    leave two entries with the same id. *)
Theorem stored_ids_stay_distinct (w : World) :
  List.NoDup (List.map fst (storage w)) ->
  (forall r, List.NoDup (List.map fst (storage (AssetRepository.save r w).2)))
  /\ (forall i, List.NoDup (List.map fst (storage (AssetRepository.delete i w).2)))
  /\ (forall models, List.NoDup (List.map fst (storage (AssetRepository.bulkSave models w).2))).
Proof.
  intros H.
  assert (Hsave : forall w r, List.NoDup (List.map fst (storage w)) ->
                    List.NoDup (List.map fst (storage (AssetRepository.save r w).2))).
  { intros w0 r H0. destruct (save_storage w0 r) as [E|[i E]]; rewrite E;
      [assumption|now apply JsMap_set_NoDup]. }
  split; [|split].
  - intros r. now apply Hsave.
  - intros i. destruct (JsMap.has i (storage w)) eqn:E.
    + destruct (delete_run_present w i E) as [ls E']. rewrite E'.
      cbn [snd storage set_localStorage set_storage]. now apply JsMap_delete_NoDup.
    + now rewrite (delete_run_absent w i E).
  - intros models. revert w H. induction models as [|m models IH]; intros w H; [exact H|].
    cbn [AssetRepository.bulkSave]. unfold bind.
    pose proof (Hsave w m H) as Hm.
    destruct (AssetRepository.save m w) as [[[]| |] w1]; cbn [snd] in *; auto.
Qed.

Lemma stored_ids_stay_distinct_witness :
  List.NoDup (List.map fst (storage (AssetRepository.save 1%nat ward).2)).
Proof.
  apply (stored_ids_stay_distinct ward).
  repeat constructor. simpl. tauto.
Defined.

(** X8: [delete] with an id that is not stored answers false and changes
    nothing at all; with a stored id it answers true, that id is no longer
    found, every other id keeps its entry, no object is touched, and the
    count drops by exactly one. *)
Theorem delete_removes_one_id (w : World) (i : string) :
  (JsMap.has i (storage w) = false -> AssetRepository.delete i w = (Done false, w))
  /\ (JsMap.has i (storage w) = true ->
      exists w',
        AssetRepository.delete i w = (Done true, w')
        /\ AssetRepository.findById i w' = (Done None, w')
        /\ (forall k, k <> i -> JsMap.get k (storage w') = JsMap.get k (storage w))
        /\ objects w' = objects w /\ arrays w' = arrays w
        /\ (List.NoDup (List.map fst (storage w)) ->
            S (length (storage w')) = length (storage w))).
Proof.
  split; [apply delete_run_absent|].
  intros H. destruct (delete_run_present w i H) as [ls E].
  eexists. split; [exact E|].
  unfold AssetRepository.findById, bind, gets, ret.
  cbn [storage objects arrays set_localStorage set_storage].
  rewrite JsMap_get_delete. repeat split; try reflexivity.
  - intros k Hk. now apply JsMap_get_delete_other.
  - intros Hd. now apply JsMap_delete_length.
Qed.

(** X9: [deleteAll] returns what [count] reported before it; afterwards
    [count] is zero, no id is found, and the snapshot in [localStorage] is
    gone. Neither the entities nor the working set of the store are
    touched, so that the store still shows the assets, and [deleteAsset]
    now fails for each of them and leaves them shown. *)
Theorem deleteAll_empties (w : World) (i : string) :
  exists n w',
    AssetRepository.count w = (Done n, w)
    /\ AssetRepository.deleteAll w = (Done n, w')
    /\ AssetRepository.count w' = (Done 0%nat, w')
    /\ AssetRepository.findById i w' = (Done None, w')
    /\ localStorage w' = None
    /\ objects w' = objects w /\ arrays w' = arrays w /\ assets w' = assets w
    /\ exists w'',
         Store.deleteAsset i w' = (Done tt, w'')
         /\ error w'' = Some "Failed to delete asset"
         /\ arrays w'' = arrays w /\ assets w'' = assets w.
Proof.
  eexists _, _. split; [reflexivity|]. split; [reflexivity|].
  do 6 (split; [reflexivity|]).
  unfold Store.deleteAsset, bind, modify, try_finally, try_catch.
  rewrite delete_run_absent by reflexivity. cbn [negb].
  eexists. split; [reflexivity|]. repeat split; reflexivity.
Qed.

(** ** Saving several entities *)




















(** ** The queries of the repository *)

(** [hs] lists the stored entities, in the order of the map, each with the
    object behind it. *)
Definition Stored (w : World) (hs : list (loc * HospitalAsset.t)) : Prop :=
  List.map fst hs = List.map snd (storage w) /\ Holds w hs.

(** [findAll] followed by [filter]: two new arrays, the second with the
    stored entities that pass, in the order of the map. *)
Lemma query_run (p : HospitalAsset.t -> bool) (w : World) (hs : list (loc * HospitalAsset.t)) :
  Stored w hs ->
  exists a w',
    (all <- AssetRepository.findAll ;; filterArray p all) w = (Done a, w')
    /\ arrays w' !! a = Some (List.map fst (List.filter (fun x => p x.2) hs))
    /\ arrays w !! a = None
    /\ objects w' = objects w /\ storage w' = storage w
    /\ localStorage w' = localStorage w /\ assets w' = assets w.
Proof.
  intros [Hs Hh]. unfold bind at 1.
  unfold AssetRepository.findAll, bind, gets, newArray.
  set (a := fresh (dom (arrays w))).
  set (w1 := set_arrays (insert a (List.map snd (storage w))) w).
  rewrite (filterArray_run p w1 a hs).
  - eexists _, _. split; [reflexivity|]. cbn [arrays objects storage localStorage assets set_arrays].
    split; [apply lookup_insert_eq|]. split; [|repeat split; reflexivity].
    pose proof (is_fresh (dom (arrays w1))) as Hf. apply not_elem_of_dom in Hf.
    unfold w1 in Hf. cbn [arrays set_arrays] in Hf.
    apply lookup_insert_None in Hf. exact (proj1 Hf).
  - unfold w1. cbn [arrays set_arrays]. rewrite lookup_insert_eq. now rewrite Hs.
  - exact Hh.
Qed.

Lemma lower_char_idempotent (c : ascii) :
  JsString.lower_char (JsString.lower_char c) = JsString.lower_char c.
Proof. destruct c as [[] [] [] [] [] [] [] []]; reflexivity. Qed.

Lemma toLowerCase_idempotent (s : string) :
  JsString.toLowerCase (JsString.toLowerCase s) = JsString.toLowerCase s.
Proof.
  induction s as [|c s IH]; simpl; [reflexivity|]. now rewrite lower_char_idempotent, IH.
Qed.

Lemma includes_empty (s : string) : JsString.includes s "" = true.
Proof. destruct s; reflexivity. Qed.

(** X11: [search] returns, in the order of the map, exactly the stored
    entities whose name, manufacturer, serial number or category contains
    the query, letter case aside; the letter case of the query makes no
    difference, and the empty query returns every stored entity. Nothing but
    the new arrays is written. *)
Theorem search_finds_by_any_field (w : World) (hs : list (loc * HospitalAsset.t)) (query : string) :
  Stored w hs ->
  exists a w',
    AssetRepository.search query w = (Done a, w')
    /\ arrays w' !! a
       = Some (List.map fst
                 (List.filter
                    (fun x =>
                       let b := base (HospitalAsset.data x.2) in
                       containsIgnoringCase (name b) query
                       || containsIgnoringCase (manufacturer b) query
                       || containsIgnoringCase (serialNumber b) query
                       || containsIgnoringCase (category b) query) hs))
    /\ AssetRepository.search (JsString.toLowerCase query) w = (Done a, w')
    /\ (query = "" -> arrays w' !! a = Some (List.map snd (storage w)))
    /\ arrays w !! a = None
    /\ objects w' = objects w /\ storage w' = storage w.
Proof.
  intros Hs. unfold AssetRepository.search. rewrite toLowerCase_idempotent.
  destruct (query_run (AssetRepository.searchMatches (JsString.toLowerCase query)) w hs Hs)
    as (a & w' & E & Ha & Hf & Ho & Hst & _).
  exists a, w'. split; [exact E|]. split; [exact Ha|]. split; [exact E|].
  split; [|auto]. intros ->. rewrite Ha. destruct Hs as [<- _]. f_equal. f_equal.
  apply filter_all. intros x. unfold AssetRepository.searchMatches.
  cbn [JsString.toLowerCase]. now rewrite includes_empty.
Qed.

Lemma ward_stored : Stored ward [(0%nat, pump)].
Proof. split; [reflexivity|]. repeat constructor. Qed.

Lemma search_finds_by_any_field_witness :
  exists a w',
    AssetRepository.search "EQUIP" ward = (Done a, w')
    /\ arrays w' !! a = Some [0%nat]
    /\ AssetRepository.search "equip" ward = (Done a, w').
Proof.
  destruct (search_finds_by_any_field ward [(0%nat, pump)] "EQUIP" ward_stored)
    as (a & w' & E & Ha & El & _).
  exists a, w'. split; [exact E|]. split; [exact Ha|exact El].
Defined.

(** X12: the search box of the store is narrower than the search of the
    repository: whatever the test in [filteredAssets] keeps, the test in
    [search] keeps too, for the same query; an asset that matches by its
    category only is kept by the second and not by the first. *)
Theorem store_search_is_narrower :
  (forall q h, Store.searchMatches q h = true -> AssetRepository.searchMatches q h = true)
  /\ Store.searchMatches "equip" pump = false
  /\ AssetRepository.searchMatches "equip" pump = true.
Proof.
  split; [|split; reflexivity].
  intros q h. unfold Store.searchMatches, AssetRepository.searchMatches.
  rewrite !orb_true_iff. tauto.
Qed.

(** ** Several ids at once *)

Definition found (w : World) (ids : list string) : list loc :=
  omap (fun i => JsMap.get i (storage w)) ids.

Lemma collect_run (ids : list string) :
  forall (w : World) (a : loc) (l : list loc),
  arrays w !! a = Some l ->
  Repository.collect AssetRepository.findById ids a w
  = (Done tt, set_arrays (insert a (l ++ found w ids)) w).
Proof.
  induction ids as [|i ids IH]; intros w a l Ha.
  - cbn [Repository.collect found omap list_omap]. unfold ret. f_equal.
    same_world. rewrite app_nil_r. symmetry. now apply insert_id.
  - cbn [Repository.collect]. unfold bind at 1.
    unfold AssetRepository.findById at 1. unfold bind at 1, gets at 1, ret at 1.
    unfold found. cbn [omap list_omap]. fold (found w ids).
    destruct (JsMap.get i (storage w)) as [m|].
    + unfold bind at 1. unfold bind at 1. unfold readArray at 1. rewrite Ha.
      unfold writeArray, modify.
      rewrite (IH _ a (l ++ [m])) by (cbn [arrays set_arrays]; apply lookup_insert_eq).
      f_equal. same_world. unfold found. cbn [storage set_arrays].
      rewrite insert_insert_eq. now rewrite <- app_assoc.
    + unfold bind at 1, ret at 1. now apply IH.
Qed.

(** X13: [findByIds] returns a new array with the entities stored under
    the given ids, in the order the ids were given; an id that is not stored
    is skipped, an id given twice yields its entity twice. *)
Theorem findByIds_in_the_order_asked (w : World) (ids : list string) :
  exists a w',
    AssetRepository.findByIds ids w = (Done a, w')
    /\ arrays w' !! a = Some (found w ids)
    /\ arrays w !! a = None
    /\ Forall (fun r => exists i, In i ids /\ JsMap.get i (storage w) = Some r) (found w ids)
    /\ storage w' = storage w /\ objects w' = objects w.
Proof.
  unfold AssetRepository.findByIds, Repository.findByIds.
  unfold bind at 1. unfold newArray.
  set (a := fresh (dom (arrays w))).
  unfold bind at 1.
  rewrite (collect_run ids _ a []) by (cbn [arrays set_arrays]; apply lookup_insert_eq).
  eexists _, _. split; [reflexivity|]. cbn [arrays storage objects set_arrays].
  split; [apply lookup_insert_eq|].
  split; [apply not_elem_of_dom, is_fresh|].
  split; [|split; reflexivity].
  apply List.Forall_forall. intros r Hr. unfold found in Hr.
  apply list_elem_of_In, list_elem_of_omap in Hr. destruct Hr as (i & Hi & E).
  exists i. split; [now apply list_elem_of_In|exact E].
Qed.

(** ** Shortfalls are always reported *)



(** ** The two totals *)

(** X15: the total value the repository computes and the total value the
    store computes agree whenever the working set lists the stored entities
    in the order of the map. *)
Theorem repository_total_is_store_total
    (S : string -> number) (w : World) (hs : list (loc * HospitalAsset.t)) :
  Stored w hs ->
  arrays w !! assets w = Some (List.map snd (storage w)) ->
  exists v w',
    AssetRepository.getTotalValue (Store.ToNumber S) w = (Done v, w')
    /\ Store.totalValue S w = (Done v, w).
Proof.
  intros [Hs Hh] Ha.
  unfold AssetRepository.getTotalValue, Store.totalValue.
  unfold AssetRepository.findAll, bind, gets, newArray, readArray.
  cbn [arrays set_arrays]. rewrite lookup_insert_eq, Ha, <- Hs.
  rewrite (derefAll_run _ hs) by exact Hh.
  rewrite (derefAll_run w hs) by exact Hh.
  eexists _, _. split; reflexivity.
Qed.

Lemma repository_total_is_store_total_witness :
  exists v w',
    AssetRepository.getTotalValue (Store.ToNumber (fun _ => nan)) ward = (Done v, w')
    /\ Store.totalValue (fun _ => nan) ward = (Done v, ward).
Proof.
  exact (repository_total_is_store_total (fun _ => nan) ward [(0%nat, pump)] ward_stored eq_refl).
Defined.

(** ** What reaches [localStorage] *)



(** The entries of the map with the objects behind them. *)
Definition entriesOf (w : World) : option (list (string * HospitalAsset.t)) :=
  mapM (fun e : string * loc => (fun h => (e.1, h)) <$> objects w !! e.2) (storage w).






Lemma save_run_valid_then_persist (w : World) (r : loc) (h : HospitalAsset.t) :
  objects w !! r = Some h ->
  (HospitalAsset.validate h).2 = true ->
  AssetRepository.save r w =
  AssetRepository.saveToLocalStorage
    (set_objects (fun _ => <[r := HospitalAsset.markAsClean (HospitalAsset.validate h).1]> (objects w))
       (set_storage (JsMap.set (id (base (HospitalAsset.data h))) r) w)).
Proof.
  intros H Hv. unfold AssetRepository.save.
  unfold bind at 1. rewrite (beforeSave_run _ _ _ H), Hv.
  rewrite validate_recorded. simpl.
  unfold bind at 1. unfold deref at 1. simpl. rewrite lookup_insert_eq. simpl.
  unfold bind at 1. unfold modify at 1.
  unfold bind at 1. unfold Repository.afterSave, bind, deref, assign, modify. simpl.
  rewrite lookup_insert_eq. simpl.
  f_equal. same_world. now rewrite insert_insert_eq.
Qed.





(** ** The categories the store offers *)








(** ** Clearing the filters *)



(** ** Removing an asset through the store *)

Ltac fields_all :=
  cbn [objects arrays storage localStorage assets loading error searchQuery
       selectedCategory sortBy sortDirection activeFilter
       set_objects set_arrays set_storage set_localStorage set_assets set_loading set_error
       set_searchQuery set_selectedCategory set_activeFilter].

(** The position of the first object that satisfies [p], counted from [n]. *)
Fixpoint firstIndex (p : HospitalAsset.t -> bool) (hs : list (loc * HospitalAsset.t)) (n : nat)
  : option nat :=
  match hs with
  | [] => None
  | x :: rest => if p x.2 then Some n else firstIndex p rest (S n)
  end.

Lemma findIndex_run (p : HospitalAsset.t -> bool) (w : World) (hs : list (loc * HospitalAsset.t)) :
  Holds w hs -> forall n, findIndex p (List.map fst hs) n w = (Done (firstIndex p hs n), w).
Proof.
  induction 1 as [|[r h] hs Hx _ IH]; intros n; [reflexivity|].
  cbn [List.map fst findIndex firstIndex snd]. unfold bind, deref. cbn in Hx. rewrite Hx.
  destruct (p h); [reflexivity|apply IH].
Qed.

(** X19: [deleteAsset] with an id the repository does not hold reports
    'Failed to delete asset' and leaves the working set as it is, even if an
    asset with that id is shown there; with an id the repository holds it
    removes the entry from the repository and, from the working set, the
    first asset with that id and no other. *)
Theorem deleteAsset_removes_first_match (w : World) (i : string) (hs : list (loc * HospitalAsset.t)) :
  arrays w !! assets w = Some (List.map fst hs) ->
  Holds w hs ->
  (JsMap.has i (storage w) = false ->
   exists w',
     Store.deleteAsset i w = (Done tt, w')
     /\ error w' = Some "Failed to delete asset" /\ loading w' = false
     /\ arrays w' = arrays w /\ assets w' = assets w /\ objects w' = objects w
     /\ storage w' = storage w /\ localStorage w' = localStorage w)
  /\ (JsMap.has i (storage w) = true ->
      exists w',
        Store.deleteAsset i w = (Done tt, w')
        /\ error w' = None /\ loading w' = false
        /\ storage w' = JsMap.delete i (storage w)
        /\ objects w' = objects w /\ assets w' = assets w
        /\ arrays w' !! assets w'
           = Some (match firstIndex (Store.idIs i) hs 0 with
                   | Some n => delete n (List.map fst hs)
                   | None => List.map fst hs
                   end)).
Proof.
  intros Ha Hh. split; intros Hhas.
  - unfold Store.deleteAsset, bind, modify, try_finally, try_catch.
    rewrite delete_run_absent by exact Hhas. cbn [negb].
    eexists. split; [reflexivity|]. fields_all. repeat split; reflexivity.
  - unfold Store.deleteAsset, bind, modify, try_finally, try_catch.
    destruct (delete_run_present (set_error None (set_loading true w)) i Hhas) as [ls E].
    rewrite E. cbn [negb]. unfold gets, readArray. fields_all. rewrite Ha.
    rewrite findIndex_run by exact Hh.
    destruct (firstIndex (Store.idIs i) hs 0) as [n|]; unfold writeArray, modify, ret;
      (eexists; split; [reflexivity|]); fields_all;
      repeat split; try reflexivity; [apply lookup_insert_eq|exact Ha].
Qed.

Definition wardTwice : World := set_arrays (insert 0%nat [1%nat; 0%nat; 0%nat]) ward.

Lemma deleteAsset_removes_first_match_witness :
  (exists w',
     Store.deleteAsset "a-2" wardTwice = (Done tt, w')
     /\ error w' = Some "Failed to delete asset"
     /\ arrays w' = arrays wardTwice)
  /\ (exists w',
        Store.deleteAsset "a-1" wardTwice = (Done tt, w')
        /\ storage w' = []
        /\ arrays w' !! assets w' = Some [1%nat; 0%nat]).
Proof.
  destruct (deleteAsset_removes_first_match wardTwice "a-2"
              [(1%nat, defibrillator); (0%nat, pump); (0%nat, pump)] eq_refl)
    as [Habsent _]; [repeat constructor|].
  destruct (deleteAsset_removes_first_match wardTwice "a-1"
              [(1%nat, defibrillator); (0%nat, pump); (0%nat, pump)] eq_refl)
    as [_ Hpresent]; [repeat constructor|].
  split.
  - destruct (Habsent eq_refl) as (w' & E & He & _ & Harr & _). eauto.
  - destruct (Hpresent eq_refl) as (w' & E & _ & _ & Hs & _ & _ & Harr). eauto.
Defined.

(** ** Changing an asset through the store *)

(** X20: how [updateAsset] routes one entry. A key that starts with
    [custom_] always goes to the custom fields, under the rest of the key,
    and never to [data], even when the rest names a property of [data];
    [location] is written to [data] without the dirty mark; a key that is
    neither of these nor a property of [data] is ignored. *)
Theorem update_routing (h : HospitalAsset.t) (k : string) (v : value) (s : string) :
  Store.applyUpdate h ("custom_" +:+ k, v) = Some (HospitalAsset.setCustomField k v h)
  /\ (exists h', Store.applyUpdate h ("location", VStr s) = Some h'
                 /\ HospitalAsset.getLocation h' = Some s
                 /\ HospitalAsset.isDirty h' = HospitalAsset.isDirty h)
  /\ (exists h', Store.applyUpdate h ("name", VStr s) = Some h'
                 /\ name (base (HospitalAsset.data h')) = s
                 /\ HospitalAsset.isDirty h' = true)
  /\ (JsString.startsWith "custom_" k = false ->
      k <> "location" -> k <> "condition" ->
      HospitalAsset.lookup k (HospitalAsset.data h) = None ->
      Store.applyUpdate h (k, v) = Some h).
Proof.
  split; [destruct k; reflexivity|]. split; [eexists; repeat split; reflexivity|].
  split; [eexists; repeat split; reflexivity|].
  intros Hc H1 H2 Hl. unfold Store.applyUpdate. rewrite Hc, Hl.
  apply String.eqb_neq in H1, H2. now rewrite H1, H2.
Qed.

(** X21: [updateAsset] with an id the repository does not hold reports
    that the asset was not found, whatever the updates are, and changes
    nothing else. *)
Theorem updateAsset_unknown_id (w : World) (i : string) (updates : list (string * value)) :
  JsMap.get i (storage w) = None ->
  exists w',
    Store.updateAsset i updates w = (Done tt, w')
    /\ error w' = Some ("Asset with ID " +:+ i +:+ " not found")
    /\ loading w' = false
    /\ objects w' = objects w /\ arrays w' = arrays w /\ assets w' = assets w
    /\ storage w' = storage w /\ localStorage w' = localStorage w.
Proof.
  intros H. unfold Store.updateAsset, AssetRepository.findById, bind, modify,
    try_finally, try_catch, gets, ret.
  fields_all. rewrite H. eexists. split; [reflexivity|].
  fields_all. repeat split; reflexivity.
Qed.

Lemma updateAsset_unknown_id_witness :
  exists w',
    Store.updateAsset "a-7" [("name", VStr "Pump")] ward = (Done tt, w')
    /\ error w' = Some "Asset with ID a-7 not found"
    /\ objects w' = objects ward.
Proof.
  destruct (updateAsset_unknown_id ward "a-7" [("name", VStr "Pump")] eq_refl)
    as (w' & E & He & _ & Ho & _).
  exists w'. split; [exact E|]. split; [exact He|exact Ho].
Defined.






(** ** Loading the working set *)

(** X24: when the repository holds something, [loadAssets] generates
    nothing: the working set becomes a new array with the stored entities in
    the order of the map, [error] is empty and nothing else changes; when
    generating the samples for an empty repository fails, the message
    becomes the [error] and the working set becomes a new, empty array. *)
Theorem loadAssets_shows_the_repository (seedSamples : M unit) (w : World) :
  (storage w <> [] ->
   exists w',
     Store.loadAssetsWith seedSamples w = (Done tt, w')
     /\ arrays w' !! assets w' = Some (List.map snd (storage w))
     /\ arrays w !! assets w' = None
     /\ error w' = None /\ loading w' = false
     /\ storage w' = storage w /\ objects w' = objects w
     /\ localStorage w' = localStorage w)
  /\ (storage w = [] ->
      forall message, (forall w0, exists w1, seedSamples w0 = (Raise message, w1)) ->
      exists w',
        Store.loadAssetsWith seedSamples w = (Done tt, w')
        /\ arrays w' !! assets w' = Some []
        /\ error w' = Some message /\ loading w' = false).
Proof.
  split.
  - intros Hne. unfold Store.loadAssetsWith, AssetRepository.findAll, bind, modify,
      try_finally, try_catch, gets, newArray, readArray.
    fields_all. rewrite lookup_insert_eq.
    assert (Hlen : (length (List.map snd (storage w)) =? 0)%nat = false).
    { destruct (storage w); [congruence|reflexivity]. }
    rewrite Hlen. unfold ret.
    eexists. split; [reflexivity|]. fields_all.
    split; [apply lookup_insert_eq|]. split; [apply not_elem_of_dom, is_fresh|].
    repeat split; reflexivity.
  - intros Hs message Hseed. unfold Store.loadAssetsWith, AssetRepository.findAll.
    unfold bind at 1. unfold modify at 1. unfold bind at 1. unfold modify at 1.
    unfold try_finally, try_catch.
    unfold bind at 1. unfold bind at 1, gets at 1, newArray at 1.
    fields_all. rewrite Hs. cbn [List.map].
    unfold bind at 1. unfold readArray at 1. fields_all. rewrite lookup_insert_eq.
    cbn [length Nat.eqb].
    unfold bind at 1. unfold bind at 1.
    match goal with |- context [seedSamples ?w0] =>
      destruct (Hseed w0) as [w1 E]; rewrite E end.
    unfold bind, modify, newArray.
    eexists. split; [reflexivity|]. fields_all.
    split; [apply lookup_insert_eq|]. split; reflexivity.
Qed.

Lemma loadAssets_shows_the_repository_witness :
  exists w',
    Store.loadAssetsWith (throw "Storage is full") wardTwice = (Done tt, w')
    /\ arrays w' !! assets w' = Some [0%nat]
    /\ arrays wardTwice !! assets w' = None
    /\ error w' = None.
Proof.
  destruct (loadAssets_shows_the_repository (throw "Storage is full") wardTwice) as [H _].
  destruct H as (w' & E & Ha & Hf & He & _); [discriminate|].
  exists w'. repeat split; assumption.
Defined.

(** ** Saving twice *)

Lemma JsMap_set_set {V : Type} (k : string) (v : V) (m : list (string * V)) :
  JsMap.set k v (JsMap.set k v m) = JsMap.set k v m.
Proof.
  induction m as [|[k' v'] m IH]; simpl.
  - now rewrite String.eqb_refl.
  - destruct (String.eqb k' k) eqn:E; simpl.
    + now rewrite String.eqb_refl.
    + now rewrite E, IH.
Qed.

(** The snapshot [saveToLocalStorage] would write, if it can write one. *)
Definition snapshotOf (w : World) : option Snapshot :=
  match entriesOf w with
  | Some entries =>
      match AssetRepository.serializeAll entries with
      | Ok snapshot => Some snapshot
      | Throw _ => None
      end
  | None => None
  end.

Lemma saveToLocalStorage_snapshot (w : World) :
  AssetRepository.saveToLocalStorage w
  = (Done tt, match snapshotOf w with
              | Some snapshot => set_localStorage (Some snapshot) w
              | None => w
              end).
Proof.
  unfold AssetRepository.saveToLocalStorage, snapshotOf, entriesOf.
  destruct (mapM _ _); [|reflexivity].
  destruct (AssetRepository.serializeAll _); reflexivity.
Qed.

Lemma saveToLocalStorage_again (w : World) :
  AssetRepository.saveToLocalStorage (AssetRepository.saveToLocalStorage w).2
  = (Done tt, (AssetRepository.saveToLocalStorage w).2).
Proof.
  rewrite (saveToLocalStorage_snapshot w). cbn [snd].
  destruct (snapshotOf w) as [snapshot|] eqn:E.
  - rewrite saveToLocalStorage_snapshot.
    change (snapshotOf (set_localStorage (Some snapshot) w)) with (snapshotOf w).
    rewrite E. f_equal.
  - rewrite saveToLocalStorage_snapshot, E. reflexivity.
Qed.

Lemma validate_clean (h : HospitalAsset.t) :
  HospitalAsset.validate (HospitalAsset.markAsClean (HospitalAsset.validate h).1)
  = (HospitalAsset.markAsClean (HospitalAsset.validate h).1, (HospitalAsset.validate h).2).
Proof. rewrite !validate_recorded. reflexivity. Qed.

(** X25: saving an entity a second time changes nothing: not the entity,
    not the map, not the snapshot. *)
Theorem save_again_changes_nothing (w w' : World) (r : loc) :
  AssetRepository.save r w = (Done tt, w') ->
  AssetRepository.save r w' = (Done tt, w').
Proof.
  intros E.
  destruct (objects w !! r) as [h|] eqn:H; [|rewrite (save_run_dangling w r H) in E; discriminate].
  destruct (HospitalAsset.validate h).2 eqn:Hv;
    [|rewrite (save_run_invalid w r h H Hv) in E; discriminate].
  rewrite (save_run_valid_then_persist w r h H Hv) in E.
  set (clean := HospitalAsset.markAsClean (HospitalAsset.validate h).1) in *.
  set (i := id (base (HospitalAsset.data h))) in *.
  set (w1 := set_objects _ _) in E.
  assert (Ew : w' = (AssetRepository.saveToLocalStorage w1).2) by now rewrite E.
  assert (Hobj : objects w' = <[r := clean]> (objects w)).
  { rewrite Ew, saveToLocalStorage_snapshot. cbn [snd]. now destruct (snapshotOf w1). }
  assert (Hsto : storage w' = JsMap.set i r (storage w)).
  { rewrite Ew, saveToLocalStorage_snapshot. cbn [snd]. now destruct (snapshotOf w1). }
  assert (Hclean : HospitalAsset.validate clean = (clean, true)).
  { unfold clean. now rewrite validate_clean, Hv. }
  rewrite (save_run_valid_then_persist w' r clean);
    [|rewrite Hobj; apply lookup_insert_eq|now rewrite Hclean].
  rewrite Hclean. cbn [fst].
  assert (Hid : id (base (HospitalAsset.data clean)) = i).
  { unfold clean. rewrite validate_recorded. reflexivity. }
  rewrite Hid.
  assert (Hsame : set_objects (fun _ => <[r := HospitalAsset.markAsClean clean]> (objects w'))
                    (set_storage (JsMap.set i r) w') = w').
  { same_world.
    - rewrite Hobj, insert_insert_eq. reflexivity.
    - rewrite Hsto. apply JsMap_set_set. }
  rewrite Hsame, Ew. apply saveToLocalStorage_again.
Qed.

Lemma save_again_changes_nothing_witness :
  exists w',
    AssetRepository.save 1%nat ward = (Done tt, w')
    /\ AssetRepository.save 1%nat w' = (Done tt, w').
Proof.
  destruct (save_run_valid ward 1%nat defibrillator eq_refl eq_refl) as [ls E].
  eexists. split; [exact E|]. exact (save_again_changes_nothing _ _ _ E).
Defined.

(** ** Creating twice, and creating then deleting *)

(** X26: [createAsset] does not look whether the asset is already shown:
    called twice with the same valid asset it appends it twice to the
    working set, while the repository keeps one entry for its id. *)
Theorem createAsset_twice_shows_twice (w : World) (r : loc) (h : HospitalAsset.t) (l : list loc) :
  objects w !! r = Some h ->
  (HospitalAsset.validate h).2 = true ->
  arrays w !! assets w = Some l ->
  exists w',
    (Store.createAsset r ;; Store.createAsset r) w = (Done tt, w')
    /\ arrays w' !! assets w' = Some (l ++ [r; r])
    /\ storage w' = JsMap.set (id (base (HospitalAsset.data h))) r (storage w)
    /\ error w' = None.
Proof.
  intros H Hv Ha.
  destruct (createAsset_valid w r h l H Hv Ha) as [ls E].
  set (clean := HospitalAsset.markAsClean (HospitalAsset.validate h).1) in *.
  set (w1 := set_loading false _) in E.
  assert (Hclean : HospitalAsset.validate clean = (clean, true)).
  { unfold clean. now rewrite validate_clean, Hv. }
  destruct (createAsset_valid w1 r clean (l ++ [r])) as [ls' E'].
  { unfold w1. fields. apply lookup_insert_eq. }
  { now rewrite Hclean. }
  { unfold w1. fields. apply lookup_insert_eq. }
  rewrite (bind_done _ _ w w1 tt E). rewrite E'.
  eexists. split; [reflexivity|]. fields.
  split; [rewrite lookup_insert_eq, <- app_assoc; reflexivity|].
  split; [|reflexivity].
  unfold clean. rewrite validate_recorded. cbn [fst HospitalAsset.markAsClean
    HospitalAsset.with_errors HospitalAsset.data]. apply JsMap_set_set.
Qed.

Lemma createAsset_twice_shows_twice_witness :
  exists w',
    (Store.createAsset 1%nat ;; Store.createAsset 1%nat) ward = (Done tt, w')
    /\ arrays w' !! assets w' = Some [0%nat; 1%nat; 1%nat]
    /\ storage w' = [("a-1", 0%nat); ("a-2", 1%nat)]
    /\ error w' = None.
Proof.
  exact (createAsset_twice_shows_twice ward 1%nat defibrillator [0%nat] eq_refl eq_refl eq_refl).
Defined.

Lemma JsMap_delete_set_new {V : Type} (k : string) (v : V) (m : list (string * V)) :
  JsMap.has k m = false -> JsMap.delete k (JsMap.set k v m) = m.
Proof.
  unfold JsMap.has, JsMap.delete. induction m as [|[k' v'] m IH]; simpl.
  - now rewrite String.eqb_refl.
  - destruct (String.eqb k' k) eqn:E; simpl; [discriminate|].
    intros H. now rewrite E, IH.
Qed.

Lemma firstIndex_last (p : HospitalAsset.t -> bool) (hs : list (loc * HospitalAsset.t))
    (x : loc * HospitalAsset.t) :
  Forall (fun y => p y.2 = false) hs -> p x.2 = true ->
  forall n, firstIndex p (hs ++ [x]) n = Some (n + length hs)%nat.
Proof.
  intros Hall Hx. induction Hall as [|y hs Hy _ IH]; intros n; simpl.
  - rewrite Hx. f_equal. lia.
  - rewrite Hy, IH. f_equal. lia.
Qed.

Lemma delete_last {A : Type} (l : list A) (x : A) : delete (length l) (l ++ [x]) = l.
Proof. induction l as [|y l IH]; simpl; [reflexivity|]. now rewrite IH. Qed.

(** X27: creating an asset and then deleting it by its id undoes the
    creation: when the id was new to the repository and no asset with that
    id was shown, the map of the repository and the working set are again
    what they were. The entity itself stays validated and clean. *)
Theorem create_then_delete_restores
    (w : World) (r : loc) (h : HospitalAsset.t) (hs : list (loc * HospitalAsset.t)) :
  objects w !! r = Some h ->
  (HospitalAsset.validate h).2 = true ->
  let i := id (base (HospitalAsset.data h)) in
  JsMap.has i (storage w) = false ->
  arrays w !! assets w = Some (List.map fst hs) ->
  Holds w hs ->
  Forall (fun x => Store.idIs i x.2 = false) hs ->
  exists w',
    (Store.createAsset r ;; Store.deleteAsset i) w = (Done tt, w')
    /\ storage w' = storage w
    /\ assets w' = assets w
    /\ arrays w' !! assets w' = Some (List.map fst hs)
    /\ error w' = None /\ loading w' = false
    /\ objects w' = <[r := HospitalAsset.markAsClean (HospitalAsset.validate h).1]> (objects w).
Proof.
  intros H Hv i Hnew Ha Hh Hids.
  destruct (createAsset_valid w r h (List.map fst hs) H Hv Ha) as [ls E].
  set (clean := HospitalAsset.markAsClean (HospitalAsset.validate h).1) in *.
  fold i in E. set (w1 := set_loading false _) in E.
  rewrite (bind_done _ _ w w1 tt E).
  assert (Hhas : JsMap.has i (storage (set_error None (set_loading true w1))) = true).
  { unfold w1, JsMap.has. fields. now rewrite JsMap_get_set. }
  destruct (delete_run_present _ i Hhas) as [ls' Ed].
  assert (Hholds : Holds w1 (hs ++ [(r, clean)])).
  { unfold Holds in *. apply Forall_app. split.
    - rewrite List.Forall_forall in *. intros x Hx. unfold w1. fields.
      rewrite lookup_insert_ne; [now apply Hh|].
      intros Er. specialize (Hh x Hx). specialize (Hids x Hx). cbn beta in Hh, Hids.
      rewrite <- Er, H in Hh. inversion Hh as [Eh]. rewrite <- Eh in Hids.
      unfold Store.idIs in Hids. fold i in Hids. now rewrite String.eqb_refl in Hids.
    - constructor; [|constructor]. unfold w1. fields. apply lookup_insert_eq. }
  assert (Hclean : Store.idIs i clean = true).
  { unfold Store.idIs, clean. rewrite validate_recorded. cbn. apply String.eqb_refl. }
  unfold Store.deleteAsset, bind, modify, try_finally, try_catch.
  rewrite Ed. cbn [negb]. unfold gets, readArray. fields_all.
  unfold w1 at 1 2. fields_all. rewrite lookup_insert_eq.
  replace (List.map fst hs ++ [r]) with (List.map fst (hs ++ [(r, clean)]))
    by (now rewrite map_app).
  rewrite findIndex_run
    by (unfold Holds in *; rewrite List.Forall_forall in *; intros x Hx; fields_all;
        now apply Hholds).
  rewrite (firstIndex_last (Store.idIs i) hs (r, clean) Hids Hclean 0%nat).
  unfold writeArray, modify. eexists. split; [reflexivity|]. fields_all.
  unfold w1. fields_all.
  split; [now apply JsMap_delete_set_new|]. split; [reflexivity|].
  split; [|repeat split; reflexivity].
  rewrite lookup_insert_eq, map_app. cbn [List.map fst plus].
  rewrite <- (length_map fst hs). now rewrite delete_last.
Qed.

Lemma create_then_delete_restores_witness :
  exists w',
    (Store.createAsset 1%nat ;; Store.deleteAsset "a-2") ward = (Done tt, w')
    /\ storage w' = storage ward
    /\ arrays w' !! assets w' = Some [0%nat].
Proof.
  destruct (create_then_delete_restores ward 1%nat defibrillator [(0%nat, pump)]
              eq_refl eq_refl eq_refl eq_refl)
    as (w' & E & Hs & _ & Ha & _); [repeat constructor..|].
  exists w'. split; [exact E|]. split; [exact Hs|exact Ha].
Defined.

(** ** The errors map *)

(** X28: [addError] never loses a message: the messages of the field are
    the ones it had, in their order, followed by the new one; the other
    fields keep theirs, and the fields stay distinct, a new field coming
    last. *)
Theorem addError_appends (field message : string) (e : Model.Errors) :
  JsMap.get field (Model.addError field message e)
  = Some (default [] (JsMap.get field e) ++ [message])
  /\ (forall g, g <> field ->
        JsMap.get g (Model.addError field message e) = JsMap.get g e)
  /\ List.map fst (Model.addError field message e)
     = (if JsMap.has field e then List.map fst e else List.map fst e ++ [field])
  /\ (List.NoDup (List.map fst e) ->
      List.NoDup (List.map fst (Model.addError field message e))).
Proof.
  assert (Hkeys : List.map fst (Model.addError field message e)
                  = if JsMap.has field e then List.map fst e else List.map fst e ++ [field]).
  { unfold JsMap.has. induction e as [|[f ms] e IH]; simpl; [reflexivity|].
    destruct (String.eqb f field) eqn:E; simpl; [reflexivity|].
    rewrite IH. destruct (JsMap.get field e); reflexivity. }
  split; [|split; [|split; [exact Hkeys|]]].
  - clear Hkeys. induction e as [|[f ms] e IH]; simpl.
    + now rewrite String.eqb_refl.
    + destruct (String.eqb f field) eqn:E; simpl; rewrite E; [reflexivity|apply IH].
  - intros g Hg. clear Hkeys. induction e as [|[f ms] e IH]; simpl.
    + destruct (String.eqb field g) eqn:E; [apply String.eqb_eq in E; congruence|reflexivity].
    + destruct (String.eqb f field) eqn:E; simpl.
      * apply String.eqb_eq in E. subst f.
        destruct (String.eqb field g) eqn:E'; [apply String.eqb_eq in E'; congruence|reflexivity].
      * now rewrite IH.
  - intros Hd. rewrite Hkeys. destruct (JsMap.has field e) eqn:E; [exact Hd|].
    assert (Hk : ~ In field (List.map fst e)).
    { intros Hin. apply JsMap_has_In in Hin. congruence. }
    clear E Hkeys. induction (List.map fst e) as [|x l IH]; simpl.
    + constructor; [intros []|constructor].
    + inversion Hd; subst. constructor.
      * rewrite in_app_iff. simpl. intros [Hx|[Hx|[]]]; [auto|]. subst. apply Hk. now left.
      * apply IH; [assumption|]. intros Hin. apply Hk. now right.
Qed.

(** X29: the inherited validation records at most one message per field,
    on the four fields it looks at and in the order name, quantity,
    serialNumber, reorderPoint. *)
Theorem validation_one_message_per_field (d : AssetData) :
  Forall (fun entry => length entry.2 = 1%nat) (Asset.validation d)
  /\ sublist (List.map fst (Asset.validation d))
       ["name"; "quantity"; "serialNumber"; "reorderPoint"].
Proof.
  unfold Asset.validation, Asset.checkReorderPoint, Asset.checkSerialNumber,
    Asset.checkQuantity, Asset.checkName, Model.clearErrors.
  destruct (negb (JsString.truthy (JsString.trim (name d))));
    [|destruct (100 <? String.length (name d))%nat];
    (destruct (quantity d <? 0)%float;
     [|destruct (Number.gtb (quantity d) 999999);
       [|destruct (negb (Number.isInteger (quantity d)))]]);
    (destruct (negb (JsString.truthy (serialNumber d)));
     [|destruct (negb (Asset.matchesSerial (serialNumber d)))]);
    destruct (reorderPoint d <? 0)%float;
    (split; [repeat constructor|]);
    cbn [Model.addError String.eqb Ascii.eqb Bool.eqb List.map fst];
    repeat first [apply sublist_nil_l | apply sublist_skip | apply sublist_cons].
Qed.

(** ** One category, seen from the store and from the repository *)

(** X30: when the working set lists the stored entities and only a
    category is selected, the store shows exactly the assets
    [findByCategory] returns for that category, up to the order the store
    sorts them in. The category must not be the empty string, for which the
    store applies no filter. *)
Theorem category_filter_agrees_with_findByCategory
    (w : World) (hs : list (loc * HospitalAsset.t)) (c : string) :
  Stored w hs ->
  arrays w !! assets w = Some (List.map snd (storage w)) ->
  activeFilter w = FilterAll ->
  searchQuery w = "" ->
  selectedCategory w = Some c ->
  c <> "" ->
  exists r w1 shown a w2 found,
    Store.filteredAssets w = (Done r, w1)
    /\ arrays w1 !! r = Some (List.map fst shown)
    /\ AssetRepository.findByCategory c w = (Done a, w2)
    /\ arrays w2 !! a = Some (List.map fst found)
    /\ found = List.filter (fun x => String.eqb (category (base (HospitalAsset.data x.2))) c) hs
    /\ Permutation shown found.
Proof.
  intros Hs Ha Hf Hq Hc Hne.
  pose proof Hs as [Hmap Hh]. rewrite <- Hmap in Ha.
  destruct (filteredAssets_run w hs Ha Hh) as (r & w1 & E & [Hr _ _ _]).
  destruct (query_run (fun h => String.eqb (category (base (HospitalAsset.data h))) c) w hs Hs)
    as (a & w2 & E2 & Ha2 & _).
  eexists r, w1, _, a, w2, _. split; [exact E|]. split; [exact Hr|].
  split; [exact E2|]. split; [exact Ha2|]. split; [reflexivity|].
  rewrite sort_perm. unfold selected. rewrite Hf, Hq, Hc.
  rewrite (filter_all (fun x => passesActive FilterAll x.2)) by (intros x; reflexivity).
  rewrite (filter_all (fun x => passesSearch "" x.2)) by (intros x; reflexivity).
  assert (Hsame : forall x : loc * HospitalAsset.t,
            passesCategory (Some c) x.2
            = String.eqb (category (base (HospitalAsset.data x.2))) c).
  { intros x. unfold passesCategory. destruct c; [congruence|reflexivity]. }
  erewrite filter_ext; [reflexivity|exact Hsame].
Qed.

Definition wardByCategory : World := set_selectedCategory (Some "Equipment") ward.

Lemma category_filter_agrees_with_findByCategory_witness :
  exists r w1 shown a w2 found,
    Store.filteredAssets wardByCategory = (Done r, w1)
    /\ arrays w1 !! r = Some (List.map fst shown)
    /\ AssetRepository.findByCategory "Equipment" wardByCategory = (Done a, w2)
    /\ arrays w2 !! a = Some (List.map fst found)
    /\ found = [(0%nat, pump)]
    /\ Permutation shown found.
Proof.
  apply (category_filter_agrees_with_findByCategory wardByCategory [(0%nat, pump)] "Equipment");
    try reflexivity; [|discriminate].
  split; [reflexivity|]. repeat constructor.
Defined.
